(** * Autosupport parser: a shallow embedding of [autosupport_parser.py]

    The development follows the Python source function by function:
    - Python [str] values are [text] (lists of characters, code points
      below 256); dictionaries are stdpp [gmap]s; lists are lists;
    - the patterns given to [re.search], [re.findall], [re.split] and
      [re.match] are regular-expression syntax trees, run by a backtracking
      matcher with the priorities of Python's engine (leftmost match,
      alternatives left to right, greedy and lazy repetition, atomic
      lookahead);
    - the [try]/[except] of [parse_autosupport_file] is an error monad whose
      only failing primitive is reading the file. *)

From Stdlib Require Import Ascii String List ZArith Lia Bool.
From stdpp Require Import gmap strings list fin_maps sorting.

Local Open Scope nat_scope.

(** ** Characters and text *)

Abbreviation text := (list ascii).

(** A string literal of the source, as text. *)
Definition str (s : string) : text := list_ascii_of_string s.

Definition ord (c : ascii) : nat := nat_of_ascii c.

(** The line feed character. *)
Definition NL : ascii := ascii_of_nat 10.

Definition ascii_eqb (a b : ascii) : bool := Ascii.eqb a b.

(** [str.isspace] and the class [\s], on code points below 256. *)
Definition isspace (c : ascii) : bool :=
  let n := ord c in
  ((9 <=? n) && (n <=? 13)) || ((28 <=? n) && (n <=? 32))
  || (n =? 133) || (n =? 160).

(** The class [\d] on code points below 256. *)
Definition isdigit (c : ascii) : bool :=
  let n := ord c in (48 <=? n) && (n <=? 57).

(** Lower-casing of the letters A-Z; no other character below 256 lowers
    to an ASCII letter, and the source only compares against ASCII. *)
Definition lower (c : ascii) : ascii :=
  let n := ord c in
  if (65 <=? n) && (n <=? 90) then ascii_of_nat (n + 32) else c.

Definition text_lower (s : text) : text := map lower s.

Fixpoint text_eqb (a b : text) : bool :=
  match a, b with
  | [], [] => true
  | x :: a', y :: b' => ascii_eqb x y && text_eqb a' b'
  | _, _ => false
  end.

(** ** String methods of Python used by the parser *)

(** [s.startswith(p)] *)
Fixpoint startswith (p s : text) : bool :=
  match p, s with
  | [], _ => true
  | x :: p', y :: s' => ascii_eqb x y && startswith p' s'
  | _ :: _, [] => false
  end.

(** [p in s] *)
Fixpoint contains (p s : text) : bool :=
  startswith p s ||
  match s with
  | [] => false
  | _ :: s' => contains p s'
  end.

Fixpoint drop_while (p : ascii -> bool) (s : text) : text :=
  match s with
  | c :: s' => if p c then drop_while p s' else s
  | [] => []
  end.

Definition lstrip (s : text) : text := drop_while isspace s.

(** [s.rstrip(chars)], the characters to remove given as a predicate. *)
Definition rstrip_by (p : ascii -> bool) (s : text) : text :=
  rev (drop_while p (rev s)).

Definition rstrip (s : text) : text := rstrip_by isspace s.

(** [s.strip()] *)
Definition strip (s : text) : text := rstrip (lstrip s).

(** [s.partition(sep)] when [sep] occurs: the text before and after the
    first occurrence. *)
Fixpoint partition_at (sep s : text) : option (text * text) :=
  if startswith sep s then Some ([], skipn (length sep) s)
  else match s with
       | [] => None
       | c :: s' =>
           match partition_at sep s' with
           | Some (a, b) => Some (c :: a, b)
           | None => None
           end
       end.

Fixpoint split_fuel (fuel : nat) (sep s : text) : list text :=
  match fuel with
  | 0 => [s]
  | S f =>
      match partition_at sep s with
      | Some (a, b) => a :: split_fuel f sep b
      | None => [s]
      end
  end.

(** [s.split(sep)] for a non-empty separator: every occurrence consumes a
    character, so [length s] rounds are enough. *)
Definition split (sep s : text) : list text := split_fuel (length s) sep s.

(** [s.split(c)] for a one-character separator, by recursion on [s]. *)
Fixpoint split_char (c : ascii) (s : text) : list text :=
  match s with
  | [] => [[]]
  | x :: s' =>
      if ascii_eqb x c then [] :: split_char c s'
      else match split_char c s' with
           | l :: ls => (x :: l) :: ls
           | [] => [[x]]
           end
  end.

(** [s.split('\n')] *)
Definition split_lines (s : text) : list text := split_char NL s.

(** One token of [s.split()]: the leading run of non-space characters and
    what follows it. *)
Fixpoint take_token (s : text) : text * text :=
  match s with
  | [] => ([], [])
  | c :: s' =>
      if isspace c then ([], s)
      else let (t, r) := take_token s' in (c :: t, r)
  end.

Fixpoint split_ws_fuel (fuel : nat) (s : text) : list text :=
  match fuel with
  | 0 => []
  | S f =>
      match lstrip s with
      | [] => []
      | c :: s' => let (t, r) := take_token (c :: s') in t :: split_ws_fuel f r
      end
  end.

(** [s.split()]: the maximal runs of non-space characters. *)
Definition split_ws (s : text) : list text := split_ws_fuel (length s) s.

(** [sep.join(l)] *)
Fixpoint join (sep : text) (l : list text) : text :=
  match l with
  | [] => []
  | [x] => x
  | x :: l' => x ++ sep ++ join sep l'
  end.

(** [l[i]] at an index the source has checked to be in range. *)
Definition item (l : list text) (i : nat) : text := nth i l [].

(** [l[-1]] of a non-empty list. *)
Definition last_item (l : list text) : text := List.last l [].

(** [l[i] if len(l) > i else 'N/A'] *)
Definition item_or_na (l : list text) (i : nat) : text :=
  if i <? length l then item l i else str "N/A".

(** [s.find(sub)]: index of the first occurrence, [-1] when there is none. *)
Fixpoint find_from (sub s : text) (i : nat) : Z :=
  if startswith sub s then Z.of_nat i
  else match s with
       | [] => (-1)%Z
       | _ :: s' => find_from sub s' (S i)
       end.

Definition py_find (sub s : text) : Z := find_from sub s 0.

(** [s[i:j]] with Python's treatment of negative and out-of-range bounds. *)
Definition py_slice (s : text) (i j : Z) : text :=
  let n := Z.of_nat (length s) in
  let norm x := if (x <? 0)%Z then Z.max 0 (x + n) else Z.min x n in
  let a := norm i in
  let b := norm j in
  firstn (Z.to_nat (b - a)) (skipn (Z.to_nat a) s).

(** ** Regular expressions *)

(** The syntax of the patterns that occur in the source. [Rep g lo r] is
    [r{lo,}], greedy when [g] and lazy otherwise: [r*] is [Rep true 0 r],
    [r+] is [Rep true 1 r], [r*?] is [Rep false 0 r]. *)
Inductive regex : Type :=
| Lit (c : ascii)
| Dot
| Space
| NotSpace
| Digit
| NotChar (c : ascii)
| Eps
| Bol
| Eol
| EndZ
| Cat (r1 r2 : regex)
| Alt (r1 r2 : regex)
| Rep (greedy : bool) (lo : nat) (r : regex)
| Group (n : nat) (r : regex)
| Ahead (r : regex).

(** The flags [re.IGNORECASE], [re.MULTILINE] and [re.DOTALL]. *)
Record flags : Type := Flags {
  ignorecase : bool;
  multiline : bool;
  dotall : bool
}.

Definition no_flags : flags := Flags false false false.
Definition IGNORECASE : flags := Flags true false false.
Definition MULTILINE : flags := Flags false true false.
Definition DOTALL : flags := Flags false false true.
Definition DOTALL_MULTILINE : flags := Flags false true true.

(** The pattern matching the characters of [s] one after the other. *)
Fixpoint lit_text (s : text) : regex :=
  match s with
  | [] => Eps
  | [c] => Lit c
  | c :: s' => Cat (Lit c) (lit_text s')
  end.

Definition lit (s : string) : regex := lit_text (str s).

(** Concatenation of a list of patterns. *)
Fixpoint cat (l : list regex) : regex :=
  match l with
  | [] => Eps
  | [r] => r
  | r :: l' => Cat r (cat l')
  end.

Definition star (r : regex) : regex := Rep true 0 r.
Definition plus (r : regex) : regex := Rep true 1 r.
Definition lazy_star (r : regex) : regex := Rep false 0 r.

(** The captured groups, most recent first. *)
Abbreviation caps := (list (nat * text)).

(** [m.group(n)]; a group that took no part in the match reads as empty
    (every group of the source's patterns takes part in every match). *)
Fixpoint group (n : nat) (cs : caps) : text :=
  match cs with
  | [] => []
  | (i, t) :: cs' => if i =? n then t else group n cs'
  end.

(** State of the matcher: the character before the current position
    ([None] at the start of the text), the text from the current position
    on, and the groups captured so far. *)
Record mstate : Type := MState {
  ms_prev : option ascii;
  ms_rest : text;
  ms_caps : caps
}.

Abbreviation kont := (option ascii -> text -> caps -> option mstate).

Definition test_char (fl : flags) (r : regex) (c : ascii) : bool :=
  match r with
  | Lit x => if ignorecase fl then ascii_eqb (lower x) (lower c) else ascii_eqb x c
  | Dot => dotall fl || negb (ascii_eqb c NL)
  | Space => isspace c
  | NotSpace => negb (isspace c)
  | Digit => isdigit c
  | NotChar x => negb (ascii_eqb c x)
  | _ => false
  end.

Definition at_bol (fl : flags) (prev : option ascii) : bool :=
  match prev with
  | None => true
  | Some c => multiline fl && ascii_eqb c NL
  end.

Definition at_eol (fl : flags) (s : text) : bool :=
  match s with
  | [] => true
  | c :: s' =>
      ascii_eqb c NL && (multiline fl || match s' with [] => true | _ => false end)
  end.

Definition at_end (s : text) : bool :=
  match s with [] => true | _ => false end.

(** A pattern that consumes one character satisfying [p]. *)
Definition step_char (p : ascii -> bool)
    (prev : option ascii) (s : text) (cs : caps) (k : kont) : option mstate :=
  match s with
  | c :: s' => if p c then k (Some c) s' cs else None
  | [] => None
  end.

(** Repetition of [body]: [count] iterations are done. Greedy repetition
    tries one more iteration before leaving, lazy repetition the other way
    round. An iteration has to consume a character (no repeated sub-pattern
    of the source matches the empty text), so the length of the text bounds
    the number of iterations. *)
Fixpoint rep_loop (body : option ascii -> text -> caps -> kont -> option mstate)
    (greedy : bool) (lo fuel count : nat)
    (prev : option ascii) (s : text) (cs : caps) (k : kont) : option mstate :=
  match fuel with
  | 0 => if lo <=? count then k prev s cs else None
  | S fuel' =>
      if greedy then
        match body prev s cs (fun p' s' cs' =>
                if length s' <? length s
                then rep_loop body greedy lo fuel' (S count) p' s' cs' k
                else None) with
        | Some x => Some x
        | None => if lo <=? count then k prev s cs else None
        end
      else
        match (if lo <=? count then k prev s cs else None) with
        | Some x => Some x
        | None =>
            body prev s cs (fun p' s' cs' =>
                if length s' <? length s
                then rep_loop body greedy lo fuel' (S count) p' s' cs' k
                else None)
        end
  end.

(** The backtracking matcher, in continuation-passing style: [rmatch fl r
    prev s cs k] matches [r] at the current position and hands the state
    after it to [k]; when [k] fails the next way of matching [r] is tried. *)
Fixpoint rmatch (fl : flags) (r : regex)
    (prev : option ascii) (s : text) (cs : caps) (k : kont) : option mstate :=
  match r with
  | Lit _ | Dot | Space | NotSpace | Digit | NotChar _ =>
      step_char (test_char fl r) prev s cs k
  | Eps => k prev s cs
  | Bol => if at_bol fl prev then k prev s cs else None
  | Eol => if at_eol fl s then k prev s cs else None
  | EndZ => if at_end s then k prev s cs else None
  | Cat r1 r2 =>
      rmatch fl r1 prev s cs (fun p' s' cs' => rmatch fl r2 p' s' cs' k)
  | Alt r1 r2 =>
      match rmatch fl r1 prev s cs k with
      | Some x => Some x
      | None => rmatch fl r2 prev s cs k
      end
  | Rep g lo r' => rep_loop (rmatch fl r') g lo (length s) 0 prev s cs k
  | Group n r' =>
      rmatch fl r' prev s cs (fun p' s' cs' =>
        k p' s' ((n, firstn (length s - length s') s) :: cs'))
  | Ahead r' =>
      match rmatch fl r' prev s cs (fun p' s' cs' => Some (MState p' s' cs')) with
      | Some st => k prev s (ms_caps st)
      | None => None
      end
  end.

(** A match found by a search: the text skipped before it, and the state at
    its end. *)
Record found : Type := Found {
  f_before : text;
  f_prev : option ascii;
  f_rest : text;
  f_caps : caps
}.

(** The final continuation. With [adv] (the previous match of [findall] or
    [split] was empty), a match that ends where the search started is
    refused. *)
Definition accept (adv : bool) (start : text) : kont :=
  fun p s cs =>
    if adv && (length s =? length start) then None else Some (MState p s cs).

(** [re.match]: a match at the current position only. *)
Definition match_here (fl : flags) (r : regex) (adv : bool)
    (start : text) (prev : option ascii) (s : text) : option mstate :=
  rmatch fl r prev s [] (accept adv start).

(** The leftmost match at or after the current position. *)
Fixpoint search_from (fl : flags) (r : regex) (adv : bool) (start : text)
    (prev : option ascii) (s : text) : option found :=
  match match_here fl r adv start prev s with
  | Some st => Some (Found [] (ms_prev st) (ms_rest st) (ms_caps st))
  | None =>
      match s with
      | [] => None
      | c :: s' =>
          match search_from fl r adv start (Some c) s' with
          | Some f => Some (Found (c :: f_before f) (f_prev f) (f_rest f) (f_caps f))
          | None => None
          end
      end
  end.

(** [re.search(r, s, flags)] *)
Definition re_search (fl : flags) (r : regex) (s : text) : option found :=
  search_from fl r false s None s.

(** [re.match(r, s)] *)
Definition re_match (fl : flags) (r : regex) (s : text) : option mstate :=
  match_here fl r false s None s.

(** The successive non-overlapping matches, as [re.findall] and [re.split]
    enumerate them: each search starts where the previous match ended, and
    after an empty match the next one has to advance. *)
Fixpoint matches_fuel (fuel : nat) (fl : flags) (r : regex) (adv : bool)
    (prev : option ascii) (s : text) : list found :=
  match fuel with
  | 0 => []
  | S f =>
      match search_from fl r adv s prev s with
      | None => []
      | Some m =>
          let empty := length (f_rest m) + length (f_before m) =? length s in
          m :: matches_fuel f fl r empty (f_prev m) (f_rest m)
      end
  end.

(** A position carries at most an empty match and one that advances. *)
Definition matches (fl : flags) (r : regex) (s : text) : list found :=
  matches_fuel (2 * length s + 2) fl r false None s.

(** [re.findall(r, s, flags)]: the groups of every match. *)
Definition re_findall (fl : flags) (r : regex) (s : text) : list caps :=
  map f_caps (matches fl r s).

(** [re.split(r, s)] for a pattern without groups: the pieces before each
    match, and the piece after the last one. *)
Definition re_split (fl : flags) (r : regex) (s : text) : list text :=
  let ms := matches fl r s in
  map f_before ms ++ [match last ms with Some m => f_rest m | None => s end].

(** [re.sub(r'\*', '', s)]: every asterisk removed. *)
Definition remove_stars (s : text) : text :=
  filter (fun c => negb (ascii_eqb c "*"%char)) s.

(** [re.sub(r, repl, s)] for a pattern without groups and a replacement
    without escapes: each match is replaced by [repl]. *)
Definition re_sub (fl : flags) (r : regex) (repl s : text) : text :=
  let ms := matches fl r s in
  concat (map (fun m => f_before m ++ repl) ms)
  ++ match last ms with Some m => f_rest m | None => s end.

(** [re.sub(r'[chars]', repl, s)] for a set of characters: each character of
    the set is replaced. *)
Definition sub_chars (chars : list ascii) (repl : ascii) (s : text) : text :=
  map (fun c => if existsb (ascii_eqb c) chars then repl else c) s.

(** [s.endswith(p)] *)
Definition endswith (p s : text) : bool := startswith (rev p) (rev s).

(** The order of Python on strings: lexicographic, by code point. *)
Definition text_le (a b : text) : Prop :=
  String.le (string_of_list_ascii a) (string_of_list_ascii b).

Global Instance text_le_dec : RelDecision text_le :=
  fun a b => String.le_dec (string_of_list_ascii a) (string_of_list_ascii b).

(** [sorted(l)] for a list of strings. *)
Definition py_sorted (l : list text) : list text := merge_sort text_le l.

(** Python's truth value of a string: non-empty. *)
Definition nonempty (s : text) : bool :=
  match s with [] => false | _ => true end.

(** [x in l] for a list of strings. *)
Definition text_in (x : text) (l : list string) : bool :=
  existsb (fun y => text_eqb x (str y)) l.

(** [any(h in s for h in l)] *)
Definition any_in (l : list string) (s : text) : bool :=
  existsb (fun h => contains (str h) s) l.

(** ** The parser *)

Module AutosupportParser.

(** Fields to extract from autosupport files. *)
Definition REQUIRED_FIELDS : list string :=
  ["GENERATED_ON"; "SYSTEM_SERIALNO"; "DELL_SERVICETAG"; "MODEL_NO";
   "HOSTNAME"; "LOCATION"].

(** Services to check. *)
Definition SERVICES : list string :=
  ["NFS"; "CIFS"; "NDMP"; "CLOUD_TIER"; "REPLICATION"].

(** A row of a table: column name to cell. *)
Abbreviation row := (gmap string text).

(** *** Field extraction *)

(** The pattern of the loop over the fields: at the start of a line, the
    field name and an equals sign, then group 1, the rest of the line (the
    field names of the allowlist hold no character that is special in a
    pattern). *)
Definition field_pattern (field : string) : regex :=
  cat [Bol; lit field; Lit "="; Group 1 (star Dot); Eol].

(** The body of the loop over [REQUIRED_FIELDS]. *)
Definition extract_field (content : text) (field : string) : text :=
  match re_search MULTILINE (field_pattern field) content with
  | Some m => strip (group 1 (f_caps m))
  | None => str "N/A"
  end.

(** *** Service status *)

Definition searches (fl : flags) (r : regex) (content : text) : bool :=
  match re_search fl r content with Some _ => true | None => false end.

Definition nfs_active : regex :=
  lit "The NFS system is currently active and running".
Definition nfs_disabled : regex :=
  Alt (cat [lit "NFS"; star Dot; lit "disabled"])
      (cat [lit "NFS"; star Dot; lit "not"; star Dot; lit "running"]).
Definition cifs_disabled : regex := lit "CIFS is disabled".
Definition cifs_enabled : regex :=
  Alt (cat [lit "CIFS"; star Dot; lit "enabled"])
      (cat [lit "CIFS"; star Dot; lit "active"]).
Definition ndmp_disabled : regex := lit "NDMP daemon admin_state: disabled".
Definition ndmp_enabled : regex := lit "NDMP daemon admin_state: enabled".
Definition cloud_tier_title : regex := cat [lit "CLOUD TIER"; star Dot; Lit ":"].
Definition cloud_unit : regex := lit "Cloud Unit:".
Definition cloud_disabled : regex := cat [lit "cloud"; star Dot; lit "disabled"].
Definition repl_enabled_yes : regex := cat [lit "Enabled:"; plus Space; lit "yes"].
Definition repl_enabled_no : regex :=
  Alt (cat [lit "Enabled:"; plus Space; lit "no"])
      (cat [lit "replication"; star Dot; lit "disabled"]).
Definition repl_status : regex := lit "Replication Status".

Definition nfs_status (content : text) : text :=
  if searches IGNORECASE nfs_active content then str "Enabled"
  else if searches IGNORECASE nfs_disabled content then str "Disabled"
  else str "Unknown".

Definition cifs_status (content : text) : text :=
  if searches IGNORECASE cifs_disabled content then str "Disabled"
  else if searches IGNORECASE cifs_enabled content then str "Enabled"
  else str "Unknown".

Definition ndmp_status (content : text) : text :=
  if searches IGNORECASE ndmp_disabled content then str "Disabled"
  else if searches IGNORECASE ndmp_enabled content then str "Enabled"
  else str "Unknown".

Definition cloud_tier_status (content : text) : text :=
  if searches no_flags cloud_tier_title content
     || searches no_flags cloud_unit content then str "Enabled"
  else if searches IGNORECASE cloud_disabled content then str "Disabled"
  else str "Unknown".

Definition replication_status (content : text) : text :=
  if searches IGNORECASE repl_enabled_yes content then str "Enabled"
  else if searches IGNORECASE repl_enabled_no content then str "Disabled"
  else if searches no_flags repl_status content then str "Configured"
  else str "Unknown".

Definition parse_services_status (content : text) : gmap string text :=
  let services_status : gmap string text := ∅ in
  let services_status := <["NFS" := nfs_status content]> services_status in
  let services_status := <["CIFS" := cifs_status content]> services_status in
  let services_status := <["NDMP" := ndmp_status content]> services_status in
  let services_status := <["CLOUD_TIER" := cloud_tier_status content]> services_status in
  let services_status := <["REPLICATION" := replication_status content]> services_status in
  services_status.

(** *** Retention locks *)

(** The dictionary built for each mtree; its four keys are set when it is
    created and no other key is ever assigned. *)
Record retention_info : Type := RetentionInfo {
  Retention_Lock : text;
  Lock_Mode : text;
  Min_Retention_Period : text;
  Max_Retention_Period : text
}.

Definition retention_pattern : regex :=
  cat [lit "Mtree: "; Group 1 (Cat (lit "/data/col1/") (plus NotSpace));
       star Space; Lit NL; star Space; lit "Option"; plus Space; lit "Value";
       star Space; Lit NL;
       plus (Lit "-"); plus Space; plus (Lit "-"); star Space; Lit NL;
       Group 2 (lazy_star Dot);
       Lit NL; plus (Lit "-"); plus Space; plus (Lit "-");
       Ahead (Alt (Cat (star Space) (Lit NL)) Eol)].

(** The pattern [\s{2,}] of the column splits. *)
Definition two_spaces : regex := Rep true 2 Space.

(** One line of the options section. *)
Definition retention_option (info : retention_info) (line : text) : retention_info :=
  if negb (nonempty (strip line)) then info
  else
    let parts := re_split no_flags two_spaces (strip line) in
    if 2 <=? length parts then
      let opt := strip (item parts 0) in
      let value := strip (item parts 1) in
      if text_eqb opt (str "Retention-lock") then
        if startswith (str "enabled") (text_lower value)
        then RetentionInfo (str "enabled") (Lock_Mode info)
               (Min_Retention_Period info) (Max_Retention_Period info)
        else RetentionInfo (str "disabled") (Lock_Mode info)
               (Min_Retention_Period info) (Max_Retention_Period info)
      else if text_eqb opt (str "Retention-lock mode") then
        RetentionInfo (Retention_Lock info)
          (if negb (text_eqb value (str "N/A")) then value else str "N/A")
          (Min_Retention_Period info) (Max_Retention_Period info)
      else if text_eqb opt (str "Retention-lock min-retention-period") then
        RetentionInfo (Retention_Lock info) (Lock_Mode info)
          value (Max_Retention_Period info)
      else if text_eqb opt (str "Retention-lock max-retention-period") then
        RetentionInfo (Retention_Lock info) (Lock_Mode info)
          (Min_Retention_Period info) value
      else info
    else info.

Definition retention_of_section (options_section : text) : retention_info :=
  fold_left retention_option (split_lines (strip options_section))
    (RetentionInfo (str "disabled") (str "N/A") (str "N/A") (str "N/A")).

Definition parse_mtree_retention_locks (content : text) : gmap text retention_info :=
  fold_left
    (fun retention_locks cs =>
       <[group 1 cs := retention_of_section (group 2 cs)]> retention_locks)
    (re_findall DOTALL_MULTILINE retention_pattern content) ∅.

(** *** Replication contexts *)

Record replication_data : Type := ReplicationData {
  Mode : text;
  Connection_Host : text;
  Enabled : text
}.

Definition replication_pattern : regex :=
  cat [lit "CTX:"; plus Space; plus Digit; star Space; Lit NL;
       Group 1 (lazy_star Dot);
       Ahead (Alt (cat [lit "CTX:"; plus Space; plus Digit])
                  (Alt (lit "Replication Options") Eol))].

(** [line.split(':', 1)[1]]: what follows the first colon (the callers have
    checked that the line starts with a label that ends in a colon). *)
Definition after_colon (line : text) : text :=
  match partition_at (str ":") line with
  | Some (_, rest) => rest
  | None => []
  end.

(** One line of a replication context: the data and the mtree path so far. *)
Definition replication_line (st : replication_data * option text) (line : text)
    : replication_data * option text :=
  let (data, mtree_path) := st in
  let line := strip line in
  if startswith (str "Mode:") line then
    let mode_value := strip (after_colon line) in
    (ReplicationData mode_value (Connection_Host data) (Enabled data), mtree_path)
  else if startswith (str "Destination:") line then
    let dest_value := strip (after_colon line) in
    if contains (str "/data/col1/") dest_value then
      (data, Some (str "/data/col1/" ++ last_item (split (str "/data/col1/") dest_value)))
    else (data, mtree_path)
  else if startswith (str "Connection Host:") line then
    let host_value := strip (after_colon line) in
    if contains (str ".") host_value then
      (ReplicationData (Mode data) (item (split_char "." host_value) 0) (Enabled data),
       mtree_path)
    else
      (ReplicationData (Mode data) host_value (Enabled data), mtree_path)
  else if startswith (str "Enabled:") line then
    let enabled_value := strip (after_colon line) in
    (ReplicationData (Mode data) (Connection_Host data) enabled_value, mtree_path)
  else (data, mtree_path).

Definition replication_of_section (section : text) : replication_data * option text :=
  fold_left replication_line (split_lines (strip section))
    (ReplicationData (str "N/A") (str "N/A") (str "N/A"), None).

Definition parse_mtree_replication_info (content : text) : gmap text replication_data :=
  fold_left
    (fun replication_info cs =>
       match replication_of_section (group 1 cs) with
       | (data, Some mtree_path) =>
           if nonempty mtree_path
           then <[mtree_path := data]> replication_info
           else replication_info
       | (_, None) => replication_info
       end)
    (re_findall DOTALL replication_pattern content) ∅.

(** *** Cloud profiles *)

Definition profiles_pattern : regex :=
  cat [lit "Cloud Profiles"; star Space; Lit NL; Rep true 10 (Lit "-");
       star Space; Lit NL;
       Group 1 (lazy_star Dot);
       Ahead (Alt (Cat (Lit NL) (lit "Cloud Unit List"))
                  (Alt (Cat (Lit NL) (lit "Cloud Data-Movement")) Eol))].

(** The zero-width pattern that splits the section before every
    [Profile name:]. *)
Definition profile_boundary : regex := Ahead (lit "Profile name:").

(** [line.split(label)[1].strip()], for a line that starts with [label]. *)
Definition after_label (label : string) (line : text) : text :=
  strip (item (split (str label) line) 1).

Definition or_na (s : text) : text := if nonempty s then s else str "N/A".

(** One line of a profile block. *)
Definition profile_line (profile_data : row) (line : text) : row :=
  let line := strip line in
  if negb (nonempty line) then profile_data
  else if startswith (str "Profile name:") line then
    <["Profile_Name" := after_label "Profile name:" line]> profile_data
  else if startswith (str "Provider:") line then
    <["Provider" := after_label "Provider:" line]> profile_data
  else if startswith (str "Endpoint:") line then
    <["Endpoint" := after_label "Endpoint:" line]> profile_data
  else if startswith (str "Version:") line then
    <["Version" := after_label "Version:" line]> profile_data
  else if startswith (str "Proxy host:") line then
    <["Proxy_Host" := or_na (after_label "Proxy host:" line)]> profile_data
  else if startswith (str "Proxy port:") line then
    <["Proxy_Port" := or_na (after_label "Proxy port:" line)]> profile_data
  else if startswith (str "Proxy username:") line then
    <["Proxy_Username" := or_na (after_label "Proxy username:" line)]> profile_data
  else profile_data.

(** Default value of an optional field that the block did not set. *)
Definition set_default (profile_data : row) (field : string) : row :=
  match profile_data !! field with
  | Some _ => profile_data
  | None => <[field := str "N/A"]> profile_data
  end.

(** One block of the section: the profile it adds, if any. *)
Definition profile_of_block (block : text) : option row :=
  if negb (nonempty (strip block)) || negb (contains (str "Profile name:") block)
  then None
  else
    let profile_data := fold_left profile_line (split_lines block) ∅ in
    let profile_data :=
      fold_left set_default ["Version"; "Proxy_Host"; "Proxy_Port"; "Proxy_Username"]
        profile_data in
    if bool_decide (is_Some (profile_data !! "Profile_Name"))
       && bool_decide (is_Some (profile_data !! "Provider"))
    then Some profile_data
    else None.

Definition parse_cloud_profiles (content : text) : list row :=
  match re_search DOTALL profiles_pattern content with
  | Some m =>
      let profiles_section := group 1 (f_caps m) in
      let profile_blocks := re_split no_flags profile_boundary profiles_section in
      omap profile_of_block profile_blocks
  | None => []
  end.

(** *** Cloud data movement *)

Definition movement_pattern : regex :=
  cat [lit "Cloud Data-Movement Configuration"; star Space; Lit NL;
       Rep true 30 (Lit "-");
       Group 1 (lazy_star Dot);
       Ahead (Cat (Lit NL) (lit "Data-movement is scheduled"))].

(** One line of the table: the row it adds, if any. *)
Definition movement_of_line (line : text) : option row :=
  let line := strip line in
  if nonempty line && negb (startswith (str "-") line)
     && negb (startswith (str "Mtree") line)
     && negb (contains (str "Target(Tier/Unit Name)") line)
  then
    if (60 <? length line) && startswith (str "/data/col1/") line then
      let mtree := strip (firstn 28 line) in
      let remainder := strip (skipn 28 line) in
      let target := strip (firstn 26 remainder) in
      let remainder := strip (skipn 26 remainder) in
      let policy := strip (firstn 13 remainder) in
      let value := strip (skipn 13 remainder) in
      if nonempty mtree && nonempty target && nonempty policy && nonempty value
      then Some (list_to_map [("Mtree", mtree); ("Target", target);
                              ("Policy", policy); ("Value", value)])
      else None
    else None
  else None.

Definition parse_cloud_data_movement (content : text) : list row :=
  match re_search DOTALL movement_pattern content with
  | Some m =>
      let movement_section := strip (group 1 (f_caps m)) in
      omap movement_of_line (split_lines movement_section)
  | None => []
  end.

(** *** Storage tables *)

(** Lookahead of a usage table: a note line, the [next] title, or the end
    of the text. *)
Definition usage_pattern (title : regex) (next : list regex) : regex :=
  cat [title; star Space; Lit NL; lit "Resource"; lazy_star Dot; Lit NL;
       Group 1 (lazy_star Dot);
       Ahead (fold_right Alt EndZ
                (cat [Lit NL; star Space; lit "* "]
                 :: map (fun t => cat [Lit NL; star Space; t]) next))].

Definition storage_usage_patterns : list (string * regex) :=
  [("Active Tier Usage", usage_pattern (lit "Active Tier:") [lit "Cloud Tier"]);
   ("Cloud Tier Usage", usage_pattern (lit "Cloud Tier") [lit "Total:"]);
   ("Total Usage", usage_pattern (lit "Total:") [])].

Definition compression_patterns : list (string * regex) :=
  [("Active Tier Compression",
    cat [lit "Active Tier:"; star Space; Lit NL; star Space; lit "Pre-Comp";
         lazy_star Dot; lit "Total-Comp"; lazy_star Dot; Lit NL;
         lazy_star Dot; Lit NL;
         Group 1 (lazy_star Dot);
         Ahead (Alt (cat [Lit NL; star Space; Lit "*"; lazy_star Dot; lit "cleaning"])
                    (cat [Lit NL; star Space; lit "Cloud Tier:"]))]);
   ("Cloud Tier Compression",
    cat [lit "Filesys Compression"; lazy_star Dot; lit "Cloud Tier:";
         star Space; Lit NL; lazy_star Dot; Rep true 10 (Lit "-");
         star Space; Lit NL;
         Group 1 (lazy_star Dot);
         Ahead (cat [Lit NL; star Space; lit "* Does not include"])]);
   ("Currently Used Summary",
    cat [lit "Currently Used:*"; star Space; Lit NL; star Space; lit "Pre-Comp";
         lazy_star Dot; lit "Total-Comp"; lazy_star Dot; Lit NL;
         lazy_star Dot; Lit NL;
         Group 1 (lazy_star Dot);
         Ahead (cat [Lit NL; star Space; lit "Key:"])])].

(** [[^\n]*\n]: the rest of a line and its line feed. *)
Definition rest_of_line : regex := Cat (star (NotChar NL)) (Lit NL).

Definition dashes (n : nat) : regex := Rep true n (Lit "-").

Definition mtree_compression_pattern (tier : string) (stop : string) : regex :=
  cat [lit "Mtree Show Compression"; rest_of_line;
       lazy_star rest_of_line;
       lit tier; rest_of_line;
       cat [dashes 10; rest_of_line];
       Group 1 (lazy_star (NotChar "-"));
       Alt (dashes 10) (lit stop)].

Definition mtree_patterns : list (string * regex) :=
  [("Mtree Active Tier Compression",
    mtree_compression_pattern "Active Tier:" "Cloud Tier:");
   ("Mtree Cloud Tier Compression",
    mtree_compression_pattern "Cloud Tier:" "Key:");
   ("Mtree List",
    cat [lit "Mtree List"; star Space; Lit NL; dashes 5; star Space; Lit NL;
         lit "Name"; star (NotChar NL); lit "Pre-Comp"; star (NotChar NL);
         lit "Status"; rest_of_line;
         dashes 10; rest_of_line;
         Group 1 (lazy_star (Cat (lit "/data/col1/") rest_of_line));
         Ahead (Alt (dashes 10) (Alt (Cat (Lit NL) (lit "Mtree Options")) EndZ))])].

(** Combine all table patterns. *)
Definition table_patterns : list (string * regex) :=
  storage_usage_patterns ++ compression_patterns ++ mtree_patterns.

(** The all-sentinel defaults of the two lookups. *)
Definition retention_default : retention_info :=
  RetentionInfo (str "N/A") (str "N/A") (str "N/A") (str "N/A").

Definition replication_default : replication_data :=
  ReplicationData (str "N/A") (str "N/A") (str "N/A").

(** A data line of the Mtree List table. *)
Definition mtree_list_row (retention_locks : gmap text retention_info)
    (replication_info : gmap text replication_data) (line : text) : option row :=
  let clean_line := strip (remove_stars line) in
  let parts := re_split no_flags two_spaces clean_line in
  if 3 <=? length parts then
    let mtree_name := strip (item parts 0) in
    let pre_comp_size := strip (item parts 1) in
    let status := strip (item parts 2) in
    let retention_info := default retention_default (retention_locks !! mtree_name) in
    let repl_info := default replication_default (replication_info !! mtree_name) in
    Some (list_to_map
      [("Name", mtree_name);
       ("Pre_Comp_GiB", pre_comp_size);
       ("Status", status);
       ("Retention_Lock", Retention_Lock retention_info);
       ("Lock_Mode", Lock_Mode retention_info);
       ("Min_Retention_Period", Min_Retention_Period retention_info);
       ("Max_Retention_Period", Max_Retention_Period retention_info);
       ("Replication_Mode", Mode repl_info);
       ("Replication_Host", Connection_Host repl_info);
       ("Replication_Enabled", Enabled repl_info)])
  else None.

(** Helper function to split Total(Reduction%) values. *)
Definition split_total_reduction (value : text) : text * text :=
  if contains (str "(") value && contains (str ")") value then
    let total_val := item (split_char "(" value) 0 in
    let reduction_val :=
      rstrip_by (fun c => ascii_eqb c ")") (item (split_char "(" value) 1) in
    (total_val, reduction_val)
  else (value, str "N/A").

(** [v if v != '-' else 'N/A'] *)
Definition dash_na (v : text) : text :=
  if negb (text_eqb v (str "-")) then v else str "N/A".

(** The mtree path, white space, and the rest of the line. *)
Definition mtree_path_pattern : regex :=
  cat [Bol; Group 1 (Cat (lit "/data/col1/") (plus NotSpace)); plus Space;
       Group 2 (star Dot)].

(** A data line of an Mtree Show Compression table. *)
Definition mtree_compression_row (line : text) : option row :=
  let clean_line := strip (remove_stars line) in
  if 35 <? length clean_line then
    match re_match no_flags mtree_path_pattern clean_line with
    | Some match_data =>
        let mtree_name := group 1 (ms_caps match_data) in
        let remainder := strip (group 2 (ms_caps match_data)) in
        let values := split_ws remainder in
        if 10 <=? length values then
          let (total_24hrs, reduction_24hrs) :=
            split_total_reduction (dash_na (item values 4)) in
          let (total_7days, reduction_7days) :=
            split_total_reduction (dash_na (item values 9)) in
          Some (list_to_map
            [("Mtree", mtree_name);
             ("Pre_24hrs_GiB", dash_na (item values 0));
             ("Post_24hrs_GiB", dash_na (item values 1));
             ("Global_24hrs", dash_na (item values 2));
             ("Local_24hrs", dash_na (item values 3));
             ("Total_24hrs", total_24hrs);
             ("Reduction_24hrs_Percent", reduction_24hrs);
             ("Pre_7days_GiB", dash_na (item values 5));
             ("Post_7days_GiB", dash_na (item values 6));
             ("Global_7days", dash_na (item values 7));
             ("Local_7days", dash_na (item values 8));
             ("Total_7days", total_7days);
             ("Reduction_7days_Percent", reduction_7days)])
        else None
    | None => None
    end
  else None.

(** A data line of a usage table, in fixed-width format. *)
Definition usage_row (line : text) : option row :=
  let clean_line := strip (remove_stars line) in
  if 18 <? length clean_line then
    let resource := strip (firstn 18 clean_line) in
    let remainder := strip (skipn 18 clean_line) in
    let values := split_ws remainder in
    if 1 <=? length values then
      Some (list_to_map
        [("Resource", resource);
         ("Size_GiB", item_or_na values 0);
         ("Used_GiB", item_or_na values 1);
         ("Avail_GiB", item_or_na values 2);
         ("Use_Percent", item_or_na values 3);
         ("Cleanable_GiB", item_or_na values 4)])
    else None
  else None.

(** The metric name and the values of a compression line. *)
Definition compression_metric (parts : list text) : text * list text :=
  let p0 := item parts 0 in
  if text_in p0 ["Currently"; "Last"; "Active"; "Cloud"; "Total"; "Written:"] then
    if text_eqb p0 (str "Currently") && (1 <? length parts)
       && text_eqb (item parts 1) (str "Used:") then
      (str "Currently Used", skipn 2 parts)
    else if text_eqb p0 (str "Last") && (2 <? length parts) then
      (p0 ++ str " " ++ item parts 1 ++ str " " ++ item parts 2, skipn 3 parts)
    else if text_in p0 ["Active"; "Cloud"] then
      (p0 ++ str " " ++ item parts 1, skipn 2 parts)
    else if text_eqb p0 (str "Total") then
      (str "Total", skipn 1 parts)
    else if text_eqb p0 (str "Written:") then
      (str "Written", skipn 1 parts)
    else (p0, skipn 1 parts)
  else (rstrip_by (fun c => ascii_eqb c ":") p0, skipn 1 parts).

(** A data line of a compression table. *)
Definition compression_row (line : text) : option row :=
  let clean_line := strip (remove_stars line) in
  if contains (str ":") clean_line
     || any_in ["Currently Used"; "Last 7 days"; "Last 24 hrs"; "Active Tier";
                "Cloud Tier"; "Total"; "Written"] clean_line
  then
    let parts := split_ws clean_line in
    if 2 <=? length parts then
      let (metric, values) := compression_metric parts in
      if 2 <=? length values then
        Some (list_to_map
          [("Metric", metric);
           ("Pre_Comp_GiB", item_or_na values 0);
           ("Post_Comp_GiB", item_or_na values 1);
           ("Global_Comp_Factor", item_or_na values 2);
           ("Local_Comp_Factor", item_or_na values 3);
           ("Total_Comp_Factor", item_or_na values 4)])
      else None
    else None
  else None.

(** The body of the loop over the lines of a table section: the row the
    line appends, if any. *)
Definition decode_line (table_name : string)
    (retention_locks : gmap text retention_info)
    (replication_info : gmap text replication_data) (line : text) : option row :=
  let is_compression_table :=
    contains (str "Compression") (str table_name)
    || contains (str "Currently Used") (str table_name) in
  let is_usage_table := contains (str "Usage") (str table_name) in
  let is_mtree_table := contains (str "Mtree") (str table_name) in
  (* Skip separator lines and empty lines *)
  if contains (str "----") line || contains (str "-----------") line
     || negb (nonempty (strip line)) then None
  (* Skip header lines *)
  else if any_in ["Resource"; "Size GiB"; "Pre-Comp"; "Post-Comp"] line then None
  else if is_mtree_table && contains (str "Mtree List") (str table_name)
          && nonempty (strip line) && startswith (str "/data/col1/") (strip line) then
    mtree_list_row retention_locks replication_info line
  else if is_mtree_table && nonempty (strip line)
          && startswith (str "/data/col1/") (strip line) then
    mtree_compression_row line
  else if is_usage_table && startswith (str "/") (strip line) then
    usage_row line
  else if is_compression_table && nonempty (strip line)
          && negb (startswith (str "(") (strip line))
          && negb (startswith (str "Key:") (strip line)) then
    compression_row line
  else None.

(** The rows of a located section. *)
Definition decode_section (table_name : string)
    (retention_locks : gmap text retention_info)
    (replication_info : gmap text replication_data) (table_section : text)
    : list row :=
  omap (decode_line table_name retention_locks replication_info)
    (split_lines (strip table_section)).

(** The loop that collects the note lines after a table; it stops at the
    first other non-blank line once a note line has been seen. *)
Fixpoint collect_notes (lines : list text) (note_lines : list text) : list text :=
  match lines with
  | [] => note_lines
  | line :: lines' =>
      if startswith (str "*") (strip line) then
        collect_notes lines' (note_lines ++ [strip line])
      else if nonempty (strip line) && negb (startswith (str "*") (strip line))
              && negb (bool_decide (note_lines = [])) then
        note_lines
      else collect_notes lines' note_lines
  end.

(** What a key of [storage_data] holds: the rows of a table, or its note. *)
Inductive table_value : Type :=
| TRows (rows : list row)
| TNote (note : text).

(** The body of the loop over the table patterns. *)
Definition parse_table (content : text)
    (retention_locks : gmap text retention_info)
    (replication_info : gmap text replication_data)
    (storage_data : gmap string table_value) (entry : string * regex)
    : gmap string table_value :=
  let (table_name, pattern) := entry in
  match re_search DOTALL_MULTILINE pattern content with
  | Some m =>
      let table_section := group 1 (f_caps m) in
      let rows :=
        decode_section table_name retention_locks replication_info table_section in
      let storage_data := <[table_name := TRows rows]> storage_data in
      (* Look for note after this table *)
      let note_start :=
        (py_find table_section content + Z.of_nat (length table_section))%Z in
      let note_section := py_slice content note_start (note_start + 500)%Z in
      let note_lines := collect_notes (split_lines note_section) [] in
      if negb (bool_decide (note_lines = [])) then
        <[table_name +:+ "_note" := TNote (join (str " ") note_lines)]> storage_data
      else storage_data
  | None => storage_data
  end.

Definition parse_storage_tables (content : text) : gmap string table_value :=
  let retention_locks := parse_mtree_retention_locks content in
  let replication_info := parse_mtree_replication_info content in
  fold_left (parse_table content retention_locks replication_info)
    table_patterns ∅.

(** *** The record of a file *)

(** What a key of the returned dictionary holds. *)
Inductive value : Type :=
| VStr (s : text)
| VList (rows : list row)
| VTables (tables : gmap string table_value).

(** Errors, as values. *)
Inductive exn : Type :=
| OSError.

Definition result (A : Type) : Type := exn + A.

Definition ret {A : Type} (a : A) : result A := inr a.

Definition bind {A B : Type} (m : result A) (f : A -> result B) : result B :=
  match m with
  | inl e => inl e
  | inr a => f a
  end.

Notation "x <-- m ;; k" := (bind m (fun x => k))
  (at level 100, m at next level, right associativity).

(** [try: body except Exception: handler] *)
Definition try_except {A : Type} (body : result A) (handler : exn -> A) : A :=
  match body with
  | inl e => handler e
  | inr a => a
  end.

(** [open(file_path, ...)] and [f.read()]: the file system maps the paths
    that can be read to their contents. *)
Definition read_file (fs : text -> option text) (file_path : text) : result text :=
  match fs file_path with
  | Some content => ret content
  | None => inl OSError
  end.

(** [os.path.basename] *)
Definition basename (file_path : text) : text :=
  last_item (split_char "/" file_path).

(** [data.get('CLOUD_TIER') == 'Enabled'] *)
Definition cloud_tier_enabled (data : gmap string value) : bool :=
  match data !! "CLOUD_TIER" with
  | Some (VStr s) => text_eqb s (str "Enabled")
  | _ => false
  end.

(** [getattr(self, '_current_tar', 'N/A')] *)
Definition current_tar_or_na (current_tar : option text) : text :=
  default (str "N/A") current_tar.

(** The body of the [try] block. *)
Definition parse_body (fs : text -> option text) (current_tar : option text)
    (file_path : text) : result (gmap string value) :=
  content <-- read_file fs file_path ;;
  (* Extract each required field using regex *)
  let data : gmap string value :=
    fold_left (fun data field => <[field := VStr (extract_field content field)]> data)
      REQUIRED_FIELDS ∅ in
  (* Parse services status: every item of the dictionary is copied *)
  let services_status := parse_services_status content in
  let data := (VStr <$> services_status) ∪ data in
  (* Parse storage tables *)
  let storage_data := parse_storage_tables content in
  let data := <["STORAGE_TABLES" := VTables storage_data]> data in
  (* Parse cloud tier information if Cloud Tier is enabled *)
  let data :=
    if cloud_tier_enabled data then
      let cloud_profiles := parse_cloud_profiles content in
      let cloud_movement := parse_cloud_data_movement content in
      <["CLOUD_DATA_MOVEMENT" := VList cloud_movement]>
        (<["CLOUD_PROFILES" := VList cloud_profiles]> data)
    else
      <["CLOUD_DATA_MOVEMENT" := VList []]> (<["CLOUD_PROFILES" := VList []]> data) in
  (* Add source file information *)
  let data := <["SOURCE_FILE" := VStr (basename file_path)]> data in
  let data := <["SOURCE_TAR" := VStr (current_tar_or_na current_tar)]> data in
  ret data.

(** The [except] branch: empty data with N/A values. *)
Definition degraded (current_tar : option text) (file_path : text)
    : gmap string value :=
  let data : gmap string value :=
    list_to_map (map (fun field => (field, VStr (str "N/A"))) REQUIRED_FIELDS) in
  (* Add services with Unknown status *)
  let data :=
    fold_left (fun data service => <[service := VStr (str "Unknown")]> data)
      SERVICES data in
  (* Add empty storage tables *)
  let data := <["STORAGE_TABLES" := VTables ∅]> data in
  let data := <["SOURCE_FILE" := VStr (basename file_path)]> data in
  let data := <["SOURCE_TAR" := VStr (current_tar_or_na current_tar)]> data in
  data.

Definition parse_autosupport_file (fs : text -> option text)
    (current_tar : option text) (file_path : text) : gmap string value :=
  try_except (parse_body fs current_tar file_path)
    (fun _ => degraded current_tar file_path).

(** *** Names of the output files and folders *)

(** Extract hostname prefix (before first period). *)
Definition get_hostname_prefix (hostname : text) : text :=
  if negb (nonempty hostname) || text_eqb hostname (str "N/A") then str "unknown"
  else item (split_char "." hostname) 0.

(** The characters that the sanitizer replaces: angle brackets, colon,
    double quote (code 34), slash, backslash (code 92), bar, question mark
    and star. *)
Definition unsafe_chars : list ascii :=
  ["<"; ">"; ":"; ascii_of_nat 34; "/"; ascii_of_nat 92; "|"; "?"; "*"]%char.

(** Get sanitized location name for folder creation. *)
Definition get_location_folder (location : text) : text :=
  if negb (nonempty location) || text_eqb location (str "N/A")
  then str "unknown_location"
  else
    (* Remove/replace characters that might cause issues in folder names *)
    let sanitized := sub_chars unsafe_chars "_" (strip location) in
    (* Replace spaces with underscores *)
    let sanitized := re_sub no_flags (plus Space) (str "_") sanitized in
    if nonempty sanitized then sanitized else str "unknown_location".

(** Generate unique file identifier based on source type. The date suffix
    comes from [get_date_suffix_from_generated_on], which parses the
    timestamp with [datetime.strptime]; it is a parameter here. *)
Definition get_file_identifier (get_date_suffix_from_generated_on : text -> text)
    (hostname generated_on source_file : text) : text :=
  let hostname_prefix := get_hostname_prefix hostname in
  (* For .eml files, include date to make filename unique *)
  if nonempty source_file
     && (endswith (str ".eml") source_file
         || contains (str "autosupport_") source_file)
  then
    let date_suffix := get_date_suffix_from_generated_on generated_on in
    hostname_prefix ++ str "_" ++ date_suffix
  else
    (* For .tar.gz files, use just hostname prefix *)
    hostname_prefix.

(** [entry.get(key, default)] for the keys under which the parser stores
    strings. *)
Definition entry_get (entry : gmap string value) (key : string) (dflt : text)
    : text :=
  match entry !! key with
  | Some (VStr s) => s
  | _ => dflt
  end.

(** The folder and the file identifier under which the exports file an
    entry. *)
Definition entry_folder (entry : gmap string value) : text :=
  get_location_folder (entry_get entry "LOCATION" (str "unknown")).

Definition entry_identifier (get_date_suffix_from_generated_on : text -> text)
    (entry : gmap string value) : text :=
  get_file_identifier get_date_suffix_from_generated_on
    (entry_get entry "HOSTNAME" (str "unknown"))
    (entry_get entry "GENERATED_ON" (str "unknown"))
    (entry_get entry "SOURCE_TAR" (str "unknown")).

(** The body of the loop that groups the entries, in [output_to_csv] and in
    [output_to_html]: by location first, then by file identifier within
    each location. *)
Definition group_entry (get_date_suffix_from_generated_on : text -> text)
    (location_groups : gmap text (gmap text (list (gmap string value))))
    (entry : gmap string value)
    : gmap text (gmap text (list (gmap string value))) :=
  let location_folder := entry_folder entry in
  let file_identifier := entry_identifier get_date_suffix_from_generated_on entry in
  let location_groups :=
    match location_groups !! location_folder with
    | Some _ => location_groups
    | None => <[location_folder := ∅]> location_groups
    end in
  let identifier_groups := default ∅ (location_groups !! location_folder) in
  let identifier_groups :=
    match identifier_groups !! file_identifier with
    | Some _ => identifier_groups
    | None => <[file_identifier := []]> identifier_groups
    end in
  let entries := default [] (identifier_groups !! file_identifier) in
  <[location_folder := <[file_identifier := entries ++ [entry]]> identifier_groups]>
    location_groups.

Definition group_entries (get_date_suffix_from_generated_on : text -> text)
    (data : list (gmap string value))
    : gmap text (gmap text (list (gmap string value))) :=
  fold_left (group_entry get_date_suffix_from_generated_on) data ∅.

(** *** Batches *)

(** [os.path.join(a, b)] *)
Definition path_join (a b : text) : text :=
  if startswith (str "/") b then b
  else if negb (nonempty a) || endswith (str "/") a then a ++ b
  else a ++ str "/" ++ b.

(** Process a single tar.gz file. [extract_tar_gz] gives the paths of the
    autosupport files found in the archive and [fs] what reading them
    yields; the second component is [self._current_tar] after the call. *)
Definition process_single_tar (extract_tar_gz : text -> list text)
    (fs : text -> option text) (tar_path : text)
    : list (gmap string value) * option text :=
  (* Set current tar for tracking *)
  let current_tar := Some (basename tar_path) in
  let autosupport_files := extract_tar_gz tar_path in
  if bool_decide (autosupport_files = []) then ([], current_tar)
  else (map (parse_autosupport_file fs current_tar) autosupport_files, current_tar).

(** Process a single .eml file. *)
Definition process_single_eml (extract_autosupport_from_eml : text -> list text)
    (fs : text -> option text) (eml_path : text)
    : list (gmap string value) * option text :=
  (* Set current source for tracking *)
  let current_tar := Some (basename eml_path) in
  let autosupport_files := extract_autosupport_from_eml eml_path in
  if bool_decide (autosupport_files = []) then ([], current_tar)
  else (map (parse_autosupport_file fs current_tar) autosupport_files, current_tar).

(** The two lists of [process_directory]: the paths of the entries of the
    directory that end in [.tar.gz], and of those that end in [.eml]. *)
Definition tar_files_of (directory : text) (names : list text) : list text :=
  omap (fun file =>
          if endswith (str ".tar.gz") file then Some (path_join directory file)
          else None) names.

Definition eml_files_of (directory : text) (names : list text) : list text :=
  omap (fun file =>
          if endswith (str ".tar.gz") file then None
          else if endswith (str ".eml") file then Some (path_join directory file)
          else None) names.

(** Process all tar.gz and .eml files in a directory; [listdir] gives the
    names of its entries. *)
Definition process_directory (listdir : text -> list text)
    (extract_tar_gz extract_autosupport_from_eml : text -> list text)
    (fs : text -> option text) (directory : text) : list (gmap string value) :=
  let tar_files := tar_files_of directory (listdir directory) in
  let eml_files := eml_files_of directory (listdir directory) in
  let total_files := length tar_files + length eml_files in
  if total_files =? 0 then []
  else
    (* Process each tar file *)
    let results :=
      fold_left (fun results tar_file =>
                   results ++ (process_single_tar extract_tar_gz fs tar_file).1)
        (py_sorted tar_files) [] in
    (* Process each eml file *)
    fold_left (fun results eml_file =>
                 results
                 ++ (process_single_eml extract_autosupport_from_eml fs eml_file).1)
      (py_sorted eml_files) results.

End AutosupportParser.

(** ** Reading a record, and notions used to state the properties *)

Import AutosupportParser.

(** [entry.get(key)] for a key that holds a string. *)
Definition get_str (data : gmap string value) (key : string) : option text :=
  match data !! key with
  | Some (VStr s) => Some s
  | _ => None
  end.

(** [entry.get(key)] for a key that holds a list of rows. *)
Definition get_list (data : gmap string value) (key : string) : option (list row) :=
  match data !! key with
  | Some (VList rows) => Some rows
  | _ => None
  end.

(** [entry.get('STORAGE_TABLES')] *)
Definition get_tables (data : gmap string value) : option (gmap string table_value) :=
  match data !! "STORAGE_TABLES" with
  | Some (VTables tables) => Some tables
  | _ => None
  end.

(** The rows of a table family, when the record has the key. *)
Definition get_table (data : gmap string value) (table_name : string)
    : option (list row) :=
  match get_tables data with
  | Some tables =>
      match tables !! table_name with
      | Some (TRows rows) => Some rows
      | _ => None
      end
  | None => None
  end.

(** The lines of a document, joined by line feeds. *)
Definition unlines (lines : list string) : text := join [NL] (map str lines).

(** A file system with one readable file. *)
Definition one_file (path content : text) : text -> option text :=
  fun p => if text_eqb p path then Some content else None.

(** The text up to the end of the current line, and from there on. *)
Fixpoint take_line (s : text) : text :=
  match s with
  | [] => []
  | c :: s' => if ascii_eqb c NL then [] else c :: take_line s'
  end.

Fixpoint drop_line (s : text) : text :=
  match s with
  | [] => []
  | c :: s' => if ascii_eqb c NL then s else drop_line s'
  end.

(** The state of the matcher after it has consumed [w]. *)
Definition prev_after (prev : option ascii) (w : text) : option ascii :=
  match last w with
  | Some c => Some c
  | None => prev
  end.

(** Equality of characters as the matcher tests a literal. *)
Definition char_eq (fl : flags) (a b : ascii) : bool :=
  if ignorecase fl then ascii_eqb (lower a) (lower b) else ascii_eqb a b.

(** [s] starts with [p], up to case when the flag is set. *)
Fixpoint starts_with (fl : flags) (p s : text) : bool :=
  match p, s with
  | [], _ => true
  | x :: p', y :: s' => char_eq fl x y && starts_with fl p' s'
  | _ :: _, [] => false
  end.

(** The phrase [p] occurs in [s], up to the case of the letters. *)
Definition occurs_ci (p : string) (s : text) : Prop :=
  exists pre mid post,
    s = pre ++ mid ++ post /\ text_lower mid = text_lower (str p).

(** [t] is a contiguous part of [s]. *)
Definition part_of (t s : text) : Prop :=
  exists pre post, s = pre ++ t ++ post.

(** What the field extractor is specified to return: the first line that
    starts with the field name and an equals sign gives the value, its
    remainder trimmed; without such a line the value is the sentinel. *)
Definition first_field_line (field : string) (content : text) : option text :=
  List.find (startswith (str field ++ str "=")) (split_lines content).

Definition field_value_spec (field : string) (content : text) : text :=
  match first_field_line field content with
  | Some line => strip (skipn (length (str field) + 1) line)
  | None => str "N/A"
  end.

(** The services whose disabled phrase is tested before their enabled
    pattern: the service, its disabled phrase, its enabled pattern. *)
Definition disabled_first : list (string * string * regex) :=
  [("CIFS", "CIFS is disabled", cifs_enabled);
   ("NDMP", "NDMP daemon admin_state: disabled", ndmp_enabled)].


(** A report line that holds both phrases. *)
Definition c6_doc : text := str "CIFS is disabled: foo is enabled".


(** The plain cells of a volume-compression row, with the index of the
    token each one comes from. *)
Definition plain_columns : list (string * nat) :=
  [("Pre_24hrs_GiB", 0); ("Post_24hrs_GiB", 1); ("Global_24hrs", 2);
   ("Local_24hrs", 3); ("Pre_7days_GiB", 5); ("Post_7days_GiB", 6);
   ("Global_7days", 7); ("Local_7days", 8)].

(** The value cells of a usage row, with the index of their token. *)
Definition usage_columns : list (string * nat) :=
  [("Size_GiB", 0); ("Used_GiB", 1); ("Avail_GiB", 2); ("Use_Percent", 3);
   ("Cleanable_GiB", 4)].

(** The value cells of a compression row, with the index of their token. *)
Definition compression_columns : list (string * nat) :=
  [("Pre_Comp_GiB", 0); ("Post_Comp_GiB", 1); ("Global_Comp_Factor", 2);
   ("Local_Comp_Factor", 3); ("Total_Comp_Factor", 4)].

(** The table families, by decoder. *)
Definition usage_tables : list string :=
  ["Active Tier Usage"; "Cloud Tier Usage"; "Total Usage"].

Definition compression_tables : list string :=
  ["Active Tier Compression"; "Cloud Tier Compression"; "Currently Used Summary"].

Definition mtree_compression_tables : list string :=
  ["Mtree Active Tier Compression"; "Mtree Cloud Tier Compression"].

(** The value tokens of a volume-compression line, when it has the shape of
    a path followed by white space. *)
Definition compression_values (line : text) : option (list text) :=
  match re_match no_flags mtree_path_pattern (strip (remove_stars line)) with
  | Some match_data => Some (split_ws (strip (group 2 (ms_caps match_data))))
  | None => None
  end.




(** A report with a volume list, one retention-lock section and one
    replication context. *)
Definition c5_doc : text := unlines [
  "Mtree List";
  "----------";
  "Name                     Pre-Comp (GiB)   Status";
  "----------------------   --------------   ------";
  "/data/col1/backup                 100.5   RW";
  "/data/col1/repl_dst               200.0   RO/RD";
  "----------------------   --------------   ------";
  "Mtree Options";
  "Mtree: /data/col1/backup";
  "Option                               Value";
  "----------------------------------   --------";
  "Retention-lock                       enabled";
  "Retention-lock mode                  governance";
  "Retention-lock min-retention-period  720 minutes";
  "Retention-lock max-retention-period  1827 days";
  "----------------------------------   --------";
  "";
  "CTX:                  1";
  "Mode:                 source";
  "Destination:          mtree://dd2.example.com/data/col1/repl_dst";
  "Connection Host:      dd2.example.com";
  "Enabled:              yes";
  "Replication Options";
  ""].

Definition c5_line : text := str "/data/col1/backup                 100.5   RW".

(** The synthetic report of the round-trip scenario: the two scalar lines
    and an Active Tier usage table with one data row, given by [row]. *)
Definition c1_doc (row : string) : text := unlines [
  "GENERATED_ON=Fri Oct 17 06:03:20 EDT 2025";
  "HOSTNAME=host1.example.com";
  "Active Tier:";
  "Resource           Size GiB   Used GiB   Avail GiB   Use%   Cleanable GiB*";
  "----------------   --------   --------   ---------   ----   --------------";
  row;
  "----------------   --------   --------   ---------   ----   --------------"].

(** The data row as the scenario writes it, two spaces between the cells. *)
Definition c1_literal_row : string := "/data/col1  100  50  50  50%  10".

(** The same row in the fixed-width layout of the report: the resource name
    padded to the 18 characters of its column. *)
Definition c1_padded_row : string := "/data/col1          100  50  50  50%  10".

Definition c1_path : text := str "/tmp/support/autosupport".

(** The record parsed from the synthetic report. *)
Definition c1_record (row : string) : gmap string value :=
  parse_autosupport_file (one_file c1_path (c1_doc row)) None c1_path.

(** The columns of a usage row. *)
Definition usage_keys : list string :=
  ["Resource"; "Size_GiB"; "Used_GiB"; "Avail_GiB"; "Use_Percent"; "Cleanable_GiB"].

(** The cells of the rows of a table, column by column as [row.get(col)]
    reads them. *)
Definition table_cells (data : gmap string value) (table_name : string)
    (keys : list string) : option (list (list (option text))) :=
  match get_table data table_name with
  | Some rows => Some (map (fun r : row => map (fun key => r !! key) keys) rows)
  | None => None
  end.



(** The captures added since [cs], all of them parts of [s]. *)
Definition caps_from (s : text) (cs cs' : caps) : Prop :=
  exists new, cs' = new ++ cs /\ Forall (fun nt => part_of nt.2 s) new.


(** What a match leaves to its continuation. *)
Definition continues (s : text) (cs : caps) (k : kont) (st : mstate) : Prop :=
  exists p' s' cs',
    k p' s' cs' = Some st /\ s' `suffix_of` s /\ caps_from s cs cs'.


(** No dot occurs in the text. *)
Definition dot_free (s : text) : Prop := Forall (fun x => x <> "."%char) s.


(** The record of a file that can be read. *)
Definition record_of (content : text) (current_tar : option text) (file_path : text)
    : gmap string value :=
  let data : gmap string value :=
    (VStr <$> parse_services_status content)
    ∪ fold_left (fun data field => <[field := VStr (extract_field content field)]> data)
        REQUIRED_FIELDS ∅ in
  let data := <["STORAGE_TABLES" := VTables (parse_storage_tables content)]> data in
  let enabled := text_eqb (cloud_tier_status content) (str "Enabled") in
  let data :=
    <["CLOUD_PROFILES" :=
        VList (if enabled then parse_cloud_profiles content else [])]> data in
  let data :=
    <["CLOUD_DATA_MOVEMENT" :=
        VList (if enabled then parse_cloud_data_movement content else [])]> data in
  let data := <["SOURCE_FILE" := VStr (basename file_path)]> data in
  <["SOURCE_TAR" := VStr (current_tar_or_na current_tar)]> data.


(** What the loop over the table patterns stores under the name of a table. *)
Definition located (content : text) (table_name : string) (pattern : regex)
    : option table_value :=
  match re_search DOTALL_MULTILINE pattern content with
  | Some m =>
      Some (TRows (decode_section table_name (parse_mtree_retention_locks content)
                     (parse_mtree_replication_info content) (group 1 (f_caps m))))
  | None => None
  end.


(** The volume-list row decoded from [c5_line] with the lookup tables of
    [c5_doc]. *)
Definition c5_row : row :=
  default ∅ (decode_line "Mtree List" (parse_mtree_retention_locks c5_doc)
               (parse_mtree_replication_info c5_doc) c5_line).

(** A report with the same field twice, the first value padded. *)
Definition c7_doc : text := unlines [
  "SYSTEM_SERIALNO=APM00123456789";
  "HOSTNAME=  host1.example.com  ";
  "HOSTNAME=host2.example.com"].

(** A report with a cloud-profile section but without the phrases that
    classify the cloud tier as enabled. *)
Definition c8_doc : text := unlines [
  "HOSTNAME=dd1.example.com";
  "Cloud Profiles";
  "--------------";
  "Profile name:   ecs_profile";
  "Provider:       ecs";
  "Endpoint:       https://ecs.example.com";
  ""].

(** The same report with a cloud unit, which classifies the tier as
    enabled. *)
Definition c8_doc_enabled : text := str "Cloud Unit: unit1" ++ [NL] ++ c8_doc.

Definition c8_path : text := str "/tmp/support/autosupport".

(** A path under which no file can be read. *)
Definition c2_path : text := str "/tmp/support/missing".

Definition no_files : text -> option text := fun _ => None.

Definition c9_good_line : text :=
  str "/data: pre-comp           -    9000.0           -      -               -".

(** The row decoded from the well-formed line of [c9_report]. *)
Definition c9_row : row := default ∅ (decode_line "Total Usage" ∅ ∅ c9_good_line).

(** ** Data lines and their decoders *)

(** The layouts of the data lines, one per decoder. *)
Inductive layout : Type :=
| UsageRow
| CompressionRow
| VolumeListRow
| VolumeCompressionRow.

(** A line that the loop over a section passes over before any decoder sees
    it: a separator (a run of four dashes), a blank line, or a line that
    holds one of the words of the column headers. *)
Definition skipped (line : text) : bool :=
  contains (str "----") line || negb (nonempty (strip line))
  || any_in ["Resource"; "Size GiB"; "Pre-Comp"; "Post-Comp"] line.

(** The table is one of [names]. *)
Definition named (table_name : string) (names : list string) : bool :=
  existsb (String.eqb table_name) names.

(** A line that the compression decoder takes for a data line: it does not
    start with a parenthesis or with [Key:], and it holds a colon or the
    name of a metric. *)
Definition compression_line (line : text) : bool :=
  nonempty (strip line) && negb (startswith (str "(") (strip line))
  && negb (startswith (str "Key:") (strip line))
  && (contains (str ":") (strip (remove_stars line))
      || any_in ["Currently Used"; "Last 7 days"; "Last 24 hrs"; "Active Tier";
                 "Cloud Tier"; "Total"; "Written"] (strip (remove_stars line))).

(** The decoder of a data line: by the family of the table and the start of
    the line. A line that is no data line of the table has none. *)
Definition decoder_of (table_name : string) (line : text) : option layout :=
  if named table_name usage_tables then
    if startswith (str "/") (strip line) then Some UsageRow else None
  else if String.eqb table_name "Mtree List" then
    if startswith (str "/data/col1/") (strip line) then Some VolumeListRow else None
  else if named table_name mtree_compression_tables then
    if startswith (str "/data/col1/") (strip line) then Some VolumeCompressionRow
    else if compression_line line then Some CompressionRow
    else None
  else if named table_name compression_tables then
    if compression_line line then Some CompressionRow else None
  else None.

(** The minimum of each decoder: the width of the fixed-width slices, and
    the number of columns or of value tokens. *)
Definition meets_minimum (l : layout) (line : text) : bool :=
  let clean_line := strip (remove_stars line) in
  match l with
  | UsageRow =>
      (18 <? length clean_line)
      && (1 <=? length (split_ws (strip (skipn 18 clean_line))))
  | VolumeListRow => 3 <=? length (re_split no_flags two_spaces clean_line)
  | VolumeCompressionRow =>
      (35 <? length clean_line)
      && match compression_values line with
         | Some values => 10 <=? length values
         | None => false
         end
  | CompressionRow =>
      (2 <=? length (split_ws clean_line))
      && (2 <=? length (compression_metric (split_ws clean_line)).2)
  end.

(** The nine tables. *)
Definition all_tables : list string :=
  usage_tables ++ compression_tables ++ mtree_compression_tables ++ ["Mtree List"].

(** A report whose volume list has a three-column row that holds a header
    word, and a row with two columns. *)
Definition c9_header_word_line : text :=
  str "/data/col1/Resource_pool            100.5   RW".

Definition c9_short_line : text := str "/data/col1/x  1".

Definition c9_doc : text := unlines [
  "Mtree List";
  "----------";
  "Name                     Pre-Comp (GiB)   Status";
  "----------------------   --------------   ------";
  "/data/col1/Resource_pool            100.5   RW";
  "/data/col1/x  1";
  "----------------------   --------------   ------"].


(** The lines of the section that a pattern locates in a report. *)
Definition located_lines (content : text) (pattern : regex) : option (list text) :=
  match re_search DOTALL_MULTILINE pattern content with
  | Some m => Some (split_lines (strip (group 1 (f_caps m))))
  | None => None
  end.


(** The first three columns of a volume-list row, with their index. *)
Definition mtree_list_columns : list (string * nat) :=
  [("Name", 0); ("Pre_Comp_GiB", 1); ("Status", 2)].

(** The cells that a row of each layout reads by position. *)
Definition columns_of (l : layout) : list (string * nat) :=
  match l with
  | UsageRow => usage_columns
  | CompressionRow => compression_columns
  | VolumeListRow => mtree_list_columns
  | VolumeCompressionRow => plain_columns
  end.

(** The tokens of a data line that its decoder reads by position: the
    white-space tokens after the 18 characters of the resource, the tokens
    after the words of the metric, the trimmed columns, the tokens after
    the path. *)
Definition value_tokens (l : layout) (line : text) : list text :=
  let clean_line := strip (remove_stars line) in
  match l with
  | UsageRow => split_ws (strip (skipn 18 clean_line))
  | CompressionRow => (compression_metric (split_ws clean_line)).2
  | VolumeListRow => map strip (re_split no_flags two_spaces clean_line)
  | VolumeCompressionRow => default [] (compression_values line)
  end.

(** The path at the start of a volume-compression line. *)
Definition compression_path (line : text) : option text :=
  match re_match no_flags mtree_path_pattern (strip (remove_stars line)) with
  | Some match_data => Some (group 1 (ms_caps match_data))
  | None => None
  end.

(** The decoder of each layout. *)
Definition row_of (l : layout) (retention_locks : gmap text retention_info)
    (replication_info : gmap text replication_data) (line : text) : option row :=
  match l with
  | UsageRow => usage_row line
  | CompressionRow => compression_row line
  | VolumeListRow => mtree_list_row retention_locks replication_info line
  | VolumeCompressionRow => mtree_compression_row line
  end.

(** A report with a volume-compression table and, after it, a total usage
    whose row holds placeholders. *)
Definition c4_volume_line : text :=
  str "/data/col1/backup                     10.0   12.5   1.0x   2.0x   2.0x(50.0%)   700.0   70.0   5.0x   2.0x   10.0x".

Definition c4_usage_line : text :=
  str "/data: pre-comp           -    9000.0           -      -               -".

Definition c4_report : text := unlines [
  "Mtree Show Compression";
  "Active Tier:";
  "--------------------   ------   ------";
  "/data/col1/backup                     10.0   12.5   1.0x   2.0x   2.0x(50.0%)   700.0   70.0   5.0x   2.0x   10.0x";
  "--------------------   ------   ------";
  "Total:";
  "Resource           Size GiB   Used GiB   Avail GiB   Use%   Cleanable GiB";
  "/data: pre-comp           -    9000.0           -      -               -"].

(** The row decoded from the volume-compression line of [c4_report]. *)
Definition c4_volume_row : row := default ∅ (mtree_compression_row c4_volume_line).

(** A report whose total usage has a value with an asterisk inside. *)
Definition c4_starred_report : text := unlines [
  "Total:";
  "Resource           Size GiB   Used GiB   Avail GiB   Use%   Cleanable GiB";
  "/data: post-comp     1*00.0      50.0        50.0    50%             0.0"].

Definition c4_starred_line : text :=
  str "/data: post-comp     1*00.0      50.0        50.0    50%             0.0".

(** The row decoded from the line of [c4_starred_report]. *)
Definition c4_starred_row : row := default ∅ (usage_row c4_starred_line).

Definition c4_path : text := str "/tmp/support/autosupport".

(** ** Replication contexts *)

(** The replication contexts of a report, in the order of the text: the
    text of each context as the pattern captures it. *)
Definition contexts (content : text) : list text :=
  map (group 1) (re_findall DOTALL replication_pattern content).

(** The values of the [Connection Host:] lines of a context, trimmed, in the
    order of the lines. *)
Definition host_values (section : text) : list text :=
  omap (fun line =>
          if startswith (str "Connection Host:") (strip line)
          then Some (strip (skipn (length (str "Connection Host:")) (strip line)))
          else None)
    (split_lines (strip section)).

(** The connection host as the context presents it: the value of its
    [Connection Host:] line, the last one should the context repeat it. *)
Definition presented_host (section : text) : option text := last (host_values section).

(** The mtree path and the data that the parser derives from a context. *)
Definition context_path (section : text) : option text :=
  (replication_of_section section).2.

Definition context_data (section : text) : replication_data :=
  (replication_of_section section).1.

(** A report with one replication context, whose host has a domain. *)
Definition c10_doc : text := unlines [
  "CTX:                  1";
  "Mode:                 source";
  "Destination:          mtree://dd2.example.com/data/col1/repl_dst";
  "Connection Host:      dd2.example.com";
  "Enabled:              yes";
  "Replication Options"].

(** ** Notions used to state the properties of the naming and batch code *)

(** Each run of white space replaced by one underscore: a white-space
    character is dropped when another one follows it, and replaced
    otherwise. *)
Fixpoint squeeze (s : text) : text :=
  match s with
  | [] => []
  | c :: s' =>
      if isspace c then
        match s' with
        | c' :: _ => if isspace c' then squeeze s' else "_"%char :: squeeze s'
        | [] => ["_"%char]
        end
      else c :: squeeze s'
  end.

(** The text before the first run of white space and the text after that
    run. *)
Fixpoint first_run (s : text) : option (text * text) :=
  match s with
  | [] => None
  | c :: s' =>
      if isspace c then Some ([], drop_while isspace s')
      else match first_run s' with
           | Some (a, b) => Some (c :: a, b)
           | None => None
           end
  end.

(** A character that may stay in a folder name: not white space and not one
    of the characters that the sanitizer replaces. *)
Definition safe_char (c : ascii) : bool :=
  negb (isspace c) && negb (existsb (ascii_eqb c) unsafe_chars).

(** The entries that the exports file under the folder [folder] and the
    identifier [identifier], in the order of the data. *)
Definition members (get_date_suffix_from_generated_on : text -> text)
    (folder identifier : text) (data : list (gmap string value))
    : list (gmap string value) :=
  filter (fun entry =>
            entry_folder entry = folder
            /\ entry_identifier get_date_suffix_from_generated_on entry = identifier)
    data.

(** A name that [process_directory] picks from the listing. *)
Definition is_archive (file : text) : bool :=
  endswith (str ".tar.gz") file || endswith (str ".eml") file.

(** The keys of a cloud profile, and those that every profile has. *)
Definition profile_keys : list string :=
  ["Profile_Name"; "Provider"; "Endpoint"; "Version"; "Proxy_Host"; "Proxy_Port";
   "Proxy_Username"].

Definition profile_required_keys : list string :=
  ["Profile_Name"; "Provider"; "Version"; "Proxy_Host"; "Proxy_Port";
   "Proxy_Username"].

Definition proxy_keys : list string :=
  ["Proxy_Host"; "Proxy_Port"; "Proxy_Username"].

(** A row whose keys are among [profile_keys] and whose proxy cells, when
    present, are not empty. *)
Definition profile_shaped (r : row) : Prop :=
  (forall key, is_Some (r !! key) -> In key profile_keys)
  /\ (forall key, In key proxy_keys -> r !! key <> Some []).

(** The columns of the rows, by layout. *)
Definition compression_keys : list string :=
  ["Metric"; "Pre_Comp_GiB"; "Post_Comp_GiB"; "Global_Comp_Factor";
   "Local_Comp_Factor"; "Total_Comp_Factor"].

Definition mtree_list_keys : list string :=
  ["Name"; "Pre_Comp_GiB"; "Status"; "Retention_Lock"; "Lock_Mode";
   "Min_Retention_Period"; "Max_Retention_Period"; "Replication_Mode";
   "Replication_Host"; "Replication_Enabled"].

Definition mtree_compression_keys : list string :=
  ["Mtree"; "Pre_24hrs_GiB"; "Post_24hrs_GiB"; "Global_24hrs"; "Local_24hrs";
   "Total_24hrs"; "Reduction_24hrs_Percent"; "Pre_7days_GiB"; "Post_7days_GiB";
   "Global_7days"; "Local_7days"; "Total_7days"; "Reduction_7days_Percent"].

(** The columns of a row are exactly [keys]. *)
Definition has_columns (r : row) (keys : list string) : Prop :=
  dom r = list_to_set keys.

(** A token: not empty and free of white space. *)
Definition is_token (t : text) : Prop :=
  t <> [] /\ Forall (fun c => isspace c = false) t.

(** The columns whose cells are read from the tokens of a line. *)
Definition token_keys : list string :=
  map fst usage_columns ++ map fst compression_columns ++ map fst plain_columns.

(** A line of a volume-compression table that is not a volume line. *)
Definition summary_line : text := str "Total:   10.0   5.0   2.0x   1.0x   2.0x".

Definition summary_row : row :=
  default ∅ (decode_line "Mtree Active Tier Compression" ∅ ∅ summary_line).

(** The names of the tables that the parser looks for. *)
Definition table_names : list string := map fst table_patterns.

(** What [storage_data] may hold: under the name of a table its rows, and
    under that name followed by [_note] a note that starts with an asterisk,
    beside the entry of the table. *)
Definition storage_shaped (storage_data : gmap string table_value) : Prop :=
  forall key v,
    storage_data !! key = Some v ->
    exists table_name,
      In table_name table_names
      /\ ((key = table_name /\ exists rows, v = TRows rows)
          \/ (key = table_name +:+ "_note"
              /\ is_Some (storage_data !! table_name)
              /\ exists note, v = TNote note /\ startswith (str "*") note = true)).

(** The keys of the record of a file that was read, and of one that could
    not be read. *)
Definition record_keys : list string :=
  REQUIRED_FIELDS ++ SERVICES
  ++ ["STORAGE_TABLES"; "CLOUD_PROFILES"; "CLOUD_DATA_MOVEMENT"; "SOURCE_FILE";
      "SOURCE_TAR"].

Definition degraded_keys : list string :=
  REQUIRED_FIELDS ++ SERVICES ++ ["STORAGE_TABLES"; "SOURCE_FILE"; "SOURCE_TAR"].

(** The indices of the groups of a pattern. *)
Fixpoint group_ids (r : regex) : list nat :=
  match r with
  | Cat r1 r2 | Alt r1 r2 => group_ids r1 ++ group_ids r2
  | Rep _ _ r' | Ahead r' => group_ids r'
  | Group n r' => n :: group_ids r'
  | _ => []
  end.

(** The captures added since [cs], all of them of groups among [ids]. *)
Definition adds_groups (ids : list nat) (cs cs' : caps) : Prop :=
  exists new, cs' = new ++ cs /\ Forall (fun nt : nat * text => In nt.1 ids) new.

(** An mtree path: [/data/col1/] followed by a name that is not empty and
    holds no white space. *)
Definition is_mtree_path (path : text) : Prop :=
  exists name, path = str "/data/col1/" ++ name /\ is_token name.

(** The pattern of an mtree path, as the retention sections and the
    volume-compression lines capture it. *)
Definition mtree_path_regex : regex := Cat (lit "/data/col1/") (plus NotSpace).

(** The length of lines once joined, counting a separator after each. *)
Definition lines_weight (lines : list text) : nat :=
  list_sum (map (fun l => S (length l)) lines).

(** A volume line of a volume-compression table. *)
Definition volume_line : text :=
  str "/data/col1/oracle-db    120.5   60.2   1.5x   1.3x   2.0x(50.0%)   800.0   400.0   1.6x   1.2x   2.0x(50.0%)".

Definition volume_row : row :=
  default ∅ (decode_line "Mtree Active Tier Compression" ∅ ∅ volume_line).

(** A report with a retention section, a replication context, a cloud
    profile, a data-movement table and a usage table with a note. *)
Definition sample_report : text := unlines [
  "HOSTNAME=dd01.example.com";
  "Active Tier:";
  "Resource           Size GiB   Used GiB   Avail GiB   Use%   Cleanable GiB*";
  "----------------   --------   --------   ---------   ----   --------------";
  "/data: post-comp      100.0       50.0        50.0    50%             10.0";
  "----------------   --------   --------   ---------   ----   --------------";
  " * Estimated based on last cleaning.";
  "";
  "Mtree: /data/col1/backup";
  "Option                               Value";
  "----------------------------------   --------";
  "Retention-lock                       enabled";
  "----------------------------------   --------";
  "";
  "CTX:                  1";
  "Mode:                 source";
  "Destination:          mtree://dd02.example.com/data/col1/backup";
  "Connection Host:      dd02.example.com";
  "Enabled:              yes";
  "";
  "Cloud Profiles";
  "--------------";
  "Profile name:   ecs_profile";
  "Provider:       ecs";
  "";
  "Cloud Data-Movement Configuration";
  "---------------------------------";
  "Mtree                        Target(Tier/Unit Name)     Policy        Value";
  "--------------------------   ------------------------   -----------   -------";
  "/data/col1/backup            Cloud/unit1                age-threshold 14 days";
  "--------------------------   ------------------------   -----------   -------";
  "Data-movement is scheduled to run on day(s) tue at 06:00 hrs"].

(** A line of the volume list of [sample_report], and the row it decodes to
    with the lookup tables of that report. *)
Definition sample_list_line : text := str "/data/col1/backup                 100.5   RW".

Definition sample_list_row : row :=
  default ∅ (decode_line "Mtree List" (parse_mtree_retention_locks sample_report)
               (parse_mtree_replication_info sample_report) sample_list_line).

(** The cloud profile and the data-movement row of [sample_report]. *)
Definition sample_profile : row :=
  default ∅ (head (parse_cloud_profiles sample_report)).

Definition sample_movement : row :=
  default ∅ (head (parse_cloud_data_movement sample_report)).


(** The note that the loop over the lines of a window of the report
    collects, if any. *)
Definition note_in (window : text) : option table_value :=
  let note_lines := collect_notes (split_lines window) [] in
  if bool_decide (note_lines = []) then None
  else Some (TNote (join (str " ") note_lines)).

(** A report that starts with a remark and whose Total table has an empty
    section with a note of its own. *)
Definition top_note_report : text := unlines [
  "* leading remark";
  "Total:";
  "Resource           Size GiB   Used GiB";
  "";
  " * note of the total table"].

(** * Properties *)

(** ** Text lemmas *)

(** An option that computes to some value is [Some] of its default. *)
Lemma some_default {A : Type} (o : option A) (d : A) :
  match o with Some _ => true | None => false end = true ->
  o = Some (default d o).
Proof. by destruct o. Qed.


Lemma ascii_eqb_eq (a b : ascii) : ascii_eqb a b = true <-> a = b.
Proof. apply Ascii.eqb_eq. Qed.

Lemma ascii_eqb_refl (a : ascii) : ascii_eqb a a = true.
Proof. apply Ascii.eqb_refl. Qed.

Lemma ascii_eqb_neq (a b : ascii) : ascii_eqb a b = false <-> a <> b.
Proof. apply Ascii.eqb_neq. Qed.

Lemma startswith_app (p s : text) : startswith p (p ++ s) = true.
Proof.
  induction p as [|c p IH]; simpl; [done|].
  by rewrite ascii_eqb_refl, IH.
Qed.

Lemma startswith_split (p s : text) :
  startswith p s = true -> s = p ++ skipn (length p) s.
Proof.
  revert s; induction p as [|c p IH]; intros s H; simpl in *; [done|].
  destruct s as [|x s]; [done|].
  apply andb_true_iff in H as [Hc Hp].
  apply ascii_eqb_eq in Hc as ->. f_equal. by apply IH.
Qed.

Lemma startswith_cat (a b s : text) :
  startswith (a ++ b) s = startswith a s && startswith b (skipn (length a) s).
Proof.
  revert s; induction a as [|c a IH]; intros s; simpl; [done|].
  destruct s as [|x s]; [done|].
  rewrite IH. by rewrite andb_assoc.
Qed.

Lemma starts_with_plain (fl : flags) (p s : text) :
  ignorecase fl = false -> starts_with fl p s = startswith p s.
Proof.
  intros Hfl. revert s; induction p as [|c p IH]; intros [|x s]; simpl; try done.
  unfold char_eq. by rewrite Hfl, IH.
Qed.

Lemma take_drop_line (s : text) : take_line s ++ drop_line s = s.
Proof.
  induction s as [|c s IH]; simpl; [done|].
  destruct (ascii_eqb c NL); simpl; [done|]. by rewrite IH.
Qed.

Lemma take_line_no_nl (s : text) : Forall (fun c => c <> NL) (take_line s).
Proof.
  induction s as [|c s IH]; simpl; [constructor|].
  destruct (ascii_eqb c NL) eqn:E; [constructor|].
  constructor; [by apply ascii_eqb_neq|done].
Qed.

Lemma drop_line_head (s : text) :
  drop_line s = [] \/ exists r, drop_line s = NL :: r.
Proof.
  induction s as [|c s IH]; simpl; [by left|].
  destruct (ascii_eqb c NL) eqn:E; [|done].
  right. apply ascii_eqb_eq in E as ->. by eexists.
Qed.

Lemma prev_after_nil (prev : option ascii) : prev_after prev [] = prev.
Proof. done. Qed.

Lemma prev_after_cons (prev : option ascii) (c : ascii) (w : text) :
  prev_after prev (c :: w) = prev_after (Some c) w.
Proof.
  unfold prev_after. destruct w as [|d w]; [done|].
  rewrite last_cons_cons. destruct (last (d :: w)) eqn:E; [done|].
  by apply last_None in E.
Qed.

(** ** The matcher on literals and on the rest of a line *)

Lemma rmatch_cat (fl : flags) (r1 r2 : regex) prev s cs (k : kont) :
  rmatch fl (Cat r1 r2) prev s cs k =
  rmatch fl r1 prev s cs (fun p' s' cs' => rmatch fl r2 p' s' cs' k).
Proof. done. Qed.

Lemma rmatch_rep (fl : flags) g lo (r : regex) prev s cs (k : kont) :
  rmatch fl (Rep g lo r) prev s cs k =
  rep_loop (rmatch fl r) g lo (length s) 0 prev s cs k.
Proof. done. Qed.

Lemma rmatch_group (fl : flags) n (r : regex) prev s cs (k : kont) :
  rmatch fl (Group n r) prev s cs k =
  rmatch fl r prev s cs (fun p' s' cs' =>
    k p' s' ((n, firstn (length s - length s') s) :: cs')).
Proof. done. Qed.

Lemma rmatch_bol (fl : flags) prev s cs (k : kont) :
  rmatch fl Bol prev s cs k = if at_bol fl prev then k prev s cs else None.
Proof. done. Qed.

Lemma rmatch_eol (fl : flags) prev s cs (k : kont) :
  rmatch fl Eol prev s cs k = if at_eol fl s then k prev s cs else None.
Proof. done. Qed.

Lemma rmatch_lit_text (fl : flags) (w : text) prev s cs (k : kont) :
  rmatch fl (lit_text w) prev s cs k =
  if starts_with fl w s
  then k (prev_after prev (firstn (length w) s)) (skipn (length w) s) cs
  else None.
Proof.
  revert prev s; induction w as [|c w IH]; intros prev s; [done|].
  destruct w as [|c' w].
  - destruct s as [|x s]; simpl; [done|].
    rewrite andb_true_r. unfold char_eq. destruct (ignorecase fl); done.
  - change (lit_text (c :: c' :: w)) with (Cat (Lit c) (lit_text (c' :: w))).
    destruct s as [|x s]; [done|].
    rewrite rmatch_cat.
    change (rmatch fl (Lit c) prev (x :: s) cs)
      with (step_char (test_char fl (Lit c)) prev (x :: s) cs).
    cbn [step_char test_char]. rewrite IH.
    change (starts_with fl (c :: c' :: w) (x :: s))
      with (char_eq fl c x && starts_with fl (c' :: w) s).
    unfold char_eq.
    destruct (if ignorecase fl then ascii_eqb (lower c) (lower x) else ascii_eqb c x) eqn:E;
    [|done].
    rewrite andb_true_l.
    change (length (c :: c' :: w)) with (S (length (c' :: w))).
    rewrite firstn_cons, skipn_cons, prev_after_cons. done.
Qed.

(** A greedy repetition of a one-character pattern runs to the end of the
    run of characters that satisfy it, and stays there when the
    continuation accepts. *)
Lemma rep_greedy_run body (p : ascii -> bool) (k : kont) (x : mstate) :
  (forall prev s cs k0, body prev s cs k0 = step_char p prev s cs k0) ->
  forall (l rest : text) (fuel count : nat) prev cs,
    Forall (fun c => p c = true) l ->
    (rest = [] \/ exists c r, rest = c :: r /\ p c = false) ->
    length l <= fuel ->
    k (prev_after prev l) rest cs = Some x ->
    rep_loop body true 0 fuel count prev (l ++ rest) cs k = Some x.
Proof.
  intros Hbody l rest.
  induction l as [|c l IH]; intros fuel count prev cs Hl Hrest Hfuel Hk.
  - simpl in *. destruct fuel as [|fuel]; simpl; [done|].
    rewrite Hbody.
    destruct Hrest as [->|(c & r & -> & Hc)]; simpl; [done|].
    by rewrite Hc.
  - destruct fuel as [|fuel]; [simpl in Hfuel; lia|].
    inversion Hl as [|? ? Hc Hl']; subst.
    cbn [rep_loop app]. rewrite Hbody. cbn [step_char]. rewrite Hc.
    assert ((length (l ++ rest) <? length (c :: l ++ rest)) = true) as ->.
    { apply Nat.ltb_lt. simpl. lia. }
    rewrite (IH fuel (S count) (Some c) cs); try done.
    + simpl in Hfuel. lia.
    + by rewrite <- (prev_after_cons prev).
Qed.

(** ** The field pattern *)

Lemma at_eol_drop_line (s : text) : at_eol MULTILINE (drop_line s) = true.
Proof.
  destruct (drop_line_head s) as [->|[r ->]]; [done|].
  cbn [at_eol]. by rewrite ascii_eqb_refl.
Qed.

Lemma match_field (field : string) start prev s :
  match_here MULTILINE (field_pattern field) false start prev s =
  if at_bol MULTILINE prev && startswith (str field ++ str "=") s
  then
    let v := skipn (length (str field) + 1) s in
    Some (MState (prev_after (Some "="%char) (take_line v)) (drop_line v)
            [(1, take_line v)])
  else None.
Proof.
  unfold match_here, field_pattern. cbn [cat].
  rewrite rmatch_cat, rmatch_bol.
  destruct (at_bol MULTILINE prev); [|done]. rewrite andb_true_l.
  rewrite rmatch_cat. unfold lit at 1. rewrite rmatch_lit_text.
  rewrite starts_with_plain by done.
  rewrite startswith_cat.
  destruct (startswith (str field) s) eqn:Hf; [|done].
  rewrite andb_true_l.
  rewrite rmatch_cat.
  change (rmatch MULTILINE (Lit "=")) with (step_char (test_char MULTILINE (Lit "="))).
  unfold step_char at 1.
  destruct (skipn (length (str field)) s) as [|c v] eqn:Hs; [done|].
  change (startswith (str "=") (c :: v)) with (ascii_eqb "=" c && true).
  rewrite andb_true_r.
  change (test_char MULTILINE (Lit "=") c) with (ascii_eqb "=" c).
  destruct (ascii_eqb "=" c) eqn:Hc; [|done].
  apply ascii_eqb_eq in Hc as <-.
  assert (skipn (length (str field) + 1) s = v) as ->.
  { rewrite Nat.add_comm. rewrite <- skipn_skipn. by rewrite Hs. }
  rewrite rmatch_cat, rmatch_group. unfold star. rewrite rmatch_rep.
  cbv zeta.
  rewrite <- (take_drop_line v) at 1 2.
  erewrite (rep_greedy_run (rmatch MULTILINE Dot) (test_char MULTILINE Dot)).
  - reflexivity.
  - done.
  - eapply Forall_impl; [apply take_line_no_nl|].
    intros c Hc. simpl. by apply ascii_eqb_neq in Hc as ->.
  - destruct (drop_line_head v) as [->|[r ->]]; [by left|].
    right. eexists _, _. split; [done|]. done.
  - rewrite length_app. lia.
  - cbn beta. rewrite rmatch_eol, at_eol_drop_line.
    unfold accept. cbn [andb].
    pose proof (take_drop_line v) as E.
    set (a := take_line v) in *. set (b := drop_line v) in *.
    rewrite <- E, length_app.
    replace (length a + length b - length b) with (length a) by lia.
    by rewrite take_app_length.
Qed.

Lemma split_lines_cons (c : ascii) (s : text) :
  split_lines (c :: s) =
  if ascii_eqb c NL then [] :: split_lines s
  else (c :: hd [] (split_lines s)) :: tl (split_lines s).
Proof.
  unfold split_lines. simpl. destruct (ascii_eqb c NL); [done|].
  destruct (split_char NL s) as [|l ls] eqn:E; [|done].
  destruct s as [|x s]; simpl in E; [done|].
  destruct (ascii_eqb x NL); [done|]. by destruct (split_char NL s).
Qed.

Lemma hd_split_lines (s : text) : hd [] (split_lines s) = take_line s.
Proof.
  induction s as [|c s IH]; [done|].
  rewrite split_lines_cons. simpl. destruct (ascii_eqb c NL); simpl; [done|].
  by rewrite IH.
Qed.

Lemma split_lines_take_line (s : text) :
  split_lines s = take_line s :: tl (split_lines s).
Proof.
  rewrite <- hd_split_lines. destruct s as [|c s]; [done|].
  rewrite split_lines_cons. by destruct (ascii_eqb c NL).
Qed.

Lemma startswith_take_line (p s : text) :
  Forall (fun c => c <> NL) p ->
  startswith p (take_line s) = startswith p s.
Proof.
  intros Hp. revert s. induction Hp as [|x p Hx Hp IH]; intros s; [done|].
  destruct s as [|c s]; [done|]. simpl.
  destruct (ascii_eqb c NL) eqn:E.
  - apply ascii_eqb_eq in E as ->. apply ascii_eqb_neq in Hx. by rewrite Hx.
  - simpl. by rewrite IH.
Qed.

Lemma skipn_take_line (p s : text) :
  Forall (fun c => c <> NL) p ->
  startswith p s = true ->
  skipn (length p) (take_line s) = take_line (skipn (length p) s).
Proof.
  intros Hp. revert s. induction Hp as [|x p Hx Hp IH]; intros s H; [done|].
  destruct s as [|c s]; [done|]. simpl in H.
  apply andb_true_iff in H as [Hc H]. apply ascii_eqb_eq in Hc as <-.
  simpl. apply ascii_eqb_neq in Hx. rewrite Hx. simpl. by apply IH.
Qed.

Lemma no_nl_check (p : text) :
  forallb (fun c => negb (ascii_eqb c NL)) p = true ->
  Forall (fun c => c <> NL) p.
Proof.
  induction p as [|c p IH]; simpl; intros H; constructor.
  - apply andb_true_iff in H as [H _]. apply negb_true_iff in H.
    by apply ascii_eqb_neq.
  - apply IH. by apply andb_true_iff in H as [_ H].
Qed.

Lemma search_field (field : string) start :
  Forall (fun c => c <> NL) (str field) ->
  forall s prev,
    option_map (fun f => group 1 (f_caps f))
      (search_from MULTILINE (field_pattern field) false start prev s) =
    option_map (skipn (length (str field) + 1))
      (List.find (startswith (str field ++ str "="))
         (if at_bol MULTILINE prev then split_lines s else tl (split_lines s))).
Proof.
  intros Hnl.
  assert (Hp : Forall (fun c => c <> NL) (str field ++ str "=")).
  { apply Forall_app. split; [done|]. by apply no_nl_check. }
  assert (Hlen : length (str field ++ str "=") = length (str field) + 1).
  { by rewrite length_app. }
  induction s as [|c s IH]; intros prev.
  - cbn [search_from]. rewrite match_field.
    assert (startswith (str field ++ str "=") [] = false) as Hs.
    { by destruct (str field). }
    rewrite Hs, andb_false_r.
    destruct (at_bol MULTILINE prev); [|done].
    change (split_lines []) with [@nil ascii]. cbn [List.find]. by rewrite Hs.
  - cbn [search_from]. rewrite match_field.
    destruct (at_bol MULTILINE prev && startswith (str field ++ str "=") (c :: s)) eqn:E.
    + apply andb_true_iff in E as [-> E].
      rewrite split_lines_take_line. cbn [List.find].
      rewrite startswith_take_line, E by done.
      cbn [option_map f_caps ms_caps group Nat.eqb]. f_equal.
      rewrite <- Hlen. by rewrite skipn_take_line.
    + transitivity (option_map (fun f => group 1 (f_caps f))
        (search_from MULTILINE (field_pattern field) false start (Some c) s)).
      { by destruct (search_from MULTILINE (field_pattern field) false start (Some c) s). }
      rewrite IH.
      assert (Htl : tl (split_lines (c :: s)) =
                    if at_bol MULTILINE (Some c) then split_lines s else tl (split_lines s)).
      { rewrite split_lines_cons. cbn [at_bol multiline MULTILINE andb].
        by destruct (ascii_eqb c NL). }
      rewrite <- Htl.
      destruct (at_bol MULTILINE prev); [|done].
      rewrite (split_lines_take_line (c :: s)). cbn [List.find tl].
      rewrite startswith_take_line by done.
      rewrite andb_true_l in E. by rewrite E.
Qed.

Lemma extract_field_spec (field : string) (content : text) :
  Forall (fun c => c <> NL) (str field) ->
  extract_field content field = field_value_spec field content.
Proof.
  intros Hnl. unfold extract_field, field_value_spec, first_field_line, re_search.
  pose proof (search_field field content Hnl content None) as H.
  cbn [at_bol] in H.
  destruct (search_from MULTILINE (field_pattern field) false content None content);
    destruct (List.find _ (split_lines content)); simpl in H; try done.
  by injection H as ->.
Qed.


(** ** What the matcher captures is part of the text *)

Lemma part_of_refl (s : text) : part_of s s.
Proof. exists [], []. by rewrite app_nil_r. Qed.

Lemma part_of_nil (s : text) : part_of [] s.
Proof. by exists [], s. Qed.

Lemma part_of_trans (a b c : text) : part_of a b -> part_of b c -> part_of a c.
Proof.
  intros (p1 & q1 & ->) (p2 & q2 & ->).
  exists (p2 ++ p1), (q1 ++ q2). by rewrite !app_assoc.
Qed.

Lemma part_of_suffix (t s' s : text) : part_of t s' -> s' `suffix_of` s -> part_of t s.
Proof.
  intros (p & q & ->) [w ->]. exists (w ++ p), q. by rewrite !app_assoc.
Qed.

Lemma part_of_firstn (n : nat) (s : text) : part_of (firstn n s) s.
Proof. exists [], (skipn n s). simpl. by rewrite take_drop. Qed.

Lemma part_of_skipn (n : nat) (s : text) : part_of (skipn n s) s.
Proof. exists (firstn n s), []. by rewrite app_nil_r, take_drop. Qed.

Lemma caps_from_refl s cs : caps_from s cs cs.
Proof. by exists []. Qed.

Lemma caps_from_trans s s1 cs cs1 cs2 :
  s1 `suffix_of` s -> caps_from s cs cs1 -> caps_from s1 cs1 cs2 -> caps_from s cs cs2.
Proof.
  intros Hs (n1 & -> & H1) (n2 & -> & H2).
  exists (n2 ++ n1). split; [by rewrite app_assoc|].
  apply Forall_app. split; [|done].
  eapply Forall_impl; [exact H2|]. intros nt H. eapply part_of_suffix; [exact H|exact Hs].
Qed.

Lemma rep_loop_sound body :
  (forall prev s cs k st, body prev s cs k = Some st -> continues s cs k st) ->
  forall g lo fuel count prev s cs k st,
    rep_loop body g lo fuel count prev s cs k = Some st -> continues s cs k st.
Proof.
  intros Hbody g lo fuel.
  induction fuel as [|fuel IH]; intros count prev s cs k st H.
  - simpl in H. destruct (lo <=? count); [|done].
    exists prev, s, cs. split; [done|]. split; [done|apply caps_from_refl].
  - assert (Hstop : (if lo <=? count then k prev s cs else None) = Some st ->
                    continues s cs k st).
    { destruct (lo <=? count); [|done]. intros Hk.
      exists prev, s, cs. split; [done|]. split; [done|apply caps_from_refl]. }
    assert (Hmore : body prev s cs (fun p' s' cs' =>
                if length s' <? length s
                then rep_loop body g lo fuel (S count) p' s' cs' k
                else None) = Some st -> continues s cs k st).
    { intros Hb. apply Hbody in Hb as (p1 & s1 & cs1 & Hb & Hs1 & Hc1).
      destruct (length s1 <? length s); [|done].
      apply IH in Hb as (p2 & s2 & cs2 & Hk & Hs2 & Hc2).
      exists p2, s2, cs2. split; [done|]. split; [by etrans|].
      by eapply caps_from_trans. }
    cbn [rep_loop] in H. destruct g.
    + destruct (body prev s cs _) eqn:E; [injection H as ->; by apply Hmore|].
      by apply Hstop.
    + destruct (if lo <=? count then k prev s cs else None) eqn:E;
        [injection H as ->; by apply Hstop|].
      by apply Hmore.
Qed.

Lemma rmatch_sound fl r :
  forall prev s cs k st,
    rmatch fl r prev s cs k = Some st -> continues s cs k st.
Proof.
  induction r as [c| | | | |c| | | | |r1 IH1 r2 IH2|r1 IH1 r2 IH2|g lo r IH|n r IH|r IH];
    intros prev s cs k st H.
  1-6: cbn [rmatch] in H; unfold step_char in H;
       destruct s as [|x s]; [done|];
       destruct (test_char fl _ x); [|done];
       exists (Some x), s, cs; split; [done|];
       split; [by apply suffix_cons_r|apply caps_from_refl].
  - exists prev, s, cs. split; [done|]. split; [done|apply caps_from_refl].
  - cbn [rmatch] in H. destruct (at_bol fl prev); [|done].
    exists prev, s, cs. split; [done|]. split; [done|apply caps_from_refl].
  - cbn [rmatch] in H. destruct (at_eol fl s); [|done].
    exists prev, s, cs. split; [done|]. split; [done|apply caps_from_refl].
  - cbn [rmatch] in H. destruct (at_end s); [|done].
    exists prev, s, cs. split; [done|]. split; [done|apply caps_from_refl].
  - cbn [rmatch] in H. apply IH1 in H as (p1 & s1 & cs1 & H & Hs1 & Hc1).
    apply IH2 in H as (p2 & s2 & cs2 & H & Hs2 & Hc2).
    exists p2, s2, cs2. split; [done|]. split; [by etrans|].
    by eapply caps_from_trans.
  - cbn [rmatch] in H. destruct (rmatch fl r1 prev s cs k) eqn:E.
    + injection H as ->. exact (IH1 _ _ _ _ _ E).
    + exact (IH2 _ _ _ _ _ H).
  - cbn [rmatch] in H. exact (rep_loop_sound _ IH _ _ _ _ _ _ _ _ _ H).
  - cbn [rmatch] in H. apply IH in H as (p1 & s1 & cs1 & H & Hs1 & Hc1).
    eexists _, _, _. split; [exact H|]. split; [done|].
    destruct Hc1 as (new & -> & Hnew).
    exists ((n, firstn (length s - length s1) s) :: new). split; [done|].
    constructor; [|done]. apply part_of_firstn.
  - cbn [rmatch] in H.
    destruct (rmatch fl r prev s cs _) as [st'|] eqn:E; [|done].
    apply IH in E as (p1 & s1 & cs1 & [= <-] & Hs1 & Hc1).
    exists prev, s, cs1. by split.
Qed.

Lemma group_part_of (n : nat) (s : text) (cs : caps) :
  caps_from s [] cs -> part_of (group n cs) s.
Proof.
  intros (new & -> & H). rewrite app_nil_r.
  induction H as [|[i t] new Ht H IH]; simpl; [apply part_of_nil|].
  by destruct (i =? n).
Qed.

Lemma re_match_part_of fl r s st n :
  re_match fl r s = Some st -> part_of (group n (ms_caps st)) s.
Proof.
  unfold re_match, match_here. intros H.
  apply rmatch_sound in H as (p' & s' & cs' & H & _ & Hc).
  unfold accept in H. cbn [andb] in H. injection H as <-.
  by apply group_part_of.
Qed.

(** ** The pieces of a split are parts of the text *)

Lemma match_here_suffix fl r adv start prev s st :
  match_here fl r adv start prev s = Some st -> ms_rest st `suffix_of` s.
Proof.
  unfold match_here. intros H.
  apply rmatch_sound in H as (p' & s' & cs' & H & Hs & _).
  unfold accept in H. destruct (adv && _); [done|]. by injection H as <-.
Qed.

Lemma search_from_split fl r adv start :
  forall s prev f,
    search_from fl r adv start prev s = Some f ->
    exists mid, s = f_before f ++ mid ++ f_rest f.
Proof.
  induction s as [|c s IH]; intros prev f H; cbn [search_from] in H.
  - destruct (match_here fl r adv start prev []) as [st|] eqn:E; [|done].
    injection H as <-. apply match_here_suffix in E as [w E].
    exists w. exact E.
  - destruct (match_here fl r adv start prev (c :: s)) as [st|] eqn:E.
    + injection H as <-. apply match_here_suffix in E as [w E].
      exists w. exact E.
    + destruct (search_from fl r adv start (Some c) s) as [f'|] eqn:E'; [|done].
      injection H as <-. apply IH in E' as [mid E']. exists mid.
      cbn [f_before f_rest app]. by rewrite <- E'.
Qed.

Lemma matches_fuel_parts fl r :
  forall fuel adv prev s,
    Forall (fun f => part_of (f_before f) s /\ f_rest f `suffix_of` s)
      (matches_fuel fuel fl r adv prev s).
Proof.
  induction fuel as [|fuel IH]; intros adv prev s; cbn [matches_fuel]; [constructor|].
  destruct (search_from fl r adv s prev s) as [m|] eqn:E; [|constructor].
  apply search_from_split in E as [mid E].
  assert (Hsuf : f_rest m `suffix_of` s).
  { exists (f_before m ++ mid). by rewrite <- app_assoc. }
  constructor.
  - split; [|done]. exists [], (mid ++ f_rest m). by rewrite E at 1.
  - eapply Forall_impl; [apply IH|]. intros f [Hb Hr]. split.
    + by eapply part_of_suffix.
    + by etrans.
Qed.

Lemma re_split_parts fl r s : Forall (fun t => part_of t s) (re_split fl r s).
Proof.
  unfold re_split, matches.
  pose proof (matches_fuel_parts fl r (2 * length s + 2) false None s) as H.
  set (ms := matches_fuel (2 * length s + 2) fl r false None s) in *.
  apply Forall_app. split.
  - apply Forall_fmap. eapply Forall_impl; [exact H|]. by intros f [Hb _].
  - constructor; [|constructor].
    destruct (last ms) as [m|] eqn:El; [|apply part_of_refl].
    apply last_Some_elem_of in El. rewrite Forall_forall in H.
    destruct (H m El) as [_ Hs].
    eapply part_of_suffix; [apply part_of_refl|done].
Qed.

(** ** Searching for a phrase *)

Lemma starts_with_ci (w mid post : text) :
  text_lower mid = text_lower w ->
  starts_with IGNORECASE w (mid ++ post) = true.
Proof.
  revert mid. induction w as [|c w IH]; intros mid H; [done|].
  destruct mid as [|x mid]; [done|].
  injection H as Hc H. cbn [app starts_with].
  unfold char_eq. cbn [ignorecase IGNORECASE]. rewrite Hc, ascii_eqb_refl.
  by apply IH.
Qed.

Lemma search_from_here fl r adv start prev s st :
  match_here fl r adv start prev s = Some st ->
  is_Some (search_from fl r adv start prev s).
Proof. intros H. destruct s; cbn [search_from]; rewrite H; by eexists. Qed.

Lemma search_from_later fl r adv start (pre s : text) prev :
  is_Some (search_from fl r adv start (prev_after prev pre) s) ->
  is_Some (search_from fl r adv start prev (pre ++ s)).
Proof.
  revert prev. induction pre as [|c pre IH]; intros prev H; [done|].
  cbn [app search_from].
  destruct (match_here fl r adv start prev (c :: pre ++ s)); [by eexists|].
  rewrite prev_after_cons in H. apply IH in H as [f ->]. by eexists.
Qed.

Lemma searches_phrase (p : string) (content : text) :
  occurs_ci p content ->
  searches IGNORECASE (lit p) content = true.
Proof.
  intros (pre & mid & post & -> & Hmid).
  unfold searches, re_search.
  destruct (search_from_later IGNORECASE (lit p) false (pre ++ mid ++ post)
              pre (mid ++ post) None) as [f ->]; [|done].
  eapply search_from_here. unfold match_here, lit.
  rewrite rmatch_lit_text, starts_with_ci by done. done.
Qed.


(** ** Trimming and splitting give parts of the text *)

Lemma drop_while_suffix (p : ascii -> bool) (s : text) :
  drop_while p s `suffix_of` s.
Proof.
  induction s as [|c s IH]; simpl; [done|].
  destruct (p c); [|done]. by apply suffix_cons_r.
Qed.

Lemma part_of_prefix (t s' s : text) : part_of t s' -> s' `prefix_of` s -> part_of t s.
Proof.
  intros (p & q & ->) [w ->]. exists p, (q ++ w). by rewrite <- !app_assoc.
Qed.

Lemma rstrip_by_prefix (p : ascii -> bool) (s : text) :
  rstrip_by p s `prefix_of` s.
Proof.
  unfold rstrip_by. destruct (drop_while_suffix p (rev s)) as [w H].
  exists (rev w). apply (f_equal (@rev ascii)) in H.
  rewrite rev_involutive, rev_app_distr in H. done.
Qed.

Lemma part_of_lstrip (s : text) : part_of (lstrip s) s.
Proof. eapply part_of_suffix; [apply part_of_refl|apply drop_while_suffix]. Qed.

Lemma part_of_rstrip_by (p : ascii -> bool) (s : text) : part_of (rstrip_by p s) s.
Proof. eapply part_of_prefix; [apply part_of_refl|apply rstrip_by_prefix]. Qed.

Lemma part_of_strip (s : text) : part_of (strip s) s.
Proof.
  unfold strip, rstrip. eapply part_of_trans; [apply part_of_rstrip_by|].
  apply part_of_lstrip.
Qed.

Lemma take_token_app (s : text) :
  (take_token s).1 ++ (take_token s).2 = s.
Proof.
  induction s as [|c s IH]; simpl; [done|].
  destruct (isspace c); [done|].
  destruct (take_token s) as [t r]. simpl in *. by rewrite IH.
Qed.

Lemma split_ws_fuel_parts (fuel : nat) (s : text) :
  Forall (fun t => part_of t s) (split_ws_fuel fuel s).
Proof.
  revert s. induction fuel as [|fuel IH]; intros s; cbn [split_ws_fuel]; [constructor|].
  destruct (lstrip s) as [|c s'] eqn:E; [constructor|].
  pose proof (take_token_app (c :: s')) as Happ.
  destruct (take_token (c :: s')) as [t r]. simpl in Happ.
  assert (Hsuf : (c :: s') `suffix_of` s).
  { rewrite <- E. apply drop_while_suffix. }
  constructor.
  - eapply part_of_suffix; [|exact Hsuf]. exists [], r. by rewrite <- Happ.
  - eapply Forall_impl; [apply IH|]. intros x Hx. simpl in Hx.
    eapply part_of_suffix; [|exact Hsuf].
    eapply part_of_suffix; [exact Hx|]. exists t. by rewrite <- Happ.
Qed.

Lemma split_ws_parts (s : text) : Forall (fun t => part_of t s) (split_ws s).
Proof. apply split_ws_fuel_parts. Qed.

Lemma Forall_part_of_trans (l : list text) (a b : text) :
  part_of a b -> Forall (fun t => part_of t a) l -> Forall (fun t => part_of t b) l.
Proof.
  intros Hab H. eapply Forall_impl; [exact H|].
  intros t Ht. exact (part_of_trans _ _ _ Ht Hab).
Qed.

Lemma item_part_of (l : list text) (i : nat) (s : text) :
  Forall (fun t => part_of t s) l -> part_of (item l i) s.
Proof.
  intros H. unfold item. revert i. induction H as [|t l Ht H IH]; intros [|i]; simpl;
    try apply part_of_nil; [done|apply IH].
Qed.

(** ** Splitting the total cell *)

Lemma text_eqb_eq (a b : text) : text_eqb a b = true <-> a = b.
Proof.
  revert b. induction a as [|x a IH]; intros [|y b]; simpl; try done.
  rewrite andb_true_iff, ascii_eqb_eq, IH. split; [by intros [-> ->]|by intros [= -> ->]].
Qed.

Lemma text_eqb_neq (a b : text) : text_eqb a b = false <-> a <> b.
Proof.
  rewrite <- not_true_iff_false, text_eqb_eq. done.
Qed.

Lemma dash_na_dash : dash_na (str "-") = str "N/A".
Proof. done. Qed.

Lemma dash_na_other (v : text) : v <> str "-" -> dash_na v = v.
Proof.
  intros H. unfold dash_na. apply text_eqb_neq in H. by rewrite H.
Qed.

Lemma split_char_no_sep (c : ascii) (a : text) :
  Forall (fun x => x <> c) a -> split_char c a = [a].
Proof.
  induction 1 as [|x a Hx Ha IH]; simpl; [done|].
  apply ascii_eqb_neq in Hx. by rewrite Hx, IH.
Qed.

Lemma split_char_app (c : ascii) (a rest : text) :
  Forall (fun x => x <> c) a ->
  split_char c (a ++ c :: rest) = a :: split_char c rest.
Proof.
  induction 1 as [|x a Hx Ha IH]; simpl.
  - by rewrite ascii_eqb_refl.
  - apply ascii_eqb_neq in Hx. by rewrite Hx, IH.
Qed.

Lemma contains_cons_here (c : ascii) (s : text) : contains [c] (c :: s) = true.
Proof. simpl. by rewrite ascii_eqb_refl. Qed.

Lemma contains_app_r (p a s : text) : contains p s = true -> contains p (a ++ s) = true.
Proof.
  intros H. induction a as [|x a IH]; simpl; [done|].
  simpl in IH. rewrite IH. apply orb_true_r.
Qed.

Lemma contains_char (c : ascii) (a rest : text) : contains [c] (a ++ c :: rest) = true.
Proof. apply contains_app_r, contains_cons_here. Qed.

Lemma rstrip_by_keep (p : ascii -> bool) (b : text) (c : ascii) :
  p c = true -> Forall (fun x => p x = false) b ->
  rstrip_by p (b ++ [c]) = b.
Proof.
  intros Hc Hb. unfold rstrip_by. rewrite rev_app_distr. simpl. rewrite Hc.
  assert (drop_while p (rev b) = rev b) as ->; [|apply rev_involutive].
  destruct (rev b) as [|x l] eqn:E; [done|]. simpl.
  assert (In x (rev b)) as Hin by (rewrite E; by left).
  apply in_rev in Hin. rewrite List.Forall_forall in Hb. by rewrite (Hb x Hin).
Qed.

Lemma split_total_reduction_plain (v : text) :
  contains (str "(") v && contains (str ")") v = false ->
  split_total_reduction v = (v, str "N/A").
Proof. intros H. unfold split_total_reduction. by rewrite H. Qed.

Lemma split_total_reduction_pair (a b : text) :
  Forall (fun x => x <> "("%char) a ->
  Forall (fun x => x <> "("%char) b ->
  Forall (fun x => x <> ")"%char) b ->
  split_total_reduction (a ++ str "(" ++ b ++ str ")") = (a, b).
Proof.
  intros Ha Hb Hb'. unfold split_total_reduction.
  change (a ++ str "(" ++ b ++ str ")") with (a ++ "("%char :: (b ++ [")"%char])).
  change (str "(") with ["("%char]. change (str ")") with [")"%char].
  rewrite contains_char.
  assert (contains [")"%char] (a ++ "("%char :: b ++ [")"%char]) = true) as ->.
  { replace (a ++ "("%char :: b ++ [")"%char])
      with ((a ++ "("%char :: b) ++ ")"%char :: []) by (by rewrite <- app_assoc).
    apply contains_char. }
  cbn [andb]. rewrite split_char_app by done.
  unfold item. cbn [nth]. f_equal.
  rewrite split_char_no_sep.
  2:{ apply Forall_app. split; [done|]. by repeat constructor. }
  apply rstrip_by_keep; [done|].
  eapply Forall_impl; [exact Hb'|]. intros x Hx. by apply ascii_eqb_neq.
Qed.

(** ** Cells of the decoded rows *)

Lemma mtree_compression_row_inv (line : text) (r : row) :
  mtree_compression_row line = Some r ->
  exists (mtree_name : text) (values : list text),
    10 <= length values
    /\ part_of mtree_name (remove_stars line)
    /\ Forall (fun v => part_of v (remove_stars line)) values
    /\ r = list_to_map
        [("Mtree", mtree_name);
         ("Pre_24hrs_GiB", dash_na (item values 0));
         ("Post_24hrs_GiB", dash_na (item values 1));
         ("Global_24hrs", dash_na (item values 2));
         ("Local_24hrs", dash_na (item values 3));
         ("Total_24hrs", (split_total_reduction (dash_na (item values 4))).1);
         ("Reduction_24hrs_Percent", (split_total_reduction (dash_na (item values 4))).2);
         ("Pre_7days_GiB", dash_na (item values 5));
         ("Post_7days_GiB", dash_na (item values 6));
         ("Global_7days", dash_na (item values 7));
         ("Local_7days", dash_na (item values 8));
         ("Total_7days", (split_total_reduction (dash_na (item values 9))).1);
         ("Reduction_7days_Percent", (split_total_reduction (dash_na (item values 9))).2)].
Proof.
  unfold mtree_compression_row. intros H.
  destruct (35 <? length (strip (remove_stars line))); [|done].
  destruct (re_match no_flags mtree_path_pattern (strip (remove_stars line)))
    as [match_data|] eqn:Em; [|done].
  set (values := split_ws (strip (group 2 (ms_caps match_data)))) in *.
  destruct (10 <=? length values) eqn:El; [|done].
  apply Nat.leb_le in El.
  assert (Hclean : forall t, part_of t (strip (remove_stars line)) ->
                             part_of t (remove_stars line)).
  { intros t Ht. eapply part_of_trans; [exact Ht|apply part_of_strip]. }
  exists (group 1 (ms_caps match_data)), values.
  split; [done|]. split; [|split].
  - apply Hclean. by eapply re_match_part_of.
  - eapply Forall_impl; [apply split_ws_parts|]. intros t Ht. simpl in Ht.
    apply Hclean. eapply part_of_trans; [exact Ht|].
    eapply part_of_trans; [apply part_of_strip|]. by eapply re_match_part_of.
  - destruct (split_total_reduction (dash_na (item values 4))) as [t1 p1].
    destruct (split_total_reduction (dash_na (item values 9))) as [t2 p2].
    by injection H as <-.
Qed.

Lemma dash_na_decide (v : text) :
  dash_na v = if decide (v = str "-") then str "N/A" else v.
Proof.
  case_decide as H; [by subst|]. by apply dash_na_other.
Qed.

Lemma usage_row_inv (line : text) (r : row) :
  usage_row line = Some r ->
  exists (resource : text) (values : list text),
    1 <= length values
    /\ part_of resource (remove_stars line)
    /\ Forall (fun v => part_of v (remove_stars line)) values
    /\ r = list_to_map
        [("Resource", resource);
         ("Size_GiB", item_or_na values 0);
         ("Used_GiB", item_or_na values 1);
         ("Avail_GiB", item_or_na values 2);
         ("Use_Percent", item_or_na values 3);
         ("Cleanable_GiB", item_or_na values 4)].
Proof.
  unfold usage_row. intros H.
  destruct (18 <? length (strip (remove_stars line))); [|done].
  set (clean_line := strip (remove_stars line)) in *.
  set (values := split_ws (strip (skipn 18 clean_line))) in *.
  destruct (1 <=? length values) eqn:El; [|done].
  apply Nat.leb_le in El.
  assert (Hclean : forall t, part_of t clean_line -> part_of t (remove_stars line)).
  { intros t Ht. eapply part_of_trans; [exact Ht|apply part_of_strip]. }
  exists (strip (firstn 18 clean_line)), values.
  split; [done|]. split; [|split].
  - apply Hclean. eapply part_of_trans; [apply part_of_strip|apply part_of_firstn].
  - eapply Forall_impl; [apply split_ws_parts|]. intros t Ht. simpl in Ht.
    apply Hclean. eapply part_of_trans; [exact Ht|].
    eapply part_of_trans; [apply part_of_strip|apply part_of_skipn].
  - by injection H as <-.
Qed.

Lemma compression_metric_values (parts : list text) :
  exists k, (compression_metric parts).2 = skipn k parts.
Proof.
  unfold compression_metric.
  repeat match goal with
  | |- context [if ?b then _ else _] => destruct b
  end; cbn [snd]; by eexists.
Qed.

Lemma compression_row_inv (line : text) (r : row) :
  compression_row line = Some r ->
  exists (metric : text) (values : list text),
    2 <= length values
    /\ Forall (fun v => part_of v (remove_stars line)) values
    /\ r = list_to_map
        [("Metric", metric);
         ("Pre_Comp_GiB", item_or_na values 0);
         ("Post_Comp_GiB", item_or_na values 1);
         ("Global_Comp_Factor", item_or_na values 2);
         ("Local_Comp_Factor", item_or_na values 3);
         ("Total_Comp_Factor", item_or_na values 4)].
Proof.
  unfold compression_row. intros H.
  set (clean_line := strip (remove_stars line)) in *.
  destruct (contains (str ":") clean_line || _); [|done].
  destruct (2 <=? length (split_ws clean_line)); [|done].
  destruct (compression_metric_values (split_ws clean_line)) as [k Hk].
  destruct (compression_metric (split_ws clean_line)) as [metric values].
  cbn [snd] in Hk.
  destruct (2 <=? length values) eqn:El; [|done].
  apply Nat.leb_le in El. injection H as <-.
  exists metric, values. split; [done|]. split; [|done].
  rewrite Hk. apply Forall_drop.
  eapply Forall_impl; [apply split_ws_parts|]. intros t Ht. simpl in Ht.
  eapply part_of_trans; [exact Ht|apply part_of_strip].
Qed.

Lemma mtree_list_row_parts rl ri (line : text) (r : row) :
  mtree_list_row rl ri line = Some r ->
  exists name size status,
    part_of name (remove_stars line)
    /\ part_of size (remove_stars line)
    /\ part_of status (remove_stars line)
    /\ r !! "Name" = Some name
    /\ r !! "Pre_Comp_GiB" = Some size
    /\ r !! "Status" = Some status.
Proof.
  unfold mtree_list_row. intros H.
  set (parts := re_split no_flags two_spaces (strip (remove_stars line))) in *.
  destruct (3 <=? length parts); [|done]. injection H as <-.
  assert (Hpart : forall i, part_of (strip (item parts i)) (remove_stars line)).
  { intros i. eapply part_of_trans; [apply part_of_strip|].
    eapply part_of_trans; [|apply part_of_strip].
    apply item_part_of, re_split_parts. }
  exists (strip (item parts 0)), (strip (item parts 1)), (strip (item parts 2)).
  by repeat split.
Qed.

(** ** The loop over the lines of a section *)

Ltac eval_flags :=
  repeat match goal with
  | |- context [contains (str ?p) (str ?tn)] =>
      let b := eval vm_compute in (contains (str p) (str tn)) in
      change (contains (str p) (str tn)) with b
  end;
  cbn [andb orb].

Lemma decode_line_usage tn rl ri line :
  In tn usage_tables ->
  decode_line tn rl ri line =
  if contains (str "----") line || contains (str "-----------") line
     || negb (nonempty (strip line)) then None
  else if any_in ["Resource"; "Size GiB"; "Pre-Comp"; "Post-Comp"] line then None
  else if startswith (str "/") (strip line) then usage_row line
  else None.
Proof.
  intros Hin. unfold usage_tables in Hin. simpl in Hin.
  destruct Hin as [<-|[<-|[<-|[]]]]; unfold decode_line; cbv zeta; eval_flags; done.
Qed.

Lemma decode_line_mtree_list rl ri line :
  decode_line "Mtree List" rl ri line =
  if contains (str "----") line || contains (str "-----------") line
     || negb (nonempty (strip line)) then None
  else if any_in ["Resource"; "Size GiB"; "Pre-Comp"; "Post-Comp"] line then None
  else if nonempty (strip line) && startswith (str "/data/col1/") (strip line)
  then mtree_list_row rl ri line
  else None.
Proof.
  unfold decode_line; cbv zeta; eval_flags.
  destruct (nonempty (strip line) && startswith (str "/data/col1/") (strip line)); done.
Qed.

Lemma decode_line_mtree_compression tn rl ri line :
  In tn mtree_compression_tables ->
  decode_line tn rl ri line =
  if contains (str "----") line || contains (str "-----------") line
     || negb (nonempty (strip line)) then None
  else if any_in ["Resource"; "Size GiB"; "Pre-Comp"; "Post-Comp"] line then None
  else if nonempty (strip line) && startswith (str "/data/col1/") (strip line)
  then mtree_compression_row line
  else if nonempty (strip line) && negb (startswith (str "(") (strip line))
          && negb (startswith (str "Key:") (strip line))
  then compression_row line
  else None.
Proof.
  intros Hin. unfold mtree_compression_tables in Hin. simpl in Hin.
  destruct Hin as [<-|[<-|[]]]; unfold decode_line; cbv zeta; eval_flags; done.
Qed.

Lemma decode_line_compression tn rl ri line :
  In tn compression_tables ->
  decode_line tn rl ri line =
  if contains (str "----") line || contains (str "-----------") line
     || negb (nonempty (strip line)) then None
  else if any_in ["Resource"; "Size GiB"; "Pre-Comp"; "Post-Comp"] line then None
  else if nonempty (strip line) && negb (startswith (str "(") (strip line))
          && negb (startswith (str "Key:") (strip line))
  then compression_row line
  else None.
Proof.
  intros Hin. unfold compression_tables in Hin. simpl in Hin.
  destruct Hin as [<-|[<-|[<-|[]]]]; unfold decode_line; cbv zeta; eval_flags; done.
Qed.

Lemma omap_cons_eq {A B : Type} (f : A -> option B) (x : A) (l : list A) :
  omap f (x :: l) = match f x with Some y => y :: omap f l | None => omap f l end.
Proof. done. Qed.

(** ** Cross-reference of the volume list *)



Lemma mtree_list_row_inv rl ri line r :
  mtree_list_row rl ri line = Some r ->
  exists name size status,
    r = list_to_map
      [("Name", name); ("Pre_Comp_GiB", size); ("Status", status);
       ("Retention_Lock", Retention_Lock (default retention_default (rl !! name)));
       ("Lock_Mode", Lock_Mode (default retention_default (rl !! name)));
       ("Min_Retention_Period",
        Min_Retention_Period (default retention_default (rl !! name)));
       ("Max_Retention_Period",
        Max_Retention_Period (default retention_default (rl !! name)));
       ("Replication_Mode", Mode (default replication_default (ri !! name)));
       ("Replication_Host",
        Connection_Host (default replication_default (ri !! name)));
       ("Replication_Enabled", Enabled (default replication_default (ri !! name)))].
Proof.
  unfold mtree_list_row. intros H.
  destruct (3 <=? length _); [|done].
  injection H as <-. by eexists _, _, _.
Qed.


Lemma decode_line_mtree_list_row rl ri line r :
  decode_line "Mtree List" rl ri line = Some r ->
  mtree_list_row rl ri line = Some r.
Proof.
  rewrite decode_line_mtree_list.
  repeat match goal with
  | |- (if ?b then None else _) = Some _ -> _ => destruct b; [done|]
  end.
  by destruct (_ && _).
Qed.



(** The cells of the linked row of [c5_doc], as the report gives them. *)
Example c5_row_cells :
  map (fun key => c5_row !! key)
    ["Name"; "Retention_Lock"; "Lock_Mode"; "Min_Retention_Period";
     "Max_Retention_Period"; "Replication_Mode"; "Replication_Host"]
  = [Some (str "/data/col1/backup"); Some (str "enabled"); Some (str "governance");
     Some (str "720 minutes"); Some (str "1827 days"); Some (str "N/A");
     Some (str "N/A")].
Proof. vm_compute. reflexivity. Qed.

(** ** The connection host of a replication context *)

Lemma contains_false_no_char (c : ascii) (s : text) :
  contains [c] s = false -> Forall (fun x => x <> c) s.
Proof.
  induction s as [|x s IH]; [constructor|].
  cbn [contains startswith]. rewrite andb_true_r. intros H.
  apply orb_false_iff in H as [Hx Hs].
  constructor; [|by apply IH].
  apply ascii_eqb_neq in Hx. congruence.
Qed.

Lemma split_char_segments (c : ascii) (s : text) :
  Forall (fun seg => Forall (fun x => x <> c) seg) (split_char c s).
Proof.
  induction s as [|x s IH]; simpl; [by repeat constructor|].
  destruct (ascii_eqb x c) eqn:E; [by constructor|].
  apply ascii_eqb_neq in E.
  destruct (split_char c s) as [|l ls]; [by repeat constructor|].
  apply Forall_cons in IH as [Hl Hls]. constructor; [by constructor|done].
Qed.

Lemma item_no_char (c : ascii) (l : list text) (i : nat) :
  Forall (fun seg => Forall (fun x => x <> c) seg) l ->
  Forall (fun x => x <> c) (item l i).
Proof.
  intros H. unfold item. revert i.
  induction H as [|t l Ht H IH]; intros [|i]; simpl; try done.
Qed.

Lemma after_colon_label (label v : text) :
  Forall (fun x => x <> ":"%char) label ->
  after_colon (label ++ ":"%char :: v) = v.
Proof.
  intros H. unfold after_colon.
  assert (partition_at (str ":") (label ++ ":"%char :: v) = Some (label, v)) as ->;
    [|done].
  induction H as [|x label Hx H IH].
  - cbn [app partition_at startswith str list_ascii_of_string].
    by rewrite ascii_eqb_refl.
  - cbn [app partition_at startswith str list_ascii_of_string].
    apply ascii_eqb_neq in Hx.
    assert (ascii_eqb ":" x = false) as ->.
    { apply ascii_eqb_neq. apply ascii_eqb_neq in Hx. congruence. }
    cbn [andb]. cbn [str list_ascii_of_string] in IH. by rewrite IH.
Qed.

Lemma replication_line_dot_free st line :
  dot_free (Connection_Host st.1) ->
  dot_free (Connection_Host (replication_line st line).1).
Proof.
  destruct st as [data path]. unfold replication_line. cbn [fst].
  intros H.
  destruct (startswith (str "Mode:") (strip line)); [done|].
  destruct (startswith (str "Destination:") (strip line)).
  { by destruct (contains (str "/data/col1/") _). }
  destruct (startswith (str "Connection Host:") (strip line)).
  2:{ by destruct (startswith (str "Enabled:") (strip line)). }
  destruct (contains (str ".") (strip (after_colon (strip line)))) eqn:E; cbn [fst Connection_Host].
  - apply item_no_char, split_char_segments.
  - by apply contains_false_no_char.
Qed.

Lemma replication_of_section_dot_free section :
  dot_free (Connection_Host (replication_of_section section).1).
Proof.
  unfold replication_of_section.
  assert (Hinit : dot_free (Connection_Host
            (ReplicationData (str "N/A") (str "N/A") (str "N/A"), @None text).1)).
  { cbn. unfold dot_free. by repeat constructor. }
  revert Hinit. generalize (ReplicationData (str "N/A") (str "N/A") (str "N/A"), @None text).
  induction (split_lines (strip section)) as [|l ls IH]; intros st Hst; [done|].
  cbn [fold_left]. apply IH. by apply replication_line_dot_free.
Qed.

Lemma parse_mtree_replication_info_dot_free content :
  map_Forall (fun _ data => dot_free (Connection_Host data))
    (parse_mtree_replication_info content).
Proof.
  unfold parse_mtree_replication_info.
  assert (Hinit : map_Forall (fun (_ : text) data => dot_free (Connection_Host data))
            (∅ : gmap text replication_data)) by apply map_Forall_empty.
  revert Hinit. generalize (∅ : gmap text replication_data).
  induction (re_findall DOTALL replication_pattern content) as [|cs l IH];
    intros m Hm; [done|].
  cbn [fold_left]. apply IH.
  pose proof (replication_of_section_dot_free (group 1 cs)) as Hd.
  destruct (replication_of_section (group 1 cs)) as [data [path|]]; [|done].
  destruct (nonempty path); [|done].
  by apply map_Forall_insert_2.
Qed.

(** ** The connection host of a replication context *)

Lemma after_colon_host (s : text) :
  startswith (str "Connection Host:") s = true ->
  after_colon s = skipn (length (str "Connection Host:")) s.
Proof.
  intros H. apply startswith_split in H. rewrite H at 1.
  change (str "Connection Host:" ++ skipn (length (str "Connection Host:")) s)
    with (str "Connection Host"
          ++ ":"%char :: skipn (length (str "Connection Host:")) s).
  apply after_colon_label. by apply contains_false_no_char.
Qed.

(** What a stored host is, given the value of the line. *)
Lemma replication_line_host st (line : text) :
  Connection_Host (replication_line st line).1
  = if startswith (str "Connection Host:") (strip line)
    then let v := strip (skipn (length (str "Connection Host:")) (strip line)) in
         if contains (str ".") v then item (split_char "." v) 0 else v
    else Connection_Host st.1.
Proof.
  destruct st as [data path]. unfold replication_line. cbn [fst].
  destruct (startswith (str "Connection Host:") (strip line)) eqn:E.
  - rewrite (after_colon_host _ E).
    destruct (strip line) as [|c s]; [done|].
    cbn [startswith str list_ascii_of_string] in E.
    apply andb_true_iff in E as [Ec _]. apply ascii_eqb_eq in Ec as <-.
    change (startswith (str "Mode:") ("C"%char :: s)) with false.
    change (startswith (str "Destination:") ("C"%char :: s)) with false.
    cbv iota. cbv zeta.
    by destruct (contains (str ".") _).
  - destruct (startswith (str "Mode:") (strip line)); [done|].
    destruct (startswith (str "Destination:") (strip line)).
    { by destruct (contains (str "/data/col1/") _). }
    by destruct (startswith (str "Enabled:") (strip line)).
Qed.

Lemma fold_replication_host (lines : list text) :
  forall st,
    Connection_Host (fold_left replication_line lines st).1
    = match last (omap (fun line =>
                          if startswith (str "Connection Host:") (strip line)
                          then Some (strip (skipn (length (str "Connection Host:"))
                                              (strip line)))
                          else None) lines) with
      | Some v => if contains (str ".") v then item (split_char "." v) 0 else v
      | None => Connection_Host st.1
      end.
Proof.
  induction lines as [|line lines IH]; intros st; [done|].
  cbn [fold_left]. rewrite IH, omap_cons_eq, replication_line_host.
  destruct (startswith (str "Connection Host:") (strip line)); [|done].
  rewrite last_cons. by destruct (last (omap _ lines)).
Qed.

(** The host stored for a context is decided by the host it presents. *)
Lemma context_host (section : text) :
  Connection_Host (context_data section)
  = match presented_host section with
    | Some v => if contains (str ".") v then item (split_char "." v) 0 else v
    | None => str "N/A"
    end.
Proof.
  unfold context_data, replication_of_section, presented_host, host_values.
  by rewrite fold_replication_host.
Qed.

(** The table, as a fold over the contexts. *)
Lemma parse_mtree_replication_info_contexts (content : text) :
  parse_mtree_replication_info content
  = fold_left (fun m section =>
                 match context_path section with
                 | Some path =>
                     if nonempty path then <[path := context_data section]> m else m
                 | None => m
                 end) (contexts content) ∅.
Proof.
  unfold parse_mtree_replication_info, contexts.
  generalize (∅ : gmap text replication_data).
  induction (re_findall DOTALL replication_pattern content) as [|cs l IH];
    intros m; [done|].
  cbn [map fold_left]. rewrite IH. f_equal.
  unfold context_path, context_data.
  by destruct (replication_of_section (group 1 cs)) as [data [path|]].
Qed.

Lemma fold_contexts_other (sections : list text) (path : text) :
  Forall (fun s => context_path s <> Some path) sections ->
  forall m : gmap text replication_data,
    fold_left (fun m section =>
                 match context_path section with
                 | Some path =>
                     if nonempty path then <[path := context_data section]> m else m
                 | None => m
                 end) sections m !! path = m !! path.
Proof.
  induction 1 as [|s sections Hs _ IH]; intros m; [done|].
  cbn [fold_left]. rewrite IH.
  destruct (context_path s) as [p|]; [|done].
  destruct (nonempty p); [|done].
  rewrite lookup_insert_ne; [done|]. congruence.
Qed.

Lemma fold_contexts_from (sections : list text) (path : text) :
  forall (m : gmap text replication_data) data,
    fold_left (fun m section =>
                 match context_path section with
                 | Some path =>
                     if nonempty path then <[path := context_data section]> m else m
                 | None => m
                 end) sections m !! path = Some data ->
    m !! path = Some data
    \/ exists section, In section sections /\ context_path section = Some path
                       /\ data = context_data section.
Proof.
  induction sections as [|s sections IH]; intros m data H; [by left|].
  cbn [fold_left] in H. apply IH in H as [H|(section & Hin & Hp & Hd)].
  - destruct (context_path s) as [p|] eqn:Ep; [|by left].
    destruct (nonempty p); [|by left].
    destruct (decide (p = path)) as [->|Hne].
    + rewrite lookup_insert_eq in H. injection H as <-.
      right. exists s. split; [by left|done].
    + rewrite lookup_insert_ne in H by done. by left.
  - right. exists section. split; [by right|done].
Qed.

(** C10. The replication table holds, for the mtree path of a context, the
    data of the last context of the report with that path; and every entry
    of the table is the data of a context with its path. The connection
    host stored for a context is decided by the value of its
    [Connection Host:] line (the last one, should the context repeat it):
    when that value holds a dot, the stored host is the text before the
    first dot, and so differs from the value as the report presents it;
    when it holds no dot, the stored host is the value. *)
Theorem C10_connection_host_truncated
    (content : text) (earlier : list text) (section : text) (later : list text)
    (path v h rest : text) :
  contexts content = earlier ++ section :: later ->
  context_path section = Some path ->
  path <> [] ->
  Forall (fun s => context_path s <> Some path) later ->
  presented_host section = Some v ->
  v = h ++ "."%char :: rest ->
  dot_free h ->
  (exists data,
     parse_mtree_replication_info content !! path = Some data
     /\ data = context_data section
     /\ Connection_Host data = h
     /\ Connection_Host data <> v)
  /\ (forall path' data',
        parse_mtree_replication_info content !! path' = Some data' ->
        exists section',
          In section' (contexts content)
          /\ context_path section' = Some path'
          /\ data' = context_data section'
          /\ Connection_Host data'
             = match presented_host section' with
               | Some v' =>
                   if contains (str ".") v' then item (split_char "." v') 0 else v'
               | None => str "N/A"
               end
          /\ dot_free (Connection_Host data')).
Proof.
  intros Hctx Hpath Hne Hlater Hv -> Hh.
  assert (Hhost : Connection_Host (context_data section) = h).
  { rewrite context_host, Hv. change (str ".") with ["."%char].
    by rewrite contains_char, split_char_app. }
  split.
  - exists (context_data section). split; [|split; [done|split; [done|]]].
    + rewrite parse_mtree_replication_info_contexts, Hctx, fold_left_app.
      cbn [fold_left]. rewrite (fold_contexts_other later path Hlater).
      rewrite Hpath.
      assert (nonempty path = true) as -> by (by destruct path).
      apply lookup_insert_eq.
    + rewrite Hhost. intros Heq.
      apply (f_equal length) in Heq. rewrite length_app in Heq. simpl in Heq. lia.
  - intros path' data' Hdata.
    pose proof (parse_mtree_replication_info_dot_free content path' data' Hdata) as Hd.
    rewrite parse_mtree_replication_info_contexts in Hdata.
    apply fold_contexts_from in Hdata as [Hdata|(section' & Hin & Hp & ->)].
    { by rewrite lookup_empty in Hdata. }
    exists section'. split; [done|]. split; [done|]. split; [done|].
    split; [apply context_host|done].
Qed.

Lemma C10_witness :
  exists data,
    parse_mtree_replication_info c10_doc !! str "/data/col1/repl_dst" = Some data
    /\ data = context_data (default [] (head (contexts c10_doc)))
    /\ Connection_Host data = str "dd2"
    /\ Connection_Host data <> str "dd2.example.com".
Proof.
  refine (proj1 (C10_connection_host_truncated c10_doc []
                   (default [] (head (contexts c10_doc))) []
                   (str "/data/col1/repl_dst") (str "dd2.example.com")
                   (str "dd2") (str "example.com") _ _ _ _ _ _ _)).
  - vm_compute. reflexivity.
  - vm_compute. reflexivity.
  - discriminate.
  - constructor.
  - vm_compute. reflexivity.
  - reflexivity.
  - unfold dot_free. by apply contains_false_no_char.
Defined.

(** In a context that presents two hosts, the last one is stored. *)
Example c10_last_host_line :
  Connection_Host
    (context_data (unlines ["Destination: mtree://a.example.com/data/col1/m";
                            "Connection Host: a.example.com";
                            "Connection Host: other"]))
  = str "other".
Proof. vm_compute. reflexivity. Qed.

(** ** The assembled record *)

Ltac string_neq := let H := fresh in intros H; vm_compute in H; discriminate H.

Lemma services_lookup (content : text) :
  parse_services_status content !! "NFS" = Some (nfs_status content)
  /\ parse_services_status content !! "CIFS" = Some (cifs_status content)
  /\ parse_services_status content !! "NDMP" = Some (ndmp_status content)
  /\ parse_services_status content !! "CLOUD_TIER" = Some (cloud_tier_status content)
  /\ parse_services_status content !! "REPLICATION"
     = Some (replication_status content).
Proof.
  unfold parse_services_status. cbv zeta.
  repeat split; rewrite ?lookup_insert_ne by string_neq; apply lookup_insert_eq.
Qed.

Lemma services_lookup_other (content : text) (key : string) :
  ~ In key SERVICES -> parse_services_status content !! key = None.
Proof.
  intros Hkey. unfold parse_services_status. cbv zeta.
  rewrite !lookup_insert_ne; [apply lookup_empty|..];
    intros <-; apply Hkey; unfold SERVICES; simpl; tauto.
Qed.

Lemma parse_autosupport_file_read fs current_tar file_path content :
  fs file_path = Some content ->
  parse_autosupport_file fs current_tar file_path
  = record_of content current_tar file_path.
Proof.
  intros Hfs. unfold parse_autosupport_file, parse_body, read_file, try_except, bind, ret.
  rewrite Hfs. cbv zeta. unfold record_of. cbv zeta.
  assert (cloud_tier_enabled
            (<["STORAGE_TABLES" := VTables (parse_storage_tables content)]>
               ((VStr <$> parse_services_status content)
                ∪ fold_left
                    (fun data field => <[field := VStr (extract_field content field)]> data)
                    REQUIRED_FIELDS ∅))
          = text_eqb (cloud_tier_status content) (str "Enabled")) as ->.
  { unfold cloud_tier_enabled.
    rewrite lookup_insert_ne by string_neq.
    rewrite (lookup_union_Some_l _ _ _ (VStr (cloud_tier_status content))); [done|].
    rewrite lookup_fmap.
    by destruct (services_lookup content) as (_ & _ & _ & -> & _). }
  by destruct (text_eqb (cloud_tier_status content) (str "Enabled")).
Qed.

Lemma parse_autosupport_file_unreadable fs current_tar file_path :
  fs file_path = None ->
  parse_autosupport_file fs current_tar file_path = degraded current_tar file_path.
Proof.
  intros Hfs. unfold parse_autosupport_file, parse_body, read_file, try_except, bind.
  by rewrite Hfs.
Qed.

Lemma parse_body_raises fs current_tar file_path e :
  parse_body fs current_tar file_path = inl e <-> fs file_path = None.
Proof.
  unfold parse_body, read_file, bind, ret. destruct (fs file_path); split; try done.
  by destruct e.
Qed.

Lemma record_of_field content current_tar file_path field :
  In field REQUIRED_FIELDS ->
  record_of content current_tar file_path !! field
  = Some (VStr (extract_field content field)).
Proof.
  intros Hin. unfold record_of. cbv zeta.
  unfold REQUIRED_FIELDS in *. simpl in Hin.
  repeat (destruct Hin as [<-|Hin];
    [rewrite !lookup_insert_ne by string_neq;
     rewrite lookup_union_r
       by (rewrite lookup_fmap, services_lookup_other;
           [done|unfold SERVICES; simpl; intros H;
                 repeat (destruct H as [H|H]; [vm_compute in H; discriminate H|]); done]);
     cbn [fold_left]; rewrite ?lookup_insert_ne by string_neq; apply lookup_insert_eq|]).
  done.
Qed.

Lemma record_of_service content current_tar file_path service :
  In service SERVICES ->
  exists status,
    parse_services_status content !! service = Some status
    /\ record_of content current_tar file_path !! service = Some (VStr status).
Proof.
  intros Hin. unfold record_of. cbv zeta.
  destruct (services_lookup content) as (H1 & H2 & H3 & H4 & H5).
  unfold SERVICES in *. simpl in Hin.
  repeat (destruct Hin as [<-|Hin];
    [eexists; split; [eassumption|];
     rewrite !lookup_insert_ne by string_neq;
     apply lookup_union_Some_l; rewrite lookup_fmap;
     first [by rewrite H1|by rewrite H2|by rewrite H3|by rewrite H4|by rewrite H5]|]).
  done.
Qed.

(** ** The keys of the storage tables *)

Lemma append_note_neq (table_name : string) : table_name <> table_name +:+ "_note".
Proof.
  induction table_name as [|c s IH]; simpl; [discriminate|].
  intros [= H]. by apply IH.
Qed.

Lemma parse_table_lookup_ne content rl ri sd tn pattern key :
  key <> tn -> key <> tn +:+ "_note" ->
  parse_table content rl ri sd (tn, pattern) !! key = sd !! key.
Proof.
  intros H1 H2. unfold parse_table.
  destruct (re_search DOTALL_MULTILINE pattern content); [|done].
  cbv zeta. destruct (negb _); by rewrite ?lookup_insert_ne by done.
Qed.

Lemma parse_table_lookup_eq content sd tn pattern :
  parse_table content (parse_mtree_retention_locks content)
    (parse_mtree_replication_info content) sd (tn, pattern) !! tn
  = match located content tn pattern with
    | Some v => Some v
    | None => sd !! tn
    end.
Proof.
  unfold parse_table, located.
  destruct (re_search DOTALL_MULTILINE pattern content); [|done].
  cbv zeta. destruct (negb _).
  - rewrite lookup_insert_ne by (intros H; symmetry in H; by apply append_note_neq in H).
    apply lookup_insert_eq.
  - apply lookup_insert_eq.
Qed.

Lemma parse_storage_tables_lookup content table_name pattern :
  In (table_name, pattern) table_patterns ->
  parse_storage_tables content !! table_name = located content table_name pattern.
Proof.
  intros Hin. unfold parse_storage_tables. cbv zeta.
  unfold table_patterns, storage_usage_patterns, compression_patterns,
    mtree_patterns in *.
  cbn [app fold_left In] in *.
  repeat (destruct Hin as [[= <- <-]|Hin];
    [rewrite ?parse_table_lookup_ne by string_neq;
     rewrite parse_table_lookup_eq;
     match goal with
     | |- match ?o with _ => _ end = ?rhs => change rhs with o; destruct o; [done|]
     end;
     rewrite ?parse_table_lookup_ne by string_neq;
     apply lookup_empty|]).
  done.
Qed.

(** ** The claims about the record *)

Lemma degraded_field current_tar file_path field :
  In field REQUIRED_FIELDS ->
  degraded current_tar file_path !! field = Some (VStr (str "N/A")).
Proof.
  intros Hin. unfold degraded. cbv zeta.
  unfold REQUIRED_FIELDS, SERVICES in *. cbn [In map fold_left list_to_map foldr] in *.
  repeat (destruct Hin as [<-|Hin];
    [rewrite ?lookup_insert_ne by string_neq; apply lookup_insert_eq|]).
  done.
Qed.

Lemma degraded_service current_tar file_path service :
  In service SERVICES ->
  degraded current_tar file_path !! service = Some (VStr (str "Unknown")).
Proof.
  intros Hin. unfold degraded. cbv zeta.
  unfold REQUIRED_FIELDS, SERVICES in *. cbn [In map fold_left list_to_map foldr] in *.
  repeat (destruct Hin as [<-|Hin];
    [rewrite ?lookup_insert_ne by string_neq; apply lookup_insert_eq|]).
  done.
Qed.

Lemma degraded_other current_tar file_path key :
  ~ In key (REQUIRED_FIELDS ++ SERVICES ++ ["STORAGE_TABLES"; "SOURCE_FILE"; "SOURCE_TAR"]) ->
  degraded current_tar file_path !! key = None.
Proof.
  intros Hkey. unfold degraded. cbv zeta.
  unfold REQUIRED_FIELDS, SERVICES in *. cbn [In app map fold_left list_to_map foldr] in *.
  rewrite !lookup_insert_ne; [apply lookup_empty|..]; intros <-; apply Hkey; tauto.
Qed.

Lemma degraded_tables current_tar file_path :
  degraded current_tar file_path !! "STORAGE_TABLES" = Some (VTables ∅).
Proof.
  unfold degraded. cbv zeta.
  rewrite ?lookup_insert_ne by string_neq. apply lookup_insert_eq.
Qed.

(** C2, the code at the failing input. When the body of the [try] raises
    (the file cannot be read), nothing is propagated and the degraded record
    is returned: every allowlisted field is "N/A", every service is
    "Unknown" and the storage tables are empty. The record has no
    CLOUD_PROFILES and no CLOUD_DATA_MOVEMENT key, where the claim asks for
    empty sequences and where the [try] body sets both keys on each of its
    branches. *)
Theorem C2_degraded_record_lacks_cloud_keys
    (fs : text -> option text) (current_tar : option text) (file_path : text)
    (e : exn) :
  parse_body fs current_tar file_path = inl e ->
  let data := parse_autosupport_file fs current_tar file_path in
  data = degraded current_tar file_path
  /\ (forall field, In field REQUIRED_FIELDS -> get_str data field = Some (str "N/A"))
  /\ (forall service, In service SERVICES ->
        get_str data service = Some (str "Unknown"))
  /\ get_tables data = Some ∅
  /\ data !! "CLOUD_PROFILES" = None
  /\ data !! "CLOUD_DATA_MOVEMENT" = None.
Proof.
  intros He data. apply parse_body_raises in He.
  assert (data = degraded current_tar file_path) as ->
    by (by apply parse_autosupport_file_unreadable).
  split; [done|]. split; [|split; [|split; [|split]]].
  - intros field Hin. unfold get_str. by rewrite degraded_field.
  - intros service Hin. unfold get_str. by rewrite degraded_service.
  - unfold get_tables. by rewrite degraded_tables.
  - apply degraded_other. cbn. intros H.
    repeat (destruct H as [H|H]; [vm_compute in H; discriminate H|]). done.
  - apply degraded_other. cbn. intros H.
    repeat (destruct H as [H|H]; [vm_compute in H; discriminate H|]). done.
Qed.

Lemma C2_witness :
  parse_autosupport_file no_files None c2_path !! "CLOUD_PROFILES" = None
  /\ parse_autosupport_file no_files None c2_path !! "CLOUD_DATA_MOVEMENT" = None.
Proof.
  pose proof (C2_degraded_record_lacks_cloud_keys no_files None c2_path OSError
                eq_refl) as (_ & _ & _ & _ & H1 & H2).
  split; [exact H1|exact H2].
Defined.


(** C8, the code on every input. For a file that is read, the claim holds:
    the cloud-tier status of the record is the one the classifier gives;
    unless it is "Enabled", the cloud-profile and cloud-movement sequences
    of the record are empty, whatever the text holds; when it is "Enabled",
    they are what the two cloud parsers extract from the text. For a file
    that cannot be read, the claim fails: the cloud-tier status of the
    record is "Unknown", and the record has neither sequence, where the
    claim asks for two empty sequences. *)
Theorem C8_cloud_sequences_gated
    (fs : text -> option text) (current_tar : option text) (file_path : text) :
  let data := parse_autosupport_file fs current_tar file_path in
  match fs file_path with
  | Some content =>
      get_str data "CLOUD_TIER" = Some (cloud_tier_status content)
      /\ (get_str data "CLOUD_TIER" <> Some (str "Enabled") ->
            get_list data "CLOUD_PROFILES" = Some []
            /\ get_list data "CLOUD_DATA_MOVEMENT" = Some [])
      /\ (get_str data "CLOUD_TIER" = Some (str "Enabled") ->
            get_list data "CLOUD_PROFILES" = Some (parse_cloud_profiles content)
            /\ get_list data "CLOUD_DATA_MOVEMENT"
               = Some (parse_cloud_data_movement content))
  | None =>
      get_str data "CLOUD_TIER" = Some (str "Unknown")
      /\ get_list data "CLOUD_PROFILES" = None
      /\ get_list data "CLOUD_DATA_MOVEMENT" = None
  end.
Proof.
  intros data. unfold data. clear data.
  destruct (fs file_path) as [content|] eqn:Hfs.
  - rewrite (parse_autosupport_file_read _ _ _ _ Hfs).
    assert (Hstatus : get_str (record_of content current_tar file_path) "CLOUD_TIER"
                      = Some (cloud_tier_status content)).
    { destruct (record_of_service content current_tar file_path "CLOUD_TIER")
        as (status & Hs & Hr); [unfold SERVICES; simpl; tauto|].
      unfold get_str. rewrite Hr.
      destruct (services_lookup content) as (_ & _ & _ & H & _). congruence. }
    assert (Hp : get_list (record_of content current_tar file_path) "CLOUD_PROFILES"
                 = Some (if text_eqb (cloud_tier_status content) (str "Enabled")
                         then parse_cloud_profiles content else [])).
    { unfold get_list, record_of. cbv zeta.
      rewrite !lookup_insert_ne by string_neq. by rewrite lookup_insert_eq. }
    assert (Hm : get_list (record_of content current_tar file_path)
                   "CLOUD_DATA_MOVEMENT"
                 = Some (if text_eqb (cloud_tier_status content) (str "Enabled")
                         then parse_cloud_data_movement content else [])).
    { unfold get_list, record_of. cbv zeta.
      rewrite !lookup_insert_ne by string_neq. by rewrite lookup_insert_eq. }
    rewrite Hstatus, Hp, Hm. split; [done|]. split.
    + intros Hne.
      destruct (text_eqb (cloud_tier_status content) (str "Enabled")) eqn:E; [|done].
      apply text_eqb_eq in E. congruence.
    + intros [= He]. rewrite He. done.
  - rewrite (parse_autosupport_file_unreadable _ _ _ Hfs).
    split; [|split].
    + unfold get_str. rewrite degraded_service; [done|]. unfold SERVICES. simpl. tauto.
    + unfold get_list. rewrite degraded_other; [done|]. cbn. intros H.
      repeat (destruct H as [H|H]; [vm_compute in H; discriminate H|]). done.
    + unfold get_list. rewrite degraded_other; [done|]. cbn. intros H.
      repeat (destruct H as [H|H]; [vm_compute in H; discriminate H|]). done.
Qed.

Lemma C8_witness :
  get_str (parse_autosupport_file no_files None c2_path) "CLOUD_TIER"
  = Some (str "Unknown")
  /\ get_list (parse_autosupport_file no_files None c2_path) "CLOUD_PROFILES" = None
  /\ get_list (parse_autosupport_file no_files None c2_path) "CLOUD_DATA_MOVEMENT"
     = None.
Proof. exact (C8_cloud_sequences_gated no_files None c2_path). Defined.

(** For a file that is read and whose tier is not enabled, the two
    sequences are empty. *)
Example c8_disabled_empty :
  get_list (parse_autosupport_file (one_file c8_path c8_doc) None c8_path)
    "CLOUD_PROFILES" = Some []
  /\ get_list (parse_autosupport_file (one_file c8_path c8_doc) None c8_path)
       "CLOUD_DATA_MOVEMENT" = Some [].
Proof. split; vm_compute; reflexivity. Qed.

(** The profile section of [c8_doc] is extracted once the tier is enabled. *)
Example c8_enabled_profiles :
  option_map (map (fun r : row => map (fun key => r !! key)
                                    ["Profile_Name"; "Provider"; "Version"]))
    (get_list (parse_autosupport_file (one_file c8_path c8_doc_enabled) None c8_path)
       "CLOUD_PROFILES")
  = Some [[Some (str "ecs_profile"); Some (str "ecs"); Some (str "N/A")]].
Proof. vm_compute. reflexivity. Qed.

(** C3, amended. The claim fails for the table families: a family whose
    section is not found in the text has no key in the storage tables, and
    the consumers test the key. What holds: for every file, readable or not,
    the record has every allowlisted field, every service, the storage
    tables and the two source labels; for every file that is read it also
    has the cloud-profile and cloud-movement sequences, and a table family
    has its key, holding the rows decoded from its section, exactly when
    its pattern is found in the text. *)
Theorem C3_keys_present
    (fs : text -> option text) (current_tar : option text) (file_path : text) :
  let data := parse_autosupport_file fs current_tar file_path in
  (forall field, In field REQUIRED_FIELDS -> is_Some (get_str data field))
  /\ (forall service, In service SERVICES -> is_Some (get_str data service))
  /\ is_Some (get_tables data)
  /\ is_Some (get_str data "SOURCE_FILE")
  /\ is_Some (get_str data "SOURCE_TAR")
  /\ (forall content, fs file_path = Some content ->
        is_Some (get_list data "CLOUD_PROFILES")
        /\ is_Some (get_list data "CLOUD_DATA_MOVEMENT")
        /\ forall table_name pattern,
             In (table_name, pattern) table_patterns ->
             get_table data table_name
             = match re_search DOTALL_MULTILINE pattern content with
               | Some m =>
                   Some (decode_section table_name
                           (parse_mtree_retention_locks content)
                           (parse_mtree_replication_info content)
                           (group 1 (f_caps m)))
               | None => None
               end).
Proof.
  intros data. unfold data. clear data.
  destruct (fs file_path) as [content|] eqn:Hfs.
  - rewrite (parse_autosupport_file_read _ _ _ _ Hfs).
    assert (Ht : get_tables (record_of content current_tar file_path)
                 = Some (parse_storage_tables content)).
    { unfold get_tables, record_of. cbv zeta.
      rewrite !lookup_insert_ne by string_neq. by rewrite lookup_insert_eq. }
    split; [|split; [|split; [|split; [|split]]]].
    + intros field Hin. unfold get_str. rewrite record_of_field by done. by eexists.
    + intros service Hin. unfold get_str.
      destruct (record_of_service content current_tar file_path service Hin)
        as (status & _ & ->). by eexists.
    + rewrite Ht. by eexists.
    + unfold get_str, record_of. cbv zeta.
      rewrite !lookup_insert_ne by string_neq. rewrite lookup_insert_eq. by eexists.
    + unfold get_str, record_of. cbv zeta. rewrite lookup_insert_eq. by eexists.
    + intros content' [= <-]. split; [|split].
      * unfold get_list, record_of. cbv zeta.
        rewrite !lookup_insert_ne by string_neq. rewrite lookup_insert_eq. by eexists.
      * unfold get_list, record_of. cbv zeta.
        rewrite !lookup_insert_ne by string_neq. rewrite lookup_insert_eq. by eexists.
      * intros table_name pattern Hin. unfold get_table. rewrite Ht.
        rewrite (parse_storage_tables_lookup _ _ _ Hin). unfold located.
        by destruct (re_search DOTALL_MULTILINE pattern content).
  - rewrite (parse_autosupport_file_unreadable _ _ _ Hfs).
    split; [|split; [|split; [|split; [|split]]]]; [| | | | |done].
    + intros field Hin. unfold get_str. rewrite degraded_field by done. by eexists.
    + intros service Hin. unfold get_str. rewrite degraded_service by done. by eexists.
    + unfold get_tables. rewrite degraded_tables. by eexists.
    + unfold get_str, degraded. cbv zeta.
      rewrite !lookup_insert_ne by string_neq. rewrite lookup_insert_eq. by eexists.
    + unfold get_str, degraded. cbv zeta. rewrite lookup_insert_eq. by eexists.
Qed.

(** C3, counterexample: the report of the round-trip scenario has no volume
    list, and the storage tables of its record have no entry for it, rather
    than an empty row sequence. *)
Lemma C3_missing_family_counterexample :
  ~ (get_table (c1_record c1_padded_row) "Mtree List" = Some []).
Proof. vm_compute. discriminate. Qed.

(** ** The round-trip scenario *)

Lemma decode_line_cases table_name retention_locks replication_info line r :
  decode_line table_name retention_locks replication_info line = Some r ->
  mtree_list_row retention_locks replication_info line = Some r
  \/ mtree_compression_row line = Some r
  \/ usage_row line = Some r
  \/ compression_row line = Some r.
Proof.
  unfold decode_line. cbv zeta.
  repeat match goal with
  | |- (if ?b then _ else _) = Some _ -> _ => destruct b
  end; try done; tauto.
Qed.

(** Under no table name does the literal row of the scenario decode to a row
    whose resource is "/data/col1". *)
Lemma c1_literal_row_any_table table_name retention_locks replication_info r :
  decode_line table_name retention_locks replication_info (str c1_literal_row) = Some r ->
  r !! "Resource" <> Some (str "/data/col1").
Proof.
  intros H. apply decode_line_cases in H as [H|[H|[H|H]]].
  - apply mtree_list_row_inv in H as (name & size & status & ->). done.
  - assert (mtree_compression_row (str c1_literal_row) = None) as E
      by (vm_compute; reflexivity).
    congruence.
  - rewrite (some_default (usage_row (str c1_literal_row)) ∅) in H
      by (vm_compute; reflexivity).
    injection H as <-. vm_compute. discriminate.
  - assert (compression_row (str c1_literal_row) = None) as E
      by (vm_compute; reflexivity).
    congruence.
Qed.



(** ** Classification and field extraction, up to the record *)

(** C6. For CIFS and NDMP, whose disabled phrase is tested first: a report
    that holds the disabled phrase of the service anywhere (in any case of
    the letters) and also matches its enabled pattern is classified as
    Disabled, never Enabled, by the classifier and in the record. *)
Theorem C6_disabled_checked_first
    (service phrase : string) (enabled : regex) (content : text) :
  In (service, phrase, enabled) disabled_first ->
  occurs_ci phrase content ->
  searches IGNORECASE enabled content = true ->
  parse_services_status content !! service = Some (str "Disabled")
  /\ parse_services_status content !! service <> Some (str "Enabled")
  /\ (forall fs current_tar file_path,
        fs file_path = Some content ->
        get_str (parse_autosupport_file fs current_tar file_path) service
        = Some (str "Disabled")).
Proof.
  intros Hin Hd _.
  assert (parse_services_status content !! service = Some (str "Disabled")) as E.
  { apply searches_phrase in Hd.
    destruct Hin as [[= <- <- <-]|[[= <- <- <-]|[]]]; unfold parse_services_status.
    - rewrite !lookup_insert_ne by done. rewrite lookup_insert_eq.
      unfold cifs_status. change cifs_disabled with (lit "CIFS is disabled").
      by rewrite Hd.
    - rewrite !lookup_insert_ne by done. rewrite lookup_insert_eq.
      unfold ndmp_status.
      change ndmp_disabled with (lit "NDMP daemon admin_state: disabled").
      by rewrite Hd. }
  split; [done|]. split; [by rewrite E|].
  intros fs current_tar file_path Hfs.
  rewrite (parse_autosupport_file_read _ _ _ _ Hfs).
  destruct (record_of_service content current_tar file_path service)
    as (status & Hs & Hr).
  { destruct Hin as [[= <- <- <-]|[[= <- <- <-]|[]]]; unfold SERVICES; simpl; tauto. }
  unfold get_str. rewrite Hr. congruence.
Qed.

Lemma C6_witness :
  parse_services_status c6_doc !! "CIFS" = Some (str "Disabled").
Proof.
  apply (C6_disabled_checked_first "CIFS" "CIFS is disabled" cifs_enabled c6_doc).
  - left. reflexivity.
  - exists [], (str "CIFS is disabled"), (str ": foo is enabled"). split; reflexivity.
  - vm_compute. reflexivity.
Defined.

(** C7. For every allowlisted field, the extracted value is the remainder,
    trimmed of surrounding white space, of the first line of the document
    that starts with the field name and an equals sign, and the sentinel
    "N/A" when the document has no such line; the record of a file that is
    read holds that value under the field name. *)
Theorem C7_field_extraction (field : string) (content : text) :
  In field REQUIRED_FIELDS ->
  extract_field content field = field_value_spec field content
  /\ (forall fs current_tar file_path,
        fs file_path = Some content ->
        get_str (parse_autosupport_file fs current_tar file_path) field
        = Some (field_value_spec field content)).
Proof.
  intros Hin.
  assert (extract_field content field = field_value_spec field content) as E.
  { apply extract_field_spec.
    unfold REQUIRED_FIELDS in Hin. simpl in Hin.
    repeat (destruct Hin as [<-|Hin]; [by apply no_nl_check|]). done. }
  split; [done|].
  intros fs current_tar file_path Hfs.
  rewrite (parse_autosupport_file_read _ _ _ _ Hfs).
  unfold get_str. rewrite record_of_field by done. by rewrite E.
Qed.

Lemma C7_witness :
  extract_field c7_doc "HOSTNAME" = field_value_spec "HOSTNAME" c7_doc.
Proof.
  apply (C7_field_extraction "HOSTNAME" c7_doc).
  unfold REQUIRED_FIELDS. simpl. tauto.
Defined.

(** The first of the two lines of [c7_doc] wins, and its value is trimmed;
    a field without a line reads as the sentinel. *)
Example c7_first_line_wins :
  field_value_spec "HOSTNAME" c7_doc = str "host1.example.com"
  /\ field_value_spec "LOCATION" c7_doc = str "N/A".
Proof. split; vm_compute; reflexivity. Qed.
(** * Names of folders and files *)

Lemma rep_greedy_all body (p : ascii -> bool) (k : kont) (lo : nat) :
  (forall prev s cs k0, body prev s cs k0 = step_char p prev s cs k0) ->
  (forall prev s cs, k prev s cs = Some (MState prev s cs)) ->
  forall (s : text) (fuel count : nat) prev cs,
    length s <= fuel ->
    option_map ms_rest (rep_loop body true lo fuel count prev s cs k)
    = if lo <=? count + (length s - length (drop_while p s))
      then Some (drop_while p s) else None.
Proof.
  intros Hbody Hk s.
  induction s as [|c s IH]; intros fuel count prev cs Hfuel.
  - cbn [drop_while length]. rewrite Nat.sub_diag, Nat.add_0_r.
    destruct fuel as [|fuel]; cbn [rep_loop].
    + rewrite Hk. by destruct (lo <=? count).
    + rewrite Hbody. cbn [step_char]. rewrite Hk. by destruct (lo <=? count).
  - destruct fuel as [|fuel]; [simpl in Hfuel; lia|].
    cbn [rep_loop]. rewrite Hbody. cbn [step_char drop_while].
    destruct (p c) eqn:Hc.
    + assert ((length s <? length (c :: s)) = true) as ->.
      { apply Nat.ltb_lt. simpl. lia. }
      specialize (IH fuel (S count) (Some c) cs ltac:(simpl in Hfuel; lia)).
      pose proof (drop_while_suffix p s) as Hsuf.
      apply suffix_length in Hsuf.
      replace (count + (length (c :: s) - length (drop_while p s)))
        with (S count + (length s - length (drop_while p s)))
        by (simpl; lia).
      destruct (rep_loop body true lo fuel (S count) (Some c) s cs k) as [x|] eqn:E.
      * exact IH.
      * simpl in IH.
        destruct (lo <=? S (count + (length s - length (drop_while p s)))) eqn:E2;
          [done|].
        apply Nat.leb_gt in E2.
        assert ((lo <=? count) = false) as -> by (apply Nat.leb_gt; lia).
        simpl. destruct (lo <=? S (count + (length s - length (drop_while p s)))) eqn:E3; [|done].
        apply Nat.leb_le in E3. lia.
    + rewrite Nat.sub_diag, Nat.add_0_r. rewrite Hk. by destruct (lo <=? count).
Qed.

Lemma match_here_spaces start prev (s : text) :
  option_map ms_rest (match_here no_flags (plus Space) false start prev s)
  = match s with
    | c :: s' => if isspace c then Some (drop_while isspace s') else None
    | [] => None
    end.
Proof.
  unfold match_here, plus. cbn [rmatch].
  rewrite (rep_greedy_all (rmatch no_flags Space) isspace (accept false start) 1);
    [|done|done|done].
  destruct s as [|c s]; [done|].
  cbn [drop_while]. destruct (isspace c) eqn:Hc.
  - pose proof (drop_while_suffix isspace s) as Hsuf.
    apply suffix_length in Hsuf.
    assert ((1 <=? 0 + (length (c :: s) - length (drop_while isspace s))) = true) as ->;
      [|done].
    apply Nat.leb_le. simpl. lia.
  - by rewrite Nat.sub_diag.
Qed.

Lemma search_from_spaces start (s : text) :
  forall prev,
    option_map (fun f => (f_before f, f_rest f))
      (search_from no_flags (plus Space) false start prev s)
    = first_run s.
Proof.
  induction s as [|c s IH]; intros prev; cbn [search_from first_run].
  - pose proof (match_here_spaces start prev []) as H.
    destruct (match_here no_flags (plus Space) false start prev []); simpl in *; done.
  - pose proof (match_here_spaces start prev (c :: s)) as H. cbv beta iota in H.
    destruct (isspace c) eqn:Hc.
    + destruct (match_here no_flags (plus Space) false start prev (c :: s)) as [st|];
        simpl in H; [|done].
      simpl. congruence.
    + destruct (match_here no_flags (plus Space) false start prev (c :: s)) as [st|];
        simpl in H; [done|].
      specialize (IH (Some c)).
      destruct (search_from no_flags (plus Space) false start (Some c) s) as [f|];
        simpl in IH |- *; rewrite <- IH; done.
Qed.

Lemma first_run_length (s a b : text) :
  first_run s = Some (a, b) -> length a + length b < length s.
Proof.
  revert a b. induction s as [|c s IH]; intros a b H; [done|].
  cbn [first_run] in H. destruct (isspace c).
  - injection H as <- <-.
    pose proof (drop_while_suffix isspace s) as Hsuf.
    apply suffix_length in Hsuf. simpl. lia.
  - destruct (first_run s) as [[a' b']|]; [|done].
    injection H as <- <-. specialize (IH a' b' eq_refl). simpl. lia.
Qed.

Lemma squeeze_cons (c : ascii) (s : text) :
  squeeze (c :: s)
  = if isspace c then
      match s with
      | c' :: _ => if isspace c' then squeeze s else "_"%char :: squeeze s
      | [] => ["_"%char]
      end
    else c :: squeeze s.
Proof. done. Qed.

Lemma squeeze_run (c : ascii) (s : text) :
  isspace c = true ->
  squeeze (c :: s) = "_"%char :: squeeze (drop_while isspace s).
Proof.
  revert c. induction s as [|x s IH]; intros c Hc; rewrite squeeze_cons, Hc.
  - done.
  - cbn [drop_while]. destruct (isspace x) eqn:Hx; [by apply IH|done].
Qed.

Lemma squeeze_first_run (s : text) :
  squeeze s = match first_run s with
              | Some (a, b) => a ++ "_"%char :: squeeze b
              | None => s
              end.
Proof.
  induction s as [|c s IH]; [done|].
  cbn [first_run]. destruct (isspace c) eqn:Hc.
  - by rewrite squeeze_run.
  - rewrite squeeze_cons, Hc, IH. by destruct (first_run s) as [[a b]|].
Qed.

(** Replacing the runs of white space through the matcher is [squeeze]. *)
Lemma re_sub_spaces_fuel (fuel : nat) :
  forall prev (s : text),
    length s < fuel ->
    let ms := matches_fuel fuel no_flags (plus Space) false prev s in
    concat (map (fun m => f_before m ++ str "_") ms)
    ++ match last ms with Some m => f_rest m | None => s end
    = squeeze s.
Proof.
  induction fuel as [|fuel IH]; intros prev s Hlen; [lia|].
  cbn zeta. cbn [matches_fuel].
  pose proof (search_from_spaces s s prev) as H.
  rewrite (squeeze_first_run s).
  destruct (search_from no_flags (plus Space) false s prev s) as [m|];
    simpl in H; rewrite <- H; [|done].
  pose proof (first_run_length s _ _ (eq_sym H)) as Hl.
  assert ((length (f_rest m) + length (f_before m) =? length s) = false) as ->.
  { apply Nat.eqb_neq. lia. }
  specialize (IH (f_prev m) (f_rest m) ltac:(lia)). cbn zeta in IH.
  cbn [map concat]. rewrite last_cons.
  rewrite <- IH, <- !app_assoc. f_equal. simpl. f_equal.
  by destruct (last (matches_fuel fuel no_flags (plus Space) false (f_prev m) (f_rest m))).
Qed.

Lemma re_sub_spaces (s : text) :
  re_sub no_flags (plus Space) (str "_") s = squeeze s.
Proof. unfold re_sub, matches. apply re_sub_spaces_fuel. lia. Qed.

Lemma squeeze_chars (Q : ascii -> Prop) (s : text) :
  Q "_"%char ->
  Forall (fun c => isspace c = false -> Q c) s ->
  Forall Q (squeeze s).
Proof.
  intros Hu. induction 1 as [|c s Hc Hs IH]; [constructor|].
  rewrite squeeze_cons. destruct (isspace c) eqn:E.
  - destruct s as [|x s]; [by repeat constructor|].
    destruct (isspace x); [done|by constructor].
  - constructor; [by apply Hc|done].
Qed.

Lemma squeeze_nonempty (s : text) : s <> [] -> squeeze s <> [].
Proof.
  destruct s as [|c s]; [done|]. intros _. rewrite squeeze_cons.
  destruct (isspace c); [|done].
  destruct s as [|x s]; [done|].
  destruct (isspace x); [|done].
  revert x. induction s as [|y s IH]; intros x; rewrite squeeze_cons.
  - by destruct (isspace x).
  - destruct (isspace x); [|done]. destruct (isspace y); [apply IH|done].
Qed.

Lemma squeeze_id (s : text) :
  Forall (fun c => isspace c = false) s -> squeeze s = s.
Proof.
  induction 1 as [|c s Hc Hs IH]; [done|].
  by rewrite squeeze_cons, Hc, IH.
Qed.

Lemma sub_chars_id (chars : list ascii) (repl : ascii) (s : text) :
  Forall (fun c => existsb (ascii_eqb c) chars = false) s ->
  sub_chars chars repl s = s.
Proof.
  induction 1 as [|c s Hc Hs IH]; [done|].
  unfold sub_chars in *. cbn [map]. by rewrite Hc, IH.
Qed.

Lemma drop_while_id (p : ascii -> bool) (s : text) :
  Forall (fun c => p c = false) s -> drop_while p s = s.
Proof. destruct 1 as [|c s Hc Hs]; [done|]. cbn [drop_while]. by rewrite Hc. Qed.

Lemma strip_id (s : text) :
  Forall (fun c => isspace c = false) s -> strip s = s.
Proof.
  intros H. unfold strip, rstrip, rstrip_by, lstrip.
  rewrite (drop_while_id _ s H).
  rewrite drop_while_id; [apply rev_involutive|].
  by apply Forall_rev.
Qed.

Lemma safe_char_space (c : ascii) : safe_char c = true -> isspace c = false.
Proof. unfold safe_char. intros H. apply andb_true_iff in H as [H _]. by destruct (isspace c). Qed.

Lemma safe_char_unsafe (c : ascii) :
  safe_char c = true -> existsb (ascii_eqb c) unsafe_chars = false.
Proof.
  unfold safe_char. intros H. apply andb_true_iff in H as [_ H].
  by destruct (existsb (ascii_eqb c) unsafe_chars).
Qed.

Lemma unknown_location_safe :
  Forall (fun c => safe_char c = true) (str "unknown_location").
Proof. unfold str. cbn [list_ascii_of_string]. repeat (constructor; [done|]). constructor. Qed.

Lemma location_folder_chars (location : text) :
  get_location_folder location <> []
  /\ Forall (fun c => safe_char c = true) (get_location_folder location).
Proof.
  unfold get_location_folder.
  destruct (negb (nonempty location) || text_eqb location (str "N/A")).
  { split; [done|]. apply unknown_location_safe. }
  rewrite re_sub_spaces.
  destruct (nonempty (squeeze (sub_chars unsafe_chars "_" (strip location)))) eqn:E.
  2: { split; [done|]. apply unknown_location_safe. }
  split; [by destruct (squeeze _)|].
  apply squeeze_chars; [done|].
  unfold sub_chars. apply Forall_map, Forall_forall. intros c _ Hc.
  unfold safe_char.
  destruct (existsb (ascii_eqb c) unsafe_chars) eqn:Eu; [done|].
  cbn beta in Hc. by rewrite Hc, Eu.
Qed.

(** X2. The folder name of a location is never empty and holds no white
    space and none of the characters that the sanitizer replaces (angle
    brackets, colon, double quote, slash, backslash, bar, question mark,
    star), whatever the location is. It is the fallback name, or the
    trimmed location with each of those characters replaced by an
    underscore and each run of white space replaced by one underscore. *)
Theorem X2_location_folder_safe (location : text) :
  get_location_folder location <> []
  /\ Forall (fun c => safe_char c = true) (get_location_folder location)
  /\ (get_location_folder location = str "unknown_location"
      \/ get_location_folder location
         = squeeze (sub_chars unsafe_chars "_" (strip location))).
Proof.
  destruct (location_folder_chars location) as [Hne Hsafe].
  split; [done|]. split; [done|].
  unfold get_location_folder.
  destruct (negb (nonempty location) || text_eqb location (str "N/A")); [by left|].
  rewrite re_sub_spaces.
  destruct (nonempty (squeeze _)); [by right|by left].
Qed.

(** X3. Sanitizing is idempotent: the folder name of a folder name is that
    folder name. *)
Theorem X3_location_folder_idempotent (location : text) :
  get_location_folder (get_location_folder location) = get_location_folder location.
Proof.
  destruct (location_folder_chars location) as [Hne Hsafe].
  revert Hne Hsafe. generalize (get_location_folder location). intros r Hne Hsafe.
  unfold get_location_folder.
  assert (nonempty r = true) as -> by (by destruct r).
  assert (text_eqb r (str "N/A") = false) as ->.
  { apply text_eqb_neq. intros ->. by inversion Hsafe as [|? ? ? Hs]; inversion Hs. }
  cbn [negb orb].
  rewrite re_sub_spaces, strip_id, sub_chars_id, squeeze_id.
  - by destruct r.
  - eapply Forall_impl; [exact Hsafe|]. apply safe_char_space.
  - eapply Forall_impl; [exact Hsafe|]. apply safe_char_unsafe.
  - eapply Forall_impl; [exact Hsafe|]. apply safe_char_space.
Qed.

Lemma split_char_head (c : ascii) (s : text) :
  exists rest,
    s = item (split_char c s) 0 ++ rest
    /\ (rest = [] \/ exists r, rest = c :: r).
Proof.
  induction s as [|x s (rest & Hs & Hrest)]; [exists []; by split; [|left]|].
  cbn [split_char]. destruct (ascii_eqb x c) eqn:E.
  - apply ascii_eqb_eq in E as ->. exists (c :: s). split; [done|]. right. by exists s.
  - exists rest. split; [|done].
    unfold item in *.
    destruct (split_char c s) as [|l ls]; simpl in *; [|by rewrite Hs at 1].
    rewrite Hs at 1. done.
Qed.

(** X1. The hostname prefix of a hostname that is neither empty nor the
    sentinel is the text before its first period: the hostname is the prefix
    followed by nothing or by a period and more, and the prefix holds no
    period. For every hostname, the prefix holds no period. *)
Theorem X1_hostname_prefix_before_first_period (hostname : text) :
  Forall (fun c => c <> "."%char) (get_hostname_prefix hostname)
  /\ (hostname <> [] -> hostname <> str "N/A" ->
      exists rest,
        hostname = get_hostname_prefix hostname ++ rest
        /\ (rest = [] \/ exists r, rest = "."%char :: r)).
Proof.
  unfold get_hostname_prefix. split.
  - destruct (negb (nonempty hostname) || text_eqb hostname (str "N/A")).
    + unfold str. cbn [list_ascii_of_string]. repeat (constructor; [done|]). constructor.
    + apply item_no_char, split_char_segments.
  - intros Hne Hna.
    assert (nonempty hostname = true) as -> by (by destruct hostname).
    apply text_eqb_neq in Hna. rewrite Hna. cbn [negb orb].
    apply split_char_head.
Qed.

Lemma X1_witness :
  exists rest,
    str "dd01.example.com" = get_hostname_prefix (str "dd01.example.com") ++ rest
    /\ (rest = [] \/ exists r, rest = "."%char :: r).
Proof.
  apply (X1_hostname_prefix_before_first_period (str "dd01.example.com")); done.
Defined.

(** * The identifier of an entry *)

Lemma endswith_tar_not_eml (name : text) :
  endswith (str ".tar.gz") name = true -> endswith (str ".eml") name = false.
Proof.
  unfold endswith. destruct (rev name) as [|c r]; [done|].
  cbn [str list_ascii_of_string rev app startswith].
  intros H. apply andb_true_iff in H as [H _]. apply ascii_eqb_eq in H as <-. done.
Qed.

Lemma entry_get_str (r : gmap string value) (key : string) (dflt s : text) :
  get_str r key = Some s -> entry_get r key dflt = s.
Proof.
  unfold get_str, entry_get. destruct (r !! key) as [[]|]; congruence.
Qed.

(** X18. An entry whose source name ends in [.tar.gz] and lacks
    [autosupport_] is identified by the prefix of its hostname alone,
    whatever its date; an entry whose source name ends in [.eml] or holds
    [autosupport_] is identified by that prefix, an underscore and the date
    suffix. *)
Theorem X18_identifier_by_source d (r : gmap string value) (name : text) :
  get_str r "SOURCE_TAR" = Some name ->
  let prefix := get_hostname_prefix (entry_get r "HOSTNAME" (str "unknown")) in
  (endswith (str ".tar.gz") name = true ->
   contains (str "autosupport_") name = false ->
   entry_identifier d r = prefix)
  /\ (endswith (str ".eml") name = true \/ contains (str "autosupport_") name = true ->
      entry_identifier d r
      = prefix ++ str "_" ++ d (entry_get r "GENERATED_ON" (str "unknown"))).
Proof.
  intros Hname. cbv zeta. unfold entry_identifier, get_file_identifier. cbv zeta.
  rewrite (entry_get_str _ _ _ _ Hname). split.
  - intros Htar Hauto. rewrite (endswith_tar_not_eml _ Htar), Hauto.
    by rewrite andb_false_r.
  - intros Hsrc.
    assert (nonempty name = true) as ->.
    { destruct name; [|done]. by destruct Hsrc. }
    destruct Hsrc as [-> | ->]; by rewrite ?orb_true_r.
Qed.

Lemma X18_witness :
  let r : gmap string value :=
    <["SOURCE_TAR" := VStr (str "dd01.tar.gz")]>
      (<["HOSTNAME" := VStr (str "dd01.example.com")]> ∅) in
  entry_identifier (fun _ => str "10172025") r
  = get_hostname_prefix (entry_get r "HOSTNAME" (str "unknown")).
Proof.
  cbv zeta.
  apply (X18_identifier_by_source (fun _ => str "10172025")
           (<["SOURCE_TAR" := VStr (str "dd01.tar.gz")]>
              (<["HOSTNAME" := VStr (str "dd01.example.com")]> ∅))
           (str "dd01.tar.gz")).
  - unfold get_str. by rewrite lookup_insert_eq.
  - reflexivity.
  - reflexivity.
Defined.

(** * Grouping of the entries *)

Lemma group_entry_lookup d g e (f i : text) :
  (group_entry d g e !! f) ≫= (.!! i)
  = if decide (entry_folder e = f /\ entry_identifier d e = i)
    then Some (default [] ((g !! f) ≫= (.!! i)) ++ [e])
    else (g !! f) ≫= (.!! i).
Proof.
  unfold group_entry. cbv zeta.
  set (F := entry_folder e). set (I := entry_identifier d e).
  destruct (decide (F = f)) as [<-|Hf].
  - rewrite lookup_insert_eq. cbn [mbind option_bind].
    destruct (g !! F) as [m|] eqn:Eg.
    + rewrite Eg. cbn [default from_option mbind option_bind]; unfold id.
      destruct (decide (I = i)) as [<-|Hi].
      * rewrite lookup_insert_eq.
        rewrite decide_True by done.
        destruct (m !! I) as [l|] eqn:Em; [by rewrite Em|].
        by rewrite lookup_insert_eq.
      * rewrite lookup_insert_ne by done.
        rewrite decide_False by (intros [_ ?]; done).
        destruct (m !! I); [done|]. by rewrite lookup_insert_ne.
    + rewrite lookup_insert_eq. cbn [default from_option mbind option_bind]; unfold id.
      rewrite lookup_empty.
      destruct (decide (I = i)) as [<-|Hi].
      * rewrite lookup_insert_eq, decide_True by done.
        by rewrite lookup_insert_eq.
      * rewrite lookup_insert_ne by done.
        rewrite decide_False by (intros [_ ?]; done).
        rewrite lookup_insert_ne by done. apply lookup_empty.
  - rewrite lookup_insert_ne by done.
    rewrite decide_False by (intros [? _]; done).
    destruct (g !! F); [done|]. by rewrite lookup_insert_ne.
Qed.

Lemma group_entry_folder d g e (f : text) :
  is_Some (group_entry d g e !! f) <-> entry_folder e = f \/ is_Some (g !! f).
Proof.
  unfold group_entry. cbv zeta.
  set (F := entry_folder e).
  destruct (decide (F = f)) as [<-|Hf].
  - rewrite lookup_insert_eq. split; [by left|by eexists].
  - rewrite lookup_insert_ne by done.
    destruct (g !! F); [|rewrite lookup_insert_ne by done]; split; tauto.
Qed.

(** X4. The grouping of the exports is a partition of the data: the group
    of a folder and an identifier holds exactly the entries with that folder
    and that identifier, in the order of the data, and exists only when
    there is such an entry; a folder has groups exactly when an entry has
    that folder. *)
Theorem X4_group_entries_partition d (data : list (gmap string value))
    (folder identifier : text) :
  ((group_entries d data !! folder) ≫= (.!! identifier)
   = if decide (members d folder identifier data = []) then None
     else Some (members d folder identifier data))
  /\ (is_Some (group_entries d data !! folder)
      <-> Exists (fun entry => entry_folder entry = folder) data).
Proof.
  unfold group_entries, members.
  induction data as [|e data [IH1 IH2]] using rev_ind.
  - cbn [fold_left]. rewrite lookup_empty, Exists_nil.
    split; [done|]. split; [by intros []|done].
  - rewrite fold_left_app. cbn [fold_left]. split.
    + rewrite group_entry_lookup, IH1, filter_app.
      destruct (decide (entry_folder e = folder
                        /\ entry_identifier d e = identifier)) as [He|He].
      * rewrite filter_cons_True by exact He. rewrite filter_nil.
        destruct (decide (filter _ data = [])) as [E|E].
        -- rewrite E. by rewrite decide_False.
        -- cbn [default from_option]. unfold id.
           by rewrite decide_False by (by intros [_ ?]%app_eq_nil).
      * rewrite filter_cons_False by exact He. by rewrite filter_nil, app_nil_r.
    + rewrite group_entry_folder, IH2, Exists_app, Exists_cons, Exists_nil. tauto.
Qed.

(** * Batches *)

Lemma parse_autosupport_file_source fs current_tar file_path :
  get_str (parse_autosupport_file fs current_tar file_path) "SOURCE_FILE"
  = Some (basename file_path)
  /\ get_str (parse_autosupport_file fs current_tar file_path) "SOURCE_TAR"
     = Some (current_tar_or_na current_tar).
Proof.
  unfold get_str.
  destruct (fs file_path) as [content|] eqn:Hfs.
  - rewrite (parse_autosupport_file_read _ _ _ _ Hfs). unfold record_of. cbv zeta.
    rewrite lookup_insert_ne by done. by rewrite !lookup_insert_eq.
  - rewrite (parse_autosupport_file_unreadable _ _ _ Hfs). unfold degraded. cbv zeta.
    rewrite lookup_insert_ne by done. by rewrite !lookup_insert_eq.
Qed.

Lemma process_single_records (extract : text -> list text) fs (path : text) :
  let results :=
    if bool_decide (extract path = []) then []
    else map (parse_autosupport_file fs (Some (basename path))) (extract path) in
  map (fun r => get_str r "SOURCE_FILE") results
  = map (fun f => Some (basename f)) (extract path)
  /\ Forall (fun r => get_str r "SOURCE_TAR" = Some (basename path)) results.
Proof.
  cbv zeta.
  assert ((if bool_decide (extract path = []) then []
           else map (parse_autosupport_file fs (Some (basename path))) (extract path))
          = map (parse_autosupport_file fs (Some (basename path))) (extract path)) as ->.
  { case_bool_decide as E; [by rewrite E|done]. }
  split.
  - rewrite map_map. apply map_ext. intros f.
    apply parse_autosupport_file_source.
  - apply Forall_map, Forall_forall. intros f _.
    apply (parse_autosupport_file_source fs (Some (basename path)) f).
Qed.

(** X5. Processing an archive or an e-mail gives one record per extracted
    file, in the order of the extraction: the record of a file carries the
    base name of that file as its source file and the base name of the
    archive or e-mail as its source archive, whether or not the file could
    be read. The tracked name is left set to that base name. *)
Theorem X5_one_record_per_extracted_file
    (extract : text -> list text) fs (path : text) :
  (map (fun r => get_str r "SOURCE_FILE") (process_single_tar extract fs path).1
   = map (fun f => Some (basename f)) (extract path)
   /\ Forall (fun r => get_str r "SOURCE_TAR" = Some (basename path))
        (process_single_tar extract fs path).1
   /\ (process_single_tar extract fs path).2 = Some (basename path))
  /\ (map (fun r => get_str r "SOURCE_FILE") (process_single_eml extract fs path).1
      = map (fun f => Some (basename f)) (extract path)
      /\ Forall (fun r => get_str r "SOURCE_TAR" = Some (basename path))
           (process_single_eml extract fs path).1
      /\ (process_single_eml extract fs path).2 = Some (basename path)).
Proof.
  pose proof (process_single_records extract fs path) as [H1 H2].
  unfold process_single_tar, process_single_eml. cbv zeta.
  destruct (bool_decide (extract path = [])); done.
Qed.

Lemma text_le_trans : Transitive text_le.
Proof. intros a b c. unfold text_le. apply transitivity. Qed.

Lemma text_le_antisymm : AntiSymm (=) text_le.
Proof.
  intros a b Hab Hba. unfold text_le in *.
  pose proof (anti_symm String.le _ _ Hab Hba) as H.
  apply (f_equal list_ascii_of_string) in H.
  by rewrite !list_ascii_of_string_of_list_ascii in H.
Qed.

Lemma text_le_total : Total text_le.
Proof. intros a b. unfold text_le. apply total, _. Qed.

(** Sorting forgets the order of its input. *)
Lemma py_sorted_perm (l1 l2 : list text) :
  l1 ≡ₚ l2 -> py_sorted l1 = py_sorted l2.
Proof.
  intros H. unfold py_sorted.
  apply (@Sorted_unique _ text_le text_le_trans text_le_antisymm).
  - apply (@Sorted_merge_sort _ text_le _ text_le_total).
  - apply (@Sorted_merge_sort _ text_le _ text_le_total).
  - by rewrite !merge_sort_Permutation.
Qed.

Lemma fold_left_extend {A B : Type} (g : A -> list B) (l : list A) (acc : list B) :
  fold_left (fun results x => results ++ g x) l acc = acc ++ concat (map g l).
Proof.
  revert acc. induction l as [|x l IH]; intros acc; cbn [fold_left map concat].
  - by rewrite app_nil_r.
  - by rewrite IH, app_assoc.
Qed.

(** The records of a directory: those of its archives in increasing order
    of their paths, then those of its e-mails in increasing order. *)
Lemma process_directory_concat listdir extract_tar_gz extract_autosupport_from_eml
    fs (directory : text) :
  process_directory listdir extract_tar_gz extract_autosupport_from_eml fs directory
  = concat (map (fun p => (process_single_tar extract_tar_gz fs p).1)
              (py_sorted (tar_files_of directory (listdir directory))))
    ++ concat (map (fun p => (process_single_eml extract_autosupport_from_eml fs p).1)
                 (py_sorted (eml_files_of directory (listdir directory)))).
Proof.
  unfold process_directory. cbv zeta.
  destruct (length (tar_files_of directory (listdir directory))
            + length (eml_files_of directory (listdir directory)) =? 0) eqn:E.
  - apply Nat.eqb_eq in E.
    destruct (tar_files_of directory (listdir directory)); [|simpl in E; lia].
    destruct (eml_files_of directory (listdir directory)); [|simpl in E; lia].
    done.
  - by rewrite !fold_left_extend.
Qed.

Lemma tar_files_of_filter (directory : text) (names : list text) :
  tar_files_of directory names
  = tar_files_of directory (filter (fun file => is_archive file = true) names).
Proof.
  unfold tar_files_of.
  induction names as [|file names IH]; [done|].
  destruct (is_archive file) eqn:E.
  - rewrite filter_cons_True by done. cbn [omap list_omap]. by rewrite IH.
  - rewrite filter_cons_False by (by rewrite E). cbn [omap list_omap].
    unfold is_archive in E. apply orb_false_iff in E as [-> _]. exact IH.
Qed.

Lemma eml_files_of_filter (directory : text) (names : list text) :
  eml_files_of directory names
  = eml_files_of directory (filter (fun file => is_archive file = true) names).
Proof.
  unfold eml_files_of.
  induction names as [|file names IH]; [done|].
  destruct (is_archive file) eqn:E.
  - rewrite filter_cons_True by done. cbn [omap list_omap]. by rewrite IH.
  - rewrite filter_cons_False by (by rewrite E). cbn [omap list_omap].
    unfold is_archive in E. apply orb_false_iff in E as [-> ->]. exact IH.
Qed.

(** X6. The records of a directory depend only on which of its names end in
    [.tar.gz] or [.eml]: neither the order in which the directory is listed
    nor the other names in it change the result. *)
Theorem X6_listing_order_irrelevant
    listdir1 listdir2 extract_tar_gz extract_autosupport_from_eml fs
    (directory : text) :
  filter (fun file => is_archive file = true) (listdir1 directory)
  ≡ₚ filter (fun file => is_archive file = true) (listdir2 directory) ->
  process_directory listdir1 extract_tar_gz extract_autosupport_from_eml fs directory
  = process_directory listdir2 extract_tar_gz extract_autosupport_from_eml fs directory.
Proof.
  intros H. rewrite !process_directory_concat.
  rewrite (tar_files_of_filter directory (listdir1 directory)).
  rewrite (tar_files_of_filter directory (listdir2 directory)).
  rewrite (eml_files_of_filter directory (listdir1 directory)).
  rewrite (eml_files_of_filter directory (listdir2 directory)).
  unfold tar_files_of, eml_files_of.
  f_equal; f_equal; f_equal; apply py_sorted_perm; by rewrite H.
Qed.

Lemma X6_witness :
  let names1 := [str "b.tar.gz"; str "notes.txt"; str "a.eml"; str "a.tar.gz"] in
  let names2 := [str "a.tar.gz"; str "a.eml"; str "b.tar.gz"] in
  let extract := fun p : text => [p ++ str "/autosupport"] in
  process_directory (fun _ => names1) extract extract (fun _ => None) (str "in")
  = process_directory (fun _ => names2) extract extract (fun _ => None) (str "in").
Proof.
  cbv zeta.
  apply (X6_listing_order_irrelevant
           (fun _ => [str "b.tar.gz"; str "notes.txt"; str "a.eml"; str "a.tar.gz"])
           (fun _ => [str "a.tar.gz"; str "a.eml"; str "b.tar.gz"])).
  vm_compute filter.
  change ([str "b.tar.gz"; str "a.eml"; str "a.tar.gz"]
          ≡ₚ [str "a.tar.gz"; str "a.eml"; str "b.tar.gz"]).
  etrans; [apply Permutation_swap|].
  etrans; [apply perm_skip, Permutation_swap|].
  apply Permutation_swap.
Defined.

Lemma split_char_last (c : ascii) (a b : text) :
  Forall (fun x => x <> c) b ->
  exists l ls,
    split_char c (a ++ c :: b) = l :: ls /\ ls <> [] /\ last_item ls = b.
Proof.
  intros Hb. induction a as [|x a (l & ls & E & Hne & Hlast)].
  - exists [], [b]. cbn [app split_char]. rewrite ascii_eqb_refl.
    by rewrite (split_char_no_sep c b Hb).
  - cbn [app split_char]. rewrite E.
    destruct (ascii_eqb x c).
    + exists [], (l :: ls). split; [done|]. split; [done|].
      unfold last_item in *. by destruct ls.
    + by exists (x :: l), ls.
Qed.

Lemma basename_after_slash (a b : text) :
  Forall (fun x => x <> "/"%char) b -> basename (a ++ "/"%char :: b) = b.
Proof.
  intros Hb. unfold basename.
  destruct (split_char_last "/" a b Hb) as (l & ls & -> & Hne & Hlast).
  unfold last_item in *. by destruct ls.
Qed.

Lemma endswith_char (c : ascii) (s : text) :
  endswith [c] s = true -> exists a, s = a ++ [c].
Proof.
  unfold endswith. cbn [rev app]. intros H.
  destruct (rev s) as [|x r] eqn:E; [done|].
  cbn [startswith] in H. rewrite andb_true_r in H.
  apply ascii_eqb_eq in H as <-.
  exists (rev r). apply (f_equal (@rev ascii)) in E.
  by rewrite rev_involutive in E.
Qed.

(** A name of a directory listing holds no slash; joined to the directory,
    its base name is the name again. *)
Lemma basename_path_join (directory file : text) :
  Forall (fun x => x <> "/"%char) file ->
  basename (path_join directory file) = file.
Proof.
  intros Hf. unfold path_join.
  assert (startswith (str "/") file = false) as ->.
  { destruct Hf as [|x file Hx _]; [done|].
    cbn [str list_ascii_of_string startswith]. rewrite andb_true_r.
    apply ascii_eqb_neq. congruence. }
  destruct (negb (nonempty directory) || endswith (str "/") directory) eqn:E.
  - apply orb_true_iff in E as [E|E].
    + destruct directory; [|done]. unfold basename. cbn [app].
      by rewrite (split_char_no_sep _ _ Hf).
    + apply endswith_char in E as [a ->]. rewrite <- app_assoc.
      by apply basename_after_slash.
  - by apply basename_after_slash.
Qed.

Lemma tar_files_of_elem (directory : text) (names : list text) (p : text) :
  p ∈ tar_files_of directory names ->
  exists file, file ∈ names /\ endswith (str ".tar.gz") file = true
               /\ p = path_join directory file.
Proof.
  unfold tar_files_of. intros (file & Hin & Hf)%list_elem_of_omap.
  exists file. destruct (endswith (str ".tar.gz") file); [|done].
  by injection Hf as <-.
Qed.

Lemma eml_files_of_elem (directory : text) (names : list text) (p : text) :
  p ∈ eml_files_of directory names ->
  exists file, file ∈ names /\ endswith (str ".eml") file = true
               /\ p = path_join directory file.
Proof.
  unfold eml_files_of. intros (file & Hin & Hf)%list_elem_of_omap.
  exists file. destruct (endswith (str ".tar.gz") file); [done|].
  destruct (endswith (str ".eml") file); [|done].
  by injection Hf as <-.
Qed.

(** X7. When the names of the listing hold no slash, every record of a
    directory names as its source archive one of the listed names that end
    in [.tar.gz] or [.eml]. *)
Theorem X7_source_archive_is_listed
    listdir extract_tar_gz extract_autosupport_from_eml fs (directory : text) :
  Forall (fun file => Forall (fun x => x <> "/"%char) file) (listdir directory) ->
  Forall (fun r => exists file,
            file ∈ listdir directory /\ is_archive file = true
            /\ get_str r "SOURCE_TAR" = Some file)
    (process_directory listdir extract_tar_gz extract_autosupport_from_eml fs
       directory).
Proof.
  intros Hnames. rewrite process_directory_concat.
  rewrite Forall_forall in Hnames.
  apply Forall_app. split; apply Forall_concat, Forall_map, Forall_forall; intros p Hp.
  - unfold py_sorted in Hp. rewrite merge_sort_Permutation in Hp.
    apply tar_files_of_elem in Hp as (file & Hin & He & ->).
    destruct (process_single_records extract_tar_gz fs (path_join directory file))
      as [_ H].
    unfold process_single_tar. cbv zeta in H |- *.
    destruct (bool_decide (extract_tar_gz (path_join directory file) = []));
      [constructor|].
    cbn [fst]. eapply Forall_impl; [exact H|]. intros r Hr.
    exists file. unfold is_archive. rewrite He.
    rewrite basename_path_join in Hr by (by apply Hnames). done.
  - unfold py_sorted in Hp. rewrite merge_sort_Permutation in Hp.
    apply eml_files_of_elem in Hp as (file & Hin & He & ->).
    destruct (process_single_records extract_autosupport_from_eml fs
                (path_join directory file)) as [_ H].
    unfold process_single_eml. cbv zeta in H |- *.
    destruct (bool_decide
                (extract_autosupport_from_eml (path_join directory file) = []));
      [constructor|].
    cbn [fst]. eapply Forall_impl; [exact H|]. intros r Hr.
    exists file. unfold is_archive. rewrite He, orb_true_r.
    rewrite basename_path_join in Hr by (by apply Hnames). done.
Qed.

Lemma X7_witness :
  Forall (fun r => exists file,
            file ∈ [str "b.tar.gz"; str "notes.txt"; str "a.eml"]
            /\ is_archive file = true
            /\ get_str r "SOURCE_TAR" = Some file)
    (process_directory (fun _ => [str "b.tar.gz"; str "notes.txt"; str "a.eml"])
       (fun p => [p ++ str "/autosupport"]) (fun p => [p ++ str "/autosupport"])
       (fun _ => None) (str "in")).
Proof.
  apply (X7_source_archive_is_listed
           (fun _ => [str "b.tar.gz"; str "notes.txt"; str "a.eml"])).
  repeat (constructor; [by apply contains_false_no_char|]). constructor.
Defined.

(** * Service states *)

Lemma starts_with_exact (w post : text) :
  starts_with no_flags w (w ++ post) = true.
Proof.
  induction w as [|c w IH]; [done|].
  cbn [app starts_with]. unfold char_eq. cbn [ignorecase no_flags].
  by rewrite ascii_eqb_refl, IH.
Qed.

Lemma searches_exact (p : string) (content : text) :
  part_of (str p) content -> searches no_flags (lit p) content = true.
Proof.
  intros (pre & post & ->).
  unfold searches, re_search.
  destruct (search_from_later no_flags (lit p) false (pre ++ str p ++ post)
              pre (str p ++ post) None) as [f ->]; [|done].
  eapply search_from_here. unfold match_here, lit.
  rewrite rmatch_lit_text, starts_with_exact. done.
Qed.

Lemma services_dom (content : text) :
  dom (parse_services_status content) = list_to_set SERVICES.
Proof.
  unfold parse_services_status. cbv zeta. rewrite !dom_insert_L, dom_empty_L.
  unfold SERVICES. cbn [list_to_set]. set_solver.
Qed.

(** X8. The service table has exactly the five services as keys, and every
    state in it is one of Enabled, Disabled and Unknown, except that
    replication may also be Configured. *)
Theorem X8_service_states (content : text) :
  dom (parse_services_status content) = list_to_set SERVICES
  /\ forall service status,
       parse_services_status content !! service = Some status ->
       In status [str "Enabled"; str "Disabled"; str "Unknown"]
       \/ (service = "REPLICATION" /\ status = str "Configured").
Proof.
  split.
  - apply services_dom.
  - intros service status H.
    destruct (services_lookup content) as (Hn & Hc & Hd & Ht & Hr).
    destruct (decide (In service SERVICES)) as [Hin|Hout].
    2: { by rewrite services_lookup_other in H. }
    unfold SERVICES in Hin. simpl in Hin.
    destruct Hin as [<-|[<-|[<-|[<-|[<-|[]]]]]].
    + rewrite Hn in H. injection H as <-. unfold nfs_status. left.
      repeat destruct (searches _ _ _); simpl; tauto.
    + rewrite Hc in H. injection H as <-. unfold cifs_status. left.
      repeat destruct (searches _ _ _); simpl; tauto.
    + rewrite Hd in H. injection H as <-. unfold ndmp_status. left.
      repeat destruct (searches _ _ _); simpl; tauto.
    + rewrite Ht in H. injection H as <-. unfold cloud_tier_status. left.
      repeat destruct (searches _ _ _); simpl; tauto.
    + rewrite Hr in H. injection H as <-. unfold replication_status.
      repeat destruct (searches _ _ _); simpl; tauto.
Qed.

Lemma X8_witness :
  In (str "Enabled") [str "Enabled"; str "Disabled"; str "Unknown"]
  \/ ("REPLICATION" = "REPLICATION" /\ str "Enabled" = str "Configured").
Proof.
  apply (proj2 (X8_service_states sample_report) "REPLICATION" (str "Enabled")).
  vm_compute. reflexivity.
Defined.

(** X9. Evidence that a service runs is tested first for NFS and for the
    cloud tier: a report that holds the sentence that NFS is active (in any
    case of the letters) has NFS Enabled, and a report that holds the label
    [Cloud Unit:] has the cloud tier Enabled, whatever else the report says
    about them being disabled. *)
Theorem X9_running_evidence_first (content : text) :
  (occurs_ci "The NFS system is currently active and running" content ->
   parse_services_status content !! "NFS" = Some (str "Enabled"))
  /\ (part_of (str "Cloud Unit:") content ->
      parse_services_status content !! "CLOUD_TIER" = Some (str "Enabled")).
Proof.
  destruct (services_lookup content) as (Hn & _ & _ & Ht & _).
  split; intros H.
  - rewrite Hn. unfold nfs_status, nfs_active. by rewrite searches_phrase.
  - rewrite Ht. unfold cloud_tier_status, cloud_unit.
    by rewrite (searches_exact _ _ H), orb_true_r.
Qed.

Lemma X9_witness :
  parse_services_status
    (str "NFS is disabled. the nfs system is currently ACTIVE and running")
    !! "NFS" = Some (str "Enabled")
  /\ parse_services_status (str "Cloud Unit: none; cloud tier disabled")
       !! "CLOUD_TIER" = Some (str "Enabled").
Proof.
  split.
  - apply (proj1 (X9_running_evidence_first
             (str "NFS is disabled. the nfs system is currently ACTIVE and running"))).
    exists (str "NFS is disabled. "),
           (str "the nfs system is currently ACTIVE and running"), [].
    split; reflexivity.
  - apply (proj2 (X9_running_evidence_first
             (str "Cloud Unit: none; cloud tier disabled"))).
    exists [], (str " none; cloud tier disabled"). reflexivity.
Defined.

(** * Trimmed values *)

Lemma drop_while_head (p : ascii -> bool) (s : text) :
  match drop_while p s with
  | [] => True
  | c :: _ => p c = false
  end.
Proof.
  induction s as [|c s IH]; [done|].
  cbn [drop_while]. by destruct (p c) eqn:E.
Qed.

Lemma drop_while_fix (p : ascii -> bool) (s : text) :
  match s with [] => True | c :: _ => p c = false end ->
  drop_while p s = s.
Proof. destruct s as [|c s]; [done|]. cbn [drop_while]. by intros ->. Qed.

Lemma rstrip_by_idem (p : ascii -> bool) (s : text) :
  rstrip_by p (rstrip_by p s) = rstrip_by p s.
Proof.
  unfold rstrip_by. rewrite rev_involutive. f_equal.
  apply drop_while_fix, drop_while_head.
Qed.

Lemma strip_head (s : text) :
  match strip s with
  | [] => True
  | c :: _ => isspace c = false
  end.
Proof.
  unfold strip, rstrip, lstrip.
  pose proof (drop_while_head isspace s) as Hh.
  destruct (rstrip_by_prefix isspace (drop_while isspace s)) as [w Hw].
  destruct (rstrip_by isspace (drop_while isspace s)) as [|c u]; [done|].
  rewrite Hw in Hh. exact Hh.
Qed.

(** Trimming is idempotent. *)
Lemma strip_idem (s : text) : strip (strip s) = strip s.
Proof.
  pose proof (strip_head s) as Hh.
  unfold strip at 1. unfold lstrip. rewrite (drop_while_fix _ _ Hh).
  unfold strip, rstrip. apply rstrip_by_idem.
Qed.

Lemma part_of_Forall (P : ascii -> Prop) (t s : text) :
  part_of t s -> Forall P s -> Forall P t.
Proof.
  intros (pre & post & ->) H.
  apply Forall_app in H as [_ H]. by apply Forall_app in H as [H _].
Qed.

Lemma find_some_in {A : Type} (f : A -> bool) (l : list A) (x : A) :
  List.find f l = Some x -> In x l.
Proof. intros H. by apply find_some in H as [H _]. Qed.

(** X10. The value extracted for a field never holds a line feed and has no
    white space at either end: it is its own trimmed form. *)
Theorem X10_field_value_trimmed (content : text) (field : string) :
  In field REQUIRED_FIELDS ->
  Forall (fun c => c <> NL) (extract_field content field)
  /\ strip (extract_field content field) = extract_field content field.
Proof.
  intros Hin.
  assert (Forall (fun c => c <> NL) (str field)) as Hnl.
  { unfold REQUIRED_FIELDS in Hin. simpl in Hin.
    destruct Hin as [<-|[<-|[<-|[<-|[<-|[<-|[]]]]]]];
      unfold str; cbn [list_ascii_of_string];
      repeat (constructor; [done|]); constructor. }
  rewrite (extract_field_spec field content Hnl).
  unfold field_value_spec, first_field_line.
  destruct (List.find _ _) as [line|] eqn:E.
  - split; [|apply strip_idem].
    apply find_some_in in E.
    pose proof (split_char_segments NL content) as Hseg.
    rewrite Forall_forall in Hseg. apply list_elem_of_In in E.
    specialize (Hseg line E).
    eapply part_of_Forall; [apply part_of_strip|].
    eapply part_of_Forall; [apply part_of_skipn|]. exact Hseg.
  - split; [|done].
    unfold str. cbn [list_ascii_of_string]. repeat (constructor; [done|]). constructor.
Qed.

Lemma X10_witness :
  Forall (fun c => c <> NL) (extract_field (str "HOSTNAME=  dd01.example.com  ") "HOSTNAME")
  /\ strip (extract_field (str "HOSTNAME=  dd01.example.com  ") "HOSTNAME")
     = extract_field (str "HOSTNAME=  dd01.example.com  ") "HOSTNAME".
Proof.
  apply (X10_field_value_trimmed (str "HOSTNAME=  dd01.example.com  ") "HOSTNAME").
  unfold REQUIRED_FIELDS. simpl. tauto.
Defined.

(** * The lookup tables of the volume list *)

Lemma retention_option_lock info line :
  Retention_Lock info = str "enabled" \/ Retention_Lock info = str "disabled" ->
  Retention_Lock (retention_option info line) = str "enabled"
  \/ Retention_Lock (retention_option info line) = str "disabled".
Proof.
  intros H. unfold retention_option.
  destruct (negb (nonempty (strip line))); [done|].
  destruct (2 <=? length _); [|done].
  destruct (text_eqb _ (str "Retention-lock")).
  { destruct (startswith _ _); [by left|by right]. }
  repeat (destruct (text_eqb _ _); [done|]). done.
Qed.

Lemma retention_of_section_lock section :
  Retention_Lock (retention_of_section section) = str "enabled"
  \/ Retention_Lock (retention_of_section section) = str "disabled".
Proof.
  unfold retention_of_section.
  assert (Hinit : Retention_Lock
            (RetentionInfo (str "disabled") (str "N/A") (str "N/A") (str "N/A"))
          = str "enabled"
          \/ Retention_Lock
               (RetentionInfo (str "disabled") (str "N/A") (str "N/A") (str "N/A"))
             = str "disabled") by (by right).
  revert Hinit.
  generalize (RetentionInfo (str "disabled") (str "N/A") (str "N/A") (str "N/A")).
  induction (split_lines (strip section)) as [|l ls IH]; intros info Hinfo; [done|].
  cbn [fold_left]. apply IH. by apply retention_option_lock.
Qed.

Lemma parse_mtree_retention_locks_lock content :
  map_Forall (fun _ info =>
                Retention_Lock info = str "enabled"
                \/ Retention_Lock info = str "disabled")
    (parse_mtree_retention_locks content).
Proof.
  unfold parse_mtree_retention_locks.
  assert (Hinit : map_Forall (fun (_ : text) info =>
                      Retention_Lock info = str "enabled"
                      \/ Retention_Lock info = str "disabled")
            (∅ : gmap text retention_info)) by apply map_Forall_empty.
  revert Hinit. generalize (∅ : gmap text retention_info).
  induction (re_findall DOTALL_MULTILINE retention_pattern content) as [|cs l IH];
    intros m Hm; [done|].
  cbn [fold_left]. apply IH.
  apply map_Forall_insert_2; [apply retention_of_section_lock|done].
Qed.

(** X11. The retention lock of every entry of the retention table is either
    [enabled] or [disabled]; so the retention-lock cell of a row of the
    volume list, decoded with the tables of the same report, is one of
    [enabled], [disabled] and the sentinel. *)
Theorem X11_retention_lock_states (content : text) :
  map_Forall (fun _ info =>
                Retention_Lock info = str "enabled"
                \/ Retention_Lock info = str "disabled")
    (parse_mtree_retention_locks content)
  /\ forall line r,
       decode_line "Mtree List" (parse_mtree_retention_locks content)
         (parse_mtree_replication_info content) line = Some r ->
       exists cell,
         r !! "Retention_Lock" = Some cell
         /\ In cell [str "enabled"; str "disabled"; str "N/A"].
Proof.
  pose proof (parse_mtree_retention_locks_lock content) as Htable.
  split; [done|].
  intros line r Hrow.
  apply decode_line_mtree_list_row, mtree_list_row_inv in Hrow
    as (name & size & status & ->).
  exists (Retention_Lock
            (default retention_default (parse_mtree_retention_locks content !! name))).
  split; [done|].
  destruct (parse_mtree_retention_locks content !! name) as [info|] eqn:E.
  - cbn [default from_option]. unfold id.
    destruct (Htable name info E) as [-> | ->]; simpl; tauto.
  - simpl. tauto.
Qed.

Lemma X11_witness :
  exists cell,
    sample_list_row !! "Retention_Lock" = Some cell
    /\ In cell [str "enabled"; str "disabled"; str "N/A"].
Proof.
  apply (proj2 (X11_retention_lock_states sample_report) sample_list_line
           sample_list_row).
  apply some_default. vm_compute. reflexivity.
Defined.

Lemma replication_line_path st line :
  (forall p, st.2 = Some p -> startswith (str "/data/col1/") p = true) ->
  forall p, (replication_line st line).2 = Some p ->
            startswith (str "/data/col1/") p = true.
Proof.
  destruct st as [data path]. unfold replication_line. cbn [snd].
  intros H p.
  destruct (startswith (str "Mode:") (strip line)); [apply H|].
  destruct (startswith (str "Destination:") (strip line)).
  { destruct (contains (str "/data/col1/") _); [|apply H].
    cbn [snd]. intros [= <-]. exact (startswith_app (str "/data/col1/") _). }
  destruct (startswith (str "Connection Host:") (strip line)).
  { destruct (contains (str ".") _); apply H. }
  destruct (startswith (str "Enabled:") (strip line)); apply H.
Qed.

Lemma replication_of_section_path section p :
  (replication_of_section section).2 = Some p ->
  startswith (str "/data/col1/") p = true.
Proof.
  unfold replication_of_section.
  assert (Hinit : forall p,
            (ReplicationData (str "N/A") (str "N/A") (str "N/A"), @None text).2
            = Some p -> startswith (str "/data/col1/") p = true) by done.
  revert Hinit p.
  generalize (ReplicationData (str "N/A") (str "N/A") (str "N/A"), @None text).
  induction (split_lines (strip section)) as [|l ls IH]; intros st Hst p; [apply Hst|].
  cbn [fold_left]. apply IH. by apply replication_line_path.
Qed.

(** X12. Every key of the replication table is an mtree path: it starts
    with [/data/col1/]. *)
Theorem X12_replication_keys_are_mtree_paths (content : text) :
  map_Forall (fun path _ => startswith (str "/data/col1/") path = true)
    (parse_mtree_replication_info content).
Proof.
  unfold parse_mtree_replication_info.
  assert (Hinit : map_Forall
            (fun (path : text) (_ : replication_data) =>
               startswith (str "/data/col1/") path = true)
            (∅ : gmap text replication_data)) by apply map_Forall_empty.
  revert Hinit. generalize (∅ : gmap text replication_data).
  induction (re_findall DOTALL replication_pattern content) as [|cs l IH];
    intros m Hm; [done|].
  cbn [fold_left]. apply IH.
  pose proof (replication_of_section_path (group 1 cs)) as Hp.
  destruct (replication_of_section (group 1 cs)) as [data [path|]]; [|done].
  destruct (nonempty path); [|done].
  apply map_Forall_insert_2; [by apply Hp|done].
Qed.

Lemma X12_witness :
  startswith (str "/data/col1/") (str "/data/col1/backup") = true.
Proof.
  apply (X12_replication_keys_are_mtree_paths sample_report (str "/data/col1/backup")
           (default replication_default
              (parse_mtree_replication_info sample_report !! str "/data/col1/backup"))).
  apply some_default. vm_compute. reflexivity.
Defined.

(** * Cloud profiles and data movement *)

Lemma profile_shaped_insert (r : row) (key : string) (v : text) :
  profile_shaped r -> In key profile_keys -> (In key proxy_keys -> v <> []) ->
  profile_shaped (<[key := v]> r).
Proof.
  intros [Hk Hp] Hin Hv. split.
  - intros k [x Hx]. destruct (decide (key = k)) as [<-|Hne]; [done|].
    rewrite lookup_insert_ne in Hx by done. apply Hk. by eexists.
  - intros k Hkp. destruct (decide (key = k)) as [<-|Hne].
    + rewrite lookup_insert_eq. intros [= ->]. by apply Hv.
    + rewrite lookup_insert_ne by done. by apply Hp.
Qed.

Lemma or_na_nonempty (s : text) : or_na s <> [].
Proof. unfold or_na. by destruct s. Qed.

Ltac profile_key :=
  first [ by (unfold profile_keys; simpl; tauto)
        | by (unfold proxy_keys; simpl; intros [?|[?|[?|[]]]]; discriminate)
        | by (intros _; apply or_na_nonempty)
        | done ].

Lemma profile_line_shaped (r : row) (line : text) :
  profile_shaped r -> profile_shaped (profile_line r line).
Proof.
  intros H. unfold profile_line. cbv zeta.
  destruct (negb (nonempty (strip line))); [done|].
  repeat (destruct (startswith _ (strip line));
          [apply profile_shaped_insert; profile_key|]).
  done.
Qed.

Lemma set_default_shaped (r : row) (field : string) :
  In field ["Version"; "Proxy_Host"; "Proxy_Port"; "Proxy_Username"] ->
  profile_shaped r ->
  profile_shaped (set_default r field)
  /\ is_Some (set_default r field !! field)
  /\ (forall key, is_Some (r !! key) -> is_Some (set_default r field !! key)).
Proof.
  intros Hin H. unfold set_default.
  destruct (r !! field) as [v|] eqn:E.
  - split; [done|]. split; [by rewrite E|done].
  - split; [|split].
    + apply profile_shaped_insert; [done| |done].
      unfold profile_keys. simpl in *. tauto.
    + by rewrite lookup_insert_eq.
    + intros key Hk. destruct (decide (field = key)) as [<-|Hne].
      * by rewrite lookup_insert_eq.
      * by rewrite lookup_insert_ne.
Qed.

Lemma profile_of_block_shaped (block : text) (r : row) :
  profile_of_block block = Some r ->
  profile_shaped r /\ forall key, In key profile_required_keys -> is_Some (r !! key).
Proof.
  unfold profile_of_block.
  destruct (negb (nonempty (strip block)) || negb (contains (str "Profile name:") block));
    [done|].
  assert (H0 : profile_shaped (fold_left profile_line (split_lines block) ∅)).
  { assert (Hinit : profile_shaped (∅ : row)).
    { split; [intros key [x Hx]; by rewrite lookup_empty in Hx|].
      intros key _. by rewrite lookup_empty. }
    revert Hinit. generalize (∅ : row).
    induction (split_lines block) as [|l ls IH]; intros r0 Hr0; [done|].
    cbn [fold_left]. apply IH. by apply profile_line_shaped. }
  revert H0. generalize (fold_left profile_line (split_lines block) ∅). intros r0 H0.
  cbn [fold_left].
  destruct (set_default_shaped r0 "Version") as (H1 & S1 & K1); [simpl; tauto|done|].
  destruct (set_default_shaped (set_default r0 "Version") "Proxy_Host")
    as (H2 & S2 & K2); [simpl; tauto|done|].
  destruct (set_default_shaped
              (set_default (set_default r0 "Version") "Proxy_Host") "Proxy_Port")
    as (H3 & S3 & K3); [simpl; tauto|done|].
  destruct (set_default_shaped
              (set_default (set_default (set_default r0 "Version") "Proxy_Host")
                 "Proxy_Port") "Proxy_Username")
    as (H4 & S4 & K4); [simpl; tauto|done|].
  case_bool_decide as Hn; [|done]. case_bool_decide as Hp; [|done].
  cbn [andb]. intros [= <-]. split; [done|].
  unfold profile_required_keys. simpl.
  intros key [<-|[<-|[<-|[<-|[<-|[<-|[]]]]]]]; auto.
Qed.

(** X13. Every cloud profile that the parser returns has a name, a
    provider, a version and the three proxy cells; it has no key besides
    these and the endpoint, which may be absent; and its proxy cells are
    never empty. *)
Theorem X13_cloud_profiles_complete (content : text) :
  Forall (fun r : row =>
            (forall key, In key profile_required_keys -> is_Some (r !! key))
            /\ (forall key, is_Some (r !! key) -> In key profile_keys)
            /\ (forall key, In key proxy_keys -> r !! key <> Some []))
    (parse_cloud_profiles content).
Proof.
  unfold parse_cloud_profiles.
  destruct (re_search DOTALL profiles_pattern content) as [m|]; [|constructor].
  apply Forall_forall. intros r (block & _ & Hr)%list_elem_of_omap.
  apply profile_of_block_shaped in Hr as [[Hk Hp] Hreq]. done.
Qed.

Lemma head_In {A : Type} (l : list A) (x : A) : head l = Some x -> In x l.
Proof. destruct l as [|y l]; [done|]. intros [= ->]. by left. Qed.

Lemma X13_witness :
  (forall key, In key profile_required_keys -> is_Some (sample_profile !! key))
  /\ (forall key, is_Some (sample_profile !! key) -> In key profile_keys)
  /\ (forall key, In key proxy_keys -> sample_profile !! key <> Some []).
Proof.
  pose proof (X13_cloud_profiles_complete sample_report) as H.
  rewrite Forall_forall in H. apply H.
  apply list_elem_of_In, head_In.
  apply some_default. vm_compute. reflexivity.
Defined.

Lemma strip_length (s : text) : length (strip s) <= length s.
Proof.
  destruct (part_of_strip s) as (pre & post & H).
  rewrite H at 2. rewrite !length_app. lia.
Qed.

Lemma drop_while_app_keep (p : ascii -> bool) (a b : text) :
  match b with [] => False | c :: _ => p c = false end ->
  exists a', drop_while p (a ++ b) = a' ++ b.
Proof.
  intros Hb. induction a as [|x a [a' IH]].
  - exists []. cbn [app]. destruct b as [|c b]; [done|].
    cbn [drop_while]. by rewrite Hb.
  - cbn [app drop_while]. destruct (p x).
    + by exists a'.
    + by exists (x :: a).
Qed.

(** Trimming keeps a prefix that starts and ends with characters that are
    not white space. *)
Lemma strip_keeps_prefix (p q : text) :
  match p with [] => False | c :: _ => isspace c = false end ->
  match rev p with [] => False | c :: _ => isspace c = false end ->
  startswith p (strip (p ++ q)) = true.
Proof.
  intros Hhead Hlast. unfold strip, lstrip, rstrip, rstrip_by.
  rewrite (drop_while_fix isspace (p ++ q)).
  2: { destruct p as [|c p]; [done|]. exact Hhead. }
  rewrite rev_app_distr.
  destruct (drop_while_app_keep isspace (rev q) (rev p) Hlast) as [a' ->].
  rewrite rev_app_distr, rev_involutive. apply startswith_app.
Qed.

Lemma movement_of_line_inv (line : text) (r : row) :
  movement_of_line line = Some r ->
  exists mtree target policy value,
    r = list_to_map [("Mtree", mtree); ("Target", target); ("Policy", policy);
                     ("Value", value)]
    /\ Forall (fun cell => cell <> [] /\ strip cell = cell)
         [mtree; target; policy; value]
    /\ startswith (str "/data/col1/") mtree = true
    /\ length mtree <= 28 /\ length target <= 26 /\ length policy <= 13
    /\ 60 < length (strip line).
Proof.
  unfold movement_of_line. cbv zeta.
  destruct (nonempty (strip line) && _ && _ && _); [|done].
  destruct (60 <? length (strip line)) eqn:Hlen; [|done].
  destruct (startswith (str "/data/col1/") (strip line)) eqn:Hstart; [|done].
  cbn [andb].
  set (mtree := strip (firstn 28 (strip line))).
  set (rem1 := strip (skipn 28 (strip line))).
  set (target := strip (firstn 26 rem1)).
  set (rem2 := strip (skipn 26 rem1)).
  set (policy := strip (firstn 13 rem2)).
  set (value := strip (skipn 13 rem2)).
  destruct (nonempty mtree) eqn:E1; [|done].
  destruct (nonempty target) eqn:E2; [|done].
  destruct (nonempty policy) eqn:E3; [|done].
  destruct (nonempty value) eqn:E4; [|done].
  cbn [andb]. intros [= <-].
  exists mtree, target, policy, value.
  apply Nat.ltb_lt in Hlen.
  split; [done|]. split; [|split; [|split; [|split; [|split]]]].
  - repeat constructor; try apply strip_idem.
    + by destruct mtree.
    + by destruct target.
    + by destruct policy.
    + by destruct value.
  - unfold mtree.
    apply startswith_split in Hstart. rewrite Hstart.
    change (firstn 28 (str "/data/col1/" ++ skipn (length (str "/data/col1/")) (strip line)))
      with (str "/data/col1/"
            ++ firstn 17 (skipn (length (str "/data/col1/")) (strip line))).
    by apply strip_keeps_prefix.
  - unfold mtree. etrans; [apply strip_length|]. apply firstn_le_length.
  - unfold target. etrans; [apply strip_length|]. apply firstn_le_length.
  - unfold policy. etrans; [apply strip_length|]. apply firstn_le_length.
  - done.
Qed.

(** X14. Every row of the cloud data-movement table has its four cells, none
    of them empty and each without white space at its ends; its mtree is an
    mtree path of at most 28 characters, its target has at most 26 and its
    policy at most 13. *)
Theorem X14_movement_rows_complete (content : text) :
  Forall (fun r : row =>
            exists mtree target policy value,
              r = list_to_map [("Mtree", mtree); ("Target", target);
                               ("Policy", policy); ("Value", value)]
              /\ Forall (fun cell => cell <> [] /\ strip cell = cell)
                   [mtree; target; policy; value]
              /\ startswith (str "/data/col1/") mtree = true
              /\ length mtree <= 28 /\ length target <= 26 /\ length policy <= 13)
    (parse_cloud_data_movement content).
Proof.
  unfold parse_cloud_data_movement.
  destruct (re_search DOTALL movement_pattern content) as [m|]; [|constructor].
  apply Forall_forall. intros r (line & _ & Hr)%list_elem_of_omap.
  apply movement_of_line_inv in Hr
    as (mtree & target & policy & value & -> & Hc & Hs & H1 & H2 & H3 & _).
  by exists mtree, target, policy, value.
Qed.

Lemma X14_witness :
  exists mtree target policy value,
    sample_movement = list_to_map [("Mtree", mtree); ("Target", target);
                                    ("Policy", policy); ("Value", value)]
    /\ Forall (fun cell => cell <> [] /\ strip cell = cell)
         [mtree; target; policy; value]
    /\ startswith (str "/data/col1/") mtree = true
    /\ length mtree <= 28 /\ length target <= 26 /\ length policy <= 13.
Proof.
  pose proof (X14_movement_rows_complete sample_report) as H.
  rewrite Forall_forall in H. apply H.
  apply list_elem_of_In, head_In.
  apply some_default. vm_compute. reflexivity.
Defined.

(** * The layout of the rows *)

Lemma usage_row_columns line r :
  usage_row line = Some r -> has_columns r usage_keys.
Proof.
  intros (resource & values & _ & _ & _ & ->)%usage_row_inv.
  unfold has_columns. by rewrite dom_list_to_map_L.
Qed.

Lemma compression_row_columns line r :
  compression_row line = Some r -> has_columns r compression_keys.
Proof.
  intros (metric & values & _ & _ & ->)%compression_row_inv.
  unfold has_columns. by rewrite dom_list_to_map_L.
Qed.

Lemma mtree_list_row_columns rl ri line r :
  mtree_list_row rl ri line = Some r -> has_columns r mtree_list_keys.
Proof.
  intros (name & size & status & ->)%mtree_list_row_inv.
  unfold has_columns. by rewrite dom_list_to_map_L.
Qed.

Lemma mtree_compression_row_columns line r :
  mtree_compression_row line = Some r -> has_columns r mtree_compression_keys.
Proof.
  intros (name & values & _ & _ & _ & ->)%mtree_compression_row_inv.
  unfold has_columns. by rewrite dom_list_to_map_L.
Qed.

Ltac open_guards :=
  repeat match goal with
  | |- (if ?b then None else _) = Some _ -> _ => destruct b; [done|]
  | |- (if ?b then _ else None) = Some _ -> _ => destruct b; [|done]
  end.

(** X15. A decoded row has exactly the columns of the layout of its table:
    the six usage columns in a usage table, the ten columns of the volume
    list, the six compression columns in a compression table. In a
    volume-compression table a row has the thirteen volume-compression
    columns when its line starts with an mtree path, and the six
    compression columns otherwise. *)
Theorem X15_row_columns table_name rl ri (line : text) (r : row) :
  decode_line table_name rl ri line = Some r ->
  (In table_name usage_tables -> has_columns r usage_keys)
  /\ (table_name = "Mtree List" -> has_columns r mtree_list_keys)
  /\ (In table_name compression_tables -> has_columns r compression_keys)
  /\ (In table_name mtree_compression_tables ->
      if startswith (str "/data/col1/") (strip line)
      then has_columns r mtree_compression_keys
      else has_columns r compression_keys).
Proof.
  intros H. split; [|split; [|split]]; intros Hin; revert H.
  - rewrite (decode_line_usage _ _ _ _ Hin). open_guards. apply usage_row_columns.
  - subst. rewrite decode_line_mtree_list. open_guards. apply mtree_list_row_columns.
  - rewrite (decode_line_compression _ _ _ _ Hin). open_guards.
    apply compression_row_columns.
  - rewrite (decode_line_mtree_compression _ _ _ _ Hin).
    destruct (_ || _ || _); [done|]. destruct (any_in _ line); [done|].
    destruct (nonempty (strip line)); cbn [andb].
    + destruct (startswith (str "/data/col1/") (strip line)).
      * apply mtree_compression_row_columns.
      * open_guards. apply compression_row_columns.
    + by destruct (startswith (str "/data/col1/") (strip line)).
Qed.

Lemma X15_witness :
  (In "Mtree Active Tier Compression" usage_tables -> has_columns summary_row usage_keys)
  /\ ("Mtree Active Tier Compression" = "Mtree List" ->
      has_columns summary_row mtree_list_keys)
  /\ (In "Mtree Active Tier Compression" compression_tables ->
      has_columns summary_row compression_keys)
  /\ (In "Mtree Active Tier Compression" mtree_compression_tables ->
      if startswith (str "/data/col1/") (strip summary_line)
      then has_columns summary_row mtree_compression_keys
      else has_columns summary_row compression_keys).
Proof.
  apply (X15_row_columns "Mtree Active Tier Compression" ∅ ∅ summary_line summary_row).
  apply some_default. vm_compute. reflexivity.
Defined.

(** * Cells read from tokens *)

Lemma take_token_nonspace (s : text) :
  Forall (fun c => isspace c = false) (take_token s).1.
Proof.
  induction s as [|c s IH]; [constructor|].
  cbn [take_token]. destruct (isspace c) eqn:E; [constructor|].
  destruct (take_token s) as [t r]. cbn [fst] in *. by constructor.
Qed.

Lemma split_ws_fuel_tokens (fuel : nat) (s : text) :
  Forall is_token (split_ws_fuel fuel s).
Proof.
  revert s. induction fuel as [|fuel IH]; intros s; cbn [split_ws_fuel]; [constructor|].
  pose proof (drop_while_head isspace s) as Hh. fold (lstrip s) in Hh.
  destruct (lstrip s) as [|c s'] eqn:E; [constructor|].
  pose proof (take_token_nonspace (c :: s')) as Ht.
  assert (Hne : (take_token (c :: s')).1 <> []).
  { cbn [take_token]. rewrite Hh. by destruct (take_token s'). }
  destruct (take_token (c :: s')) as [t r]. cbn [fst] in *.
  constructor; [by split|apply IH].
Qed.

Lemma split_ws_tokens (s : text) : Forall is_token (split_ws s).
Proof. apply split_ws_fuel_tokens. Qed.

Lemma na_token : is_token (str "N/A").
Proof. split; [done|]. by repeat constructor. Qed.

Lemma item_token (values : list text) (i : nat) :
  Forall is_token values -> i < length values -> is_token (item values i).
Proof.
  intros H Hi. unfold item.
  rewrite Forall_forall in H. apply H. apply list_elem_of_In. by apply nth_In.
Qed.

Lemma item_or_na_token (values : list text) (i : nat) :
  Forall is_token values -> is_token (item_or_na values i).
Proof.
  intros H. unfold item_or_na.
  destruct (i <? length values) eqn:E; [|apply na_token].
  apply Nat.ltb_lt in E. by apply item_token.
Qed.

Lemma dash_na_token (values : list text) (i : nat) :
  Forall is_token values -> i < length values -> is_token (dash_na (item values i)).
Proof.
  intros H Hi. unfold dash_na.
  destruct (negb (text_eqb _ _)); [by apply item_token|apply na_token].
Qed.

Lemma Forall_skipn_tokens (k : nat) (l : list text) :
  Forall is_token l -> Forall is_token (skipn k l).
Proof. apply Forall_drop. Qed.

Ltac cell_cases H :=
  repeat (apply lookup_insert_Some in H as [[<- <-]|[_ H]]; [|]);
  try (by rewrite lookup_empty in H).

Lemma usage_row_tokens line r key cell :
  usage_row line = Some r -> In key token_keys -> r !! key = Some cell ->
  is_token cell.
Proof.
  unfold usage_row. intros H Hkey Hcell.
  destruct (18 <? length (strip (remove_stars line))); [|done].
  set (values := split_ws (strip (skipn 18 (strip (remove_stars line))))) in *.
  destruct (1 <=? length values); [|done].
  injection H as <-.
  pose proof (split_ws_tokens (strip (skipn 18 (strip (remove_stars line))))) as Hv.
  fold values in Hv.
  cell_cases Hcell; try by apply item_or_na_token.
  exfalso. vm_compute in Hkey. intuition discriminate.
Qed.

Lemma compression_row_tokens line r key cell :
  compression_row line = Some r -> In key token_keys -> r !! key = Some cell ->
  is_token cell.
Proof.
  unfold compression_row. intros H Hkey Hcell.
  set (clean_line := strip (remove_stars line)) in *.
  destruct (contains (str ":") clean_line || _); [|done].
  destruct (2 <=? length (split_ws clean_line)); [|done].
  destruct (compression_metric_values (split_ws clean_line)) as [k Hk].
  destruct (compression_metric (split_ws clean_line)) as [metric values].
  cbn [snd] in Hk.
  destruct (2 <=? length values); [|done].
  injection H as <-.
  assert (Hv : Forall is_token values).
  { rewrite Hk. apply Forall_skipn_tokens, split_ws_tokens. }
  cell_cases Hcell; try by apply item_or_na_token.
  exfalso. vm_compute in Hkey. intuition discriminate.
Qed.

Lemma mtree_compression_row_tokens line r key cell :
  mtree_compression_row line = Some r -> In key token_keys -> r !! key = Some cell ->
  is_token cell.
Proof.
  unfold mtree_compression_row. intros H Hkey Hcell.
  destruct (35 <? length (strip (remove_stars line))); [|done].
  destruct (re_match no_flags mtree_path_pattern (strip (remove_stars line)))
    as [match_data|]; [|done].
  set (values := split_ws (strip (group 2 (ms_caps match_data)))) in *.
  destruct (10 <=? length values) eqn:El; [|done].
  apply Nat.leb_le in El.
  pose proof (split_ws_tokens (strip (group 2 (ms_caps match_data)))) as Hv.
  fold values in Hv.
  destruct (split_total_reduction (dash_na (item values 4))) as [t1 p1].
  destruct (split_total_reduction (dash_na (item values 9))) as [t2 p2].
  injection H as <-.
  cell_cases Hcell; try (apply dash_na_token; [done|lia]);
    exfalso; vm_compute in Hkey; intuition discriminate.
Qed.

(** X19. In the usage, compression and volume-compression tables, every
    cell that is read from a token of the line (the sizes, factors and
    percentages, not the name of the row and not the split total cells) is
    a single token or the sentinel: it is never empty and holds no white
    space. *)
Theorem X19_value_cells_are_tokens table_name rl ri (line : text) (r : row)
    (key : string) (cell : text) :
  In table_name (usage_tables ++ compression_tables ++ mtree_compression_tables) ->
  decode_line table_name rl ri line = Some r ->
  In key token_keys ->
  r !! key = Some cell ->
  is_token cell.
Proof.
  intros Hin Hrow Hkey Hcell.
  apply in_app_or in Hin as [Hin|Hin]; [|apply in_app_or in Hin as [Hin|Hin]];
    revert Hrow.
  - rewrite (decode_line_usage _ _ _ _ Hin). open_guards.
    intros H. by eapply usage_row_tokens.
  - rewrite (decode_line_compression _ _ _ _ Hin). open_guards.
    intros H. by eapply compression_row_tokens.
  - rewrite (decode_line_mtree_compression _ _ _ _ Hin).
    destruct (_ || _ || _); [done|]. destruct (any_in _ line); [done|].
    destruct (nonempty (strip line) && startswith (str "/data/col1/") (strip line)).
    + intros H. by eapply mtree_compression_row_tokens.
    + open_guards. intros H. by eapply compression_row_tokens.
Qed.

Lemma X19_witness : is_token (default [] (summary_row !! "Pre_Comp_GiB")).
Proof.
  apply (X19_value_cells_are_tokens "Mtree Active Tier Compression" ∅ ∅
           summary_line summary_row "Pre_Comp_GiB").
  - simpl. tauto.
  - apply some_default. vm_compute. reflexivity.
  - vm_compute. tauto.
  - apply some_default. vm_compute. reflexivity.
Defined.

(** * Tables and notes *)

Lemma startswith_prefix (p s t : text) :
  startswith p s = true -> startswith p (s ++ t) = true.
Proof.
  revert s. induction p as [|c p IH]; intros s H; [done|].
  destruct s as [|x s]; [done|].
  cbn [app startswith] in *. apply andb_true_iff in H as [-> H]. by apply IH.
Qed.

Lemma collect_notes_starred (lines note_lines : list text) :
  Forall (fun l => startswith (str "*") l = true) note_lines ->
  Forall (fun l => startswith (str "*") l = true) (collect_notes lines note_lines).
Proof.
  revert note_lines. induction lines as [|line lines IH]; intros note_lines H; [done|].
  cbn [collect_notes].
  destruct (startswith (str "*") (strip line)) eqn:E.
  - apply IH. apply Forall_app. split; [done|]. by repeat constructor.
  - destruct (_ && _ && _); [done|by apply IH].
Qed.

Lemma join_starred (note_lines : list text) :
  note_lines <> [] ->
  Forall (fun l => startswith (str "*") l = true) note_lines ->
  startswith (str "*") (join (str " ") note_lines) = true.
Proof.
  intros Hne H. destruct H as [|x l Hx Hl]; [done|].
  cbn [join]. destruct l; [done|]. by apply startswith_prefix.
Qed.

Lemma storage_shaped_insert_rows sd (table_name : string) (rows : list row) :
  In table_name table_names -> storage_shaped sd ->
  storage_shaped (<[table_name := TRows rows]> sd).
Proof.
  intros Hin H key v Hv.
  destruct (decide (table_name = key)) as [<-|Hne].
  - rewrite lookup_insert_eq in Hv. injection Hv as <-.
    exists table_name. split; [done|]. left. split; [done|]. by eexists.
  - rewrite lookup_insert_ne in Hv by done.
    destruct (H key v Hv) as (tn & Htn & [Hrows|(Hkey & Hsome & Hnote)]).
    + exists tn. split; [done|]. by left.
    + exists tn. split; [done|]. right. split; [done|]. split; [|done].
      apply lookup_insert_is_Some'. by right.
Qed.

Lemma storage_shaped_insert_note sd (table_name : string) (note : text) :
  In table_name table_names -> is_Some (sd !! table_name) ->
  startswith (str "*") note = true -> storage_shaped sd ->
  storage_shaped (<[table_name +:+ "_note" := TNote note]> sd).
Proof.
  intros Hin Hsome Hnote H key v Hv.
  destruct (decide (table_name +:+ "_note" = key)) as [<-|Hne].
  - rewrite lookup_insert_eq in Hv. injection Hv as <-.
    exists table_name. split; [done|]. right. split; [done|]. split.
    + apply lookup_insert_is_Some'. by right.
    + by eexists.
  - rewrite lookup_insert_ne in Hv by done.
    destruct (H key v Hv) as (tn & Htn & [Hrows|(Hkey & Hs & Hn)]).
    + exists tn. split; [done|]. by left.
    + exists tn. split; [done|]. right. split; [done|]. split; [|done].
      apply lookup_insert_is_Some'. by right.
Qed.

Lemma parse_table_shaped content rl ri sd (entry : string * regex) :
  In entry.1 table_names -> storage_shaped sd ->
  storage_shaped (parse_table content rl ri sd entry).
Proof.
  destruct entry as [table_name pattern]. cbn [fst]. intros Hin H.
  unfold parse_table.
  destruct (re_search DOTALL_MULTILINE pattern content) as [m|]; [|done].
  cbv zeta.
  set (rows := decode_section table_name rl ri (group 1 (f_caps m))).
  set (note_lines := collect_notes _ []).
  pose proof (storage_shaped_insert_rows sd table_name rows Hin H) as H1.
  case_bool_decide as Hn; cbn [negb]; [done|].
  apply storage_shaped_insert_note; try done.
  - rewrite lookup_insert_eq. by eexists.
  - apply join_starred; [done|]. apply collect_notes_starred. constructor.
Qed.

(** X16. The storage tables hold nothing but the tables the parser looks
    for and their notes: every key is the name of such a table, holding
    its rows, or that name followed by [_note], holding a note that starts
    with an asterisk; and a note is only stored beside the entry of its
    table. *)
Theorem X16_tables_and_notes (content : text) :
  storage_shaped (parse_storage_tables content).
Proof.
  unfold parse_storage_tables. cbv zeta.
  assert (Hinit : storage_shaped ∅).
  { intros key v Hv. by rewrite lookup_empty in Hv. }
  revert Hinit. generalize (∅ : gmap string table_value).
  assert (Hall : Forall (fun entry : string * regex => In entry.1 table_names)
                   table_patterns).
  { apply Forall_forall. intros entry Hentry. unfold table_names.
    apply in_map. by apply list_elem_of_In. }
  revert Hall. generalize table_patterns at 1 2. intros l.
  induction l as [|entry l IH]; intros Hall sd Hsd; [done|].
  inversion Hall as [|? ? He Hl]; subst.
  cbn [fold_left]. apply IH; [done|]. by apply parse_table_shaped.
Qed.

Lemma X16_witness :
  exists table_name,
    In table_name table_names
    /\ (("Active Tier Usage_note" = table_name
         /\ exists rows, TNote (str "* Estimated based on last cleaning.") = TRows rows)
        \/ ("Active Tier Usage_note" = table_name +:+ "_note"
            /\ is_Some (parse_storage_tables sample_report !! table_name)
            /\ exists note,
                 TNote (str "* Estimated based on last cleaning.") = TNote note
                 /\ startswith (str "*") note = true)).
Proof.
  apply (X16_tables_and_notes sample_report "Active Tier Usage_note"
           (TNote (str "* Estimated based on last cleaning."))).
  vm_compute. reflexivity.
Defined.

(** * The keys of a record *)

(** X17. A record has no key besides the six fields, the five services,
    the storage tables, the two source names and, when the file was read,
    the two cloud sequences: its keys are exactly those. *)
Theorem X17_record_keys fs current_tar (file_path : text) :
  dom (parse_autosupport_file fs current_tar file_path)
  = list_to_set (match fs file_path with
                 | Some _ => record_keys
                 | None => degraded_keys
                 end).
Proof.
  destruct (fs file_path) as [content|] eqn:Hfs.
  - rewrite (parse_autosupport_file_read _ _ _ _ Hfs). unfold record_of. cbv zeta.
    rewrite !dom_insert_L, dom_union_L, dom_fmap_L, services_dom.
    unfold REQUIRED_FIELDS. cbn [fold_left].
    rewrite !dom_insert_L, dom_empty_L.
    unfold record_keys, REQUIRED_FIELDS, SERVICES. cbn [app list_to_set].
    set_solver.
  - rewrite (parse_autosupport_file_unreadable _ _ _ Hfs). unfold degraded. cbv zeta.
    unfold REQUIRED_FIELDS, SERVICES. cbn [fold_left map list_to_map foldr].
    rewrite !dom_insert_L, dom_empty_L.
    unfold degraded_keys, REQUIRED_FIELDS, SERVICES. cbn [app list_to_set].
    set_solver.
Qed.

(** * The length of a note *)

Lemma py_slice_window (s : text) (i : Z) :
  length (py_slice s i (i + 500)) <= 500.
Proof.
  unfold py_slice. cbv beta zeta. rewrite length_take.
  etrans; [apply Nat.le_min_l|].
  destruct (i <? 0)%Z eqn:Ei; destruct (i + 500 <? 0)%Z eqn:Ej; cbv iota;
    try apply Z.ltb_lt in Ei; try apply Z.ltb_ge in Ei;
    try apply Z.ltb_lt in Ej; try apply Z.ltb_ge in Ej;
    repeat match goal with
    | |- context [Z.max ?a ?b] => destruct (Z.max_spec a b) as [[? ->]|[? ->]]
    | |- context [Z.min ?a ?b] => destruct (Z.min_spec a b) as [[? ->]|[? ->]]
    end; lia.
Qed.

Lemma lines_weight_app (a b : list text) :
  lines_weight (a ++ b) = lines_weight a + lines_weight b.
Proof. unfold lines_weight. by rewrite map_app, list_sum_app. Qed.

Lemma lines_weight_split (c : ascii) (s : text) :
  lines_weight (split_char c s) = S (length s).
Proof.
  induction s as [|x s IH]; [done|].
  cbn [split_char]. destruct (ascii_eqb x c).
  - change (lines_weight ([] :: split_char c s)) with (1 + lines_weight (split_char c s)).
    rewrite IH. simpl. lia.
  - destruct (split_char c s) as [|l ls]; [done|].
    unfold lines_weight in *. simpl in *. lia.
Qed.

Lemma join_weight (sep : ascii) (lines : list text) :
  lines <> [] -> S (length (join [sep] lines)) = lines_weight lines.
Proof.
  induction lines as [|x lines IH]; [done|]. intros _.
  destruct lines as [|y lines]; [unfold lines_weight; simpl; lia|].
  change (join [sep] (x :: y :: lines)) with (x ++ [sep] ++ join [sep] (y :: lines)).
  change (lines_weight (x :: y :: lines))
    with (S (length x) + lines_weight (y :: lines)).
  rewrite <- IH by done. rewrite !length_app. simpl. lia.
Qed.

Lemma collect_notes_weight (lines note_lines : list text) :
  lines_weight (collect_notes lines note_lines)
  <= lines_weight note_lines + lines_weight lines.
Proof.
  revert note_lines. induction lines as [|line lines IH]; intros note_lines.
  - cbn [collect_notes]. lia.
  - cbn [collect_notes].
    change (lines_weight (line :: lines))
      with (S (length line) + lines_weight lines).
    destruct (startswith (str "*") (strip line)).
    + etrans; [apply IH|]. rewrite lines_weight_app.
      pose proof (strip_length line).
      change (lines_weight [strip line]) with (S (length (strip line)) + 0). lia.
    + destruct (_ && _ && _); [lia|]. etrans; [apply IH|]. lia.
Qed.

Lemma note_window (content : text) (note_start : Z) :
  let note_lines :=
    collect_notes (split_lines (py_slice content note_start (note_start + 500))) [] in
  note_lines <> [] -> length (join (str " ") note_lines) <= 500.
Proof.
  cbv zeta. intros Hne.
  pose proof (join_weight " " _ Hne) as Hj.
  pose proof (collect_notes_weight
                (split_lines (py_slice content note_start (note_start + 500))) []) as Hc.
  unfold split_lines in *. rewrite lines_weight_split in Hc.
  pose proof (py_slice_window content note_start) as Hw.
  change (str " ") with [" "%char].
  change (lines_weight []) with 0 in Hc. lia.
Qed.

Lemma parse_table_notes_bounded content rl ri sd (entry : string * regex) :
  (forall key note, sd !! key = Some (TNote note) -> length note <= 500) ->
  forall key note,
    parse_table content rl ri sd entry !! key = Some (TNote note) ->
    length note <= 500.
Proof.
  destruct entry as [table_name pattern]. intros H key note.
  unfold parse_table.
  destruct (re_search DOTALL_MULTILINE pattern content) as [m|]; [|apply H].
  cbv zeta.
  set (note_start := (py_find _ content + _)%Z).
  case_bool_decide as Hn; cbn [negb].
  - intros Hk. apply lookup_insert_Some in Hk as [[_ [=]]|[_ Hk]]. by eapply H.
  - intros Hk. apply lookup_insert_Some in Hk as [[_ [= <-]]|[_ Hk]].
    + by apply note_window.
    + apply lookup_insert_Some in Hk as [[_ [=]]|[_ Hk]]. by eapply H.
Qed.

Lemma parse_table_note content rl ri sd tn pattern :
  parse_table content rl ri sd (tn, pattern) !! (tn +:+ "_note")
  = match re_search DOTALL_MULTILINE pattern content with
    | Some m =>
        let section := group 1 (f_caps m) in
        let start := (py_find section content + Z.of_nat (length section))%Z in
        match note_in (py_slice content start (start + 500)) with
        | Some v => Some v
        | None => sd !! (tn +:+ "_note")
        end
    | None => sd !! (tn +:+ "_note")
    end.
Proof.
  unfold parse_table, note_in.
  destruct (re_search DOTALL_MULTILINE pattern content); [|done].
  cbv zeta. case_bool_decide as Hn; cbn [negb].
  - rewrite lookup_insert_ne; [done|]. apply append_note_neq.
  - apply lookup_insert_eq.
Qed.

Lemma parse_storage_tables_note content table_name pattern :
  In (table_name, pattern) table_patterns ->
  parse_storage_tables content !! (table_name +:+ "_note")
  = match re_search DOTALL_MULTILINE pattern content with
    | Some m =>
        let section := group 1 (f_caps m) in
        let start := (py_find section content + Z.of_nat (length section))%Z in
        note_in (py_slice content start (start + 500))
    | None => None
    end.
Proof.
  intros Hin. unfold parse_storage_tables. cbv zeta.
  unfold table_patterns, storage_usage_patterns, compression_patterns,
    mtree_patterns in *.
  cbn [app fold_left In] in *.
  repeat (destruct Hin as [[= <- <-]|Hin];
    [rewrite ?parse_table_lookup_ne by string_neq;
     rewrite parse_table_note;
     rewrite ?parse_table_lookup_ne by string_neq;
     rewrite lookup_empty;
     match goal with
     | |- match ?o with _ => _ end = match ?o' with _ => _ end =>
         change o' with o; destruct o; [|done]
     end;
     cbv zeta;
     match goal with
     | |- match ?o with _ => _ end = _ => by destruct o
     end|]).
  done.
Qed.

Lemma py_find_empty (s : text) : py_find [] s = 0%Z.
Proof. by destruct s. Qed.

Lemma py_slice_top (s : text) : py_slice s 0 500 = firstn 500 s.
Proof.
  unfold py_slice. cbv beta zeta.
  change (0 <? 0)%Z with false. change (500 <? 0)%Z with false. cbv iota.
  replace (Z.min 0 (Z.of_nat (length s))) with 0%Z by lia.
  rewrite Z.sub_0_r. change (Z.to_nat 0) with 0. rewrite skipn_O.
  destruct (Z.min_spec 500 (Z.of_nat (length s))) as [[_ ->]|[Hle ->]]; [done|].
  rewrite Nat2Z.id, firstn_all. symmetry. apply firstn_all2. lia.
Qed.

(** X22. The note of a table is what the loop over the note lines collects
    from a window of 500 characters of the report, so a stored note is
    never longer than 500 characters. The window starts after the first
    occurrence in the report of the text of the section, not where the
    table was found: when the section of a table is empty, its note is what
    the first 500 characters of the report give, wherever the table is. *)
Theorem X22_note_bounded (content : text) :
  (forall key note,
     parse_storage_tables content !! key = Some (TNote note) ->
     length note <= 500)
  /\ (forall table_name pattern,
        In (table_name, pattern) table_patterns ->
        parse_storage_tables content !! (table_name +:+ "_note")
        = match re_search DOTALL_MULTILINE pattern content with
          | Some m =>
              let section := group 1 (f_caps m) in
              let start := (py_find section content + Z.of_nat (length section))%Z in
              note_in (py_slice content start (start + 500))
          | None => None
          end)
  /\ (forall table_name pattern m,
        In (table_name, pattern) table_patterns ->
        re_search DOTALL_MULTILINE pattern content = Some m ->
        group 1 (f_caps m) = [] ->
        parse_storage_tables content !! (table_name +:+ "_note")
        = note_in (firstn 500 content)).
Proof.
  split; [|split].
  - unfold parse_storage_tables. cbv zeta.
    assert (Hinit : forall key note,
              (∅ : gmap string table_value) !! key = Some (TNote note) ->
              length note <= 500).
    { intros k n Hk. by rewrite lookup_empty in Hk. }
    revert Hinit. generalize (∅ : gmap string table_value).
    induction table_patterns as [|entry l IH]; intros sd Hsd key note; [apply Hsd|].
    cbn [fold_left]. apply IH. by apply parse_table_notes_bounded.
  - intros table_name pattern Hin. by apply parse_storage_tables_note.
  - intros table_name pattern m Hin Hm Hsection.
    rewrite (parse_storage_tables_note _ _ _ Hin), Hm. cbv zeta.
    rewrite Hsection, py_find_empty. cbn [length Z.of_nat Z.add].
    by rewrite py_slice_top.
Qed.

Lemma X22_witness :
  length (str "* leading remark") <= 500
  /\ parse_storage_tables top_note_report !! "Total Usage_note"
     = note_in (firstn 500 top_note_report).
Proof.
  split.
  - apply (proj1 (X22_note_bounded top_note_report) "Total Usage_note"
             (str "* leading remark")).
    vm_compute. reflexivity.
  - apply (proj2 (proj2 (X22_note_bounded top_note_report)) "Total Usage"
             (usage_pattern (lit "Total:") [])
             (default (Found [] None [] [])
                (re_search DOTALL_MULTILINE (usage_pattern (lit "Total:") [])
                   top_note_report))).
    + unfold table_patterns, storage_usage_patterns. simpl. tauto.
    + apply some_default. vm_compute. reflexivity.
    + vm_compute. reflexivity.
Defined.

(** The note stored for the Total table of [top_note_report] is the remark
    at the top of the report, not the note after the table. *)
Example top_note_report_note :
  parse_storage_tables top_note_report !! "Total Usage_note"
  = Some (TNote (str "* leading remark")).
Proof. vm_compute. reflexivity. Qed.

(** * Captured mtree paths *)

(** A repetition of a one-character pattern hands to its continuation the
    text after a run of characters that satisfy it, and adds no capture. *)
Lemma rep_loop_chars body (p : ascii -> bool) :
  (forall prev s cs k0, body prev s cs k0 = step_char p prev s cs k0) ->
  forall g lo fuel count prev (s : text) cs (k : kont) st,
    rep_loop body g lo fuel count prev s cs k = Some st ->
    exists (w : text) p' s',
      s = w ++ s' /\ Forall (fun c => p c = true) w
      /\ lo <= count + length w /\ k p' s' cs = Some st.
Proof.
  intros Hbody g lo fuel.
  induction fuel as [|fuel IH]; intros count prev s cs k st H.
  - simpl in H. destruct (lo <=? count) eqn:E; [|done]. apply Nat.leb_le in E.
    exists [], prev, s. repeat split; [constructor|simpl; lia|done].
  - assert (Hstop : (if lo <=? count then k prev s cs else None) = Some st ->
              exists (w : text) p' s',
                s = w ++ s' /\ Forall (fun c => p c = true) w
                /\ lo <= count + length w /\ k p' s' cs = Some st).
    { destruct (lo <=? count) eqn:E; [|done]. apply Nat.leb_le in E. intros Hk.
      exists [], prev, s. repeat split; [constructor|simpl; lia|done]. }
    assert (Hmore : body prev s cs (fun p' s' cs' =>
                if length s' <? length s
                then rep_loop body g lo fuel (S count) p' s' cs' k
                else None) = Some st ->
              exists (w : text) p' s',
                s = w ++ s' /\ Forall (fun c => p c = true) w
                /\ lo <= count + length w /\ k p' s' cs = Some st).
    { rewrite Hbody. unfold step_char. destruct s as [|c s]; [done|].
      destruct (p c) eqn:Hc; [|done].
      destruct (length s <? length (c :: s)); [|done].
      intros Hb. apply IH in Hb as (w & p' & s' & -> & Hw & Hlo & Hk).
      exists (c :: w), p', s'. repeat split; [by constructor|simpl; lia|done]. }
    cbn [rep_loop] in H. destruct g.
    + destruct (body prev s cs _) eqn:E; [injection H as ->; by apply Hmore|].
      by apply Hstop.
    + destruct (if lo <=? count then k prev s cs else None) eqn:E;
        [injection H as ->; by apply Hstop|].
      by apply Hmore.
Qed.

Lemma adds_groups_refl ids cs : adds_groups ids cs cs.
Proof. by exists []. Qed.

Lemma adds_groups_trans ids1 ids2 cs cs1 cs2 :
  adds_groups ids1 cs cs1 -> adds_groups ids2 cs1 cs2 ->
  adds_groups (ids1 ++ ids2) cs cs2.
Proof.
  intros (n1 & -> & H1) (n2 & -> & H2).
  exists (n2 ++ n1). split; [by rewrite app_assoc|].
  apply Forall_app. split.
  - eapply Forall_impl; [exact H2|]. intros nt H. apply in_or_app. by right.
  - eapply Forall_impl; [exact H1|]. intros nt H. apply in_or_app. by left.
Qed.

Lemma adds_groups_weaken ids ids' cs cs' :
  (forall n, In n ids -> In n ids') -> adds_groups ids cs cs' -> adds_groups ids' cs cs'.
Proof.
  intros Hsub (new & -> & H). exists new. split; [done|].
  eapply Forall_impl; [exact H|]. intros nt. apply Hsub.
Qed.

Lemma rep_loop_ids body ids :
  (forall prev s cs k st, body prev s cs k = Some st ->
     exists p' s' cs', k p' s' cs' = Some st /\ adds_groups ids cs cs') ->
  forall g lo fuel count prev s cs k st,
    rep_loop body g lo fuel count prev s cs k = Some st ->
    exists p' s' cs', k p' s' cs' = Some st /\ adds_groups ids cs cs'.
Proof.
  intros Hbody g lo fuel.
  induction fuel as [|fuel IH]; intros count prev s cs k st H.
  - simpl in H. destruct (lo <=? count); [|done].
    exists prev, s, cs. split; [done|apply adds_groups_refl].
  - assert (Hstop : (if lo <=? count then k prev s cs else None) = Some st ->
              exists p' s' cs', k p' s' cs' = Some st /\ adds_groups ids cs cs').
    { destruct (lo <=? count); [|done]. intros Hk.
      exists prev, s, cs. split; [done|apply adds_groups_refl]. }
    assert (Hmore : body prev s cs (fun p' s' cs' =>
                if length s' <? length s
                then rep_loop body g lo fuel (S count) p' s' cs' k
                else None) = Some st ->
              exists p' s' cs', k p' s' cs' = Some st /\ adds_groups ids cs cs').
    { intros Hb. apply Hbody in Hb as (p1 & s1 & cs1 & Hb & Hc1).
      destruct (length s1 <? length s); [|done].
      apply IH in Hb as (p2 & s2 & cs2 & Hk & Hc2).
      exists p2, s2, cs2. split; [done|].
      eapply adds_groups_weaken; [|exact (adds_groups_trans _ _ _ _ _ Hc1 Hc2)].
      intros n Hn. by apply in_app_or in Hn as [Hn|Hn]. }
    cbn [rep_loop] in H. destruct g.
    + destruct (body prev s cs _) eqn:E; [injection H as ->; by apply Hmore|].
      by apply Hstop.
    + destruct (if lo <=? count then k prev s cs else None) eqn:E;
        [injection H as ->; by apply Hstop|].
      by apply Hmore.
Qed.

(** A match adds captures only for the groups of its pattern. *)
Lemma rmatch_ids fl r :
  forall prev s cs k st,
    rmatch fl r prev s cs k = Some st ->
    exists p' s' cs', k p' s' cs' = Some st /\ adds_groups (group_ids r) cs cs'.
Proof.
  induction r as [c| | | | |c| | | | |r1 IH1 r2 IH2|r1 IH1 r2 IH2|g lo r IH|n r IH|r IH];
    intros prev s cs k st H.
  1-6: cbn [rmatch] in H; unfold step_char in H;
       destruct s as [|x s]; [done|];
       destruct (test_char fl _ x); [|done];
       exists (Some x), s, cs; split; [done|apply adds_groups_refl].
  - exists prev, s, cs. split; [done|apply adds_groups_refl].
  - cbn [rmatch] in H. destruct (at_bol fl prev); [|done].
    exists prev, s, cs. split; [done|apply adds_groups_refl].
  - cbn [rmatch] in H. destruct (at_eol fl s); [|done].
    exists prev, s, cs. split; [done|apply adds_groups_refl].
  - cbn [rmatch] in H. destruct (at_end s); [|done].
    exists prev, s, cs. split; [done|apply adds_groups_refl].
  - cbn [rmatch] in H. apply IH1 in H as (p1 & s1 & cs1 & H & Hc1).
    apply IH2 in H as (p2 & s2 & cs2 & H & Hc2).
    exists p2, s2, cs2. split; [done|]. cbn [group_ids].
    by eapply adds_groups_trans.
  - cbn [rmatch] in H. cbn [group_ids].
    destruct (rmatch fl r1 prev s cs k) eqn:E.
    + injection H as ->. destruct (IH1 _ _ _ _ _ E) as (p1 & s1 & cs1 & Hk & Hc).
      exists p1, s1, cs1. split; [done|].
      eapply adds_groups_weaken; [|exact Hc]. intros n Hn. apply in_or_app. by left.
    + destruct (IH2 _ _ _ _ _ H) as (p1 & s1 & cs1 & Hk & Hc).
      exists p1, s1, cs1. split; [done|].
      eapply adds_groups_weaken; [|exact Hc]. intros n Hn. apply in_or_app. by right.
  - cbn [rmatch] in H. cbn [group_ids].
    exact (rep_loop_ids _ _ IH _ _ _ _ _ _ _ _ _ H).
  - cbn [rmatch] in H. apply IH in H as (p1 & s1 & cs1 & H & (new & -> & Hnew)).
    eexists _, _, _. split; [exact H|]. cbn [group_ids].
    exists ((n, firstn (length s - length s1) s) :: new). split; [done|].
    constructor; [by left|].
    eapply Forall_impl; [exact Hnew|]. intros nt Hnt. by right.
  - cbn [rmatch] in H.
    destruct (rmatch fl r prev s cs _) as [st'|] eqn:E; [|done].
    apply IH in E as (p1 & s1 & cs1 & [= <-] & Hc1).
    exists prev, s, cs1. by split.
Qed.

Lemma group_past (n : nat) (w : text) (new cs : caps) :
  Forall (fun nt : nat * text => nt.1 <> n) new ->
  group n (new ++ (n, w) :: cs) = w.
Proof.
  induction 1 as [|[i t] new Hi H IH]; cbn [app group].
  - by rewrite Nat.eqb_refl.
  - cbn [fst] in Hi. apply Nat.eqb_neq in Hi. by rewrite Hi.
Qed.

(** The group of an mtree path captures an mtree path. *)
Lemma mtree_path_capture fl (n : nat) prev (s : text) cs (k : kont) st :
  ignorecase fl = false ->
  rmatch fl (Group n mtree_path_regex) prev s cs k = Some st ->
  exists path p' s', is_mtree_path path /\ k p' s' ((n, path) :: cs) = Some st.
Proof.
  intros Hfl H. unfold mtree_path_regex in H.
  rewrite rmatch_group, rmatch_cat in H. unfold lit in H.
  rewrite rmatch_lit_text, (starts_with_plain fl _ _ Hfl) in H.
  destruct (startswith (str "/data/col1/") s) eqn:Hs; [|done].
  apply startswith_split in Hs.
  unfold plus in H. rewrite rmatch_rep in H.
  apply (rep_loop_chars _ (test_char fl NotSpace)) in H
    as (w & p' & s' & Hw & Hall & Hlo & Hk); [|done].
  exists (str "/data/col1/" ++ w), p', s'. split.
  - exists w. split; [done|]. split.
    + destruct w; [simpl in Hlo; lia|done].
    + eapply Forall_impl; [exact Hall|]. intros c Hc. cbn [test_char] in Hc.
      by destruct (isspace c).
  - rewrite Hw in Hs. clear Hw. subst s.
    assert (take (length (str "/data/col1/" ++ w ++ s') - length s')
              (str "/data/col1/" ++ w ++ s') = str "/data/col1/" ++ w) as E.
    { rewrite app_assoc.
      replace (length ((str "/data/col1/" ++ w) ++ s') - length s')
        with (length (str "/data/col1/" ++ w)) by (rewrite !length_app; lia).
      apply take_app_length. }
    by rewrite E in Hk.
Qed.

Lemma retention_pattern_path adv start prev (s : text) st :
  match_here DOTALL_MULTILINE retention_pattern adv start prev s = Some st ->
  is_mtree_path (group 1 (ms_caps st)).
Proof.
  unfold match_here, retention_pattern. cbn [cat].
  fold mtree_path_regex.
  rewrite rmatch_cat. unfold lit at 1. rewrite rmatch_lit_text.
  destruct (starts_with _ _ s); [|done].
  rewrite rmatch_cat. intros H.
  apply mtree_path_capture in H as (path & p' & s' & Hpath & H); [|done].
  apply rmatch_ids in H as (p2 & s2 & cs2 & Hk & (new & -> & Hnew)).
  unfold accept in Hk. destruct (adv && _); [done|]. injection Hk as <-.
  cbn [ms_caps]. rewrite group_past; [done|].
  eapply Forall_impl; [exact Hnew|]. intros [i t] Hnt. cbn [fst] in *.
  vm_compute in Hnt. intros ->. intuition discriminate.
Qed.

Lemma search_from_match_here fl r adv start :
  forall (s : text) prev f,
    search_from fl r adv start prev s = Some f ->
    exists prev' s',
      match_here fl r adv start prev' s'
      = Some (MState (f_prev f) (f_rest f) (f_caps f)).
Proof.
  induction s as [|c s IH]; intros prev f H; cbn [search_from] in H.
  - destruct (match_here fl r adv start prev []) as [st|] eqn:E; [|done].
    injection H as <-. exists prev, []. by destruct st.
  - destruct (match_here fl r adv start prev (c :: s)) as [st|] eqn:E.
    + injection H as <-. exists prev, (c :: s). by destruct st.
    + destruct (search_from fl r adv start (Some c) s) as [f'|] eqn:E'; [|done].
      injection H as <-. by apply IH in E'.
Qed.

Lemma matches_fuel_match_here fl r :
  forall fuel adv prev (s : text),
    Forall (fun f => exists adv' start prev' s',
              match_here fl r adv' start prev' s'
              = Some (MState (f_prev f) (f_rest f) (f_caps f)))
      (matches_fuel fuel fl r adv prev s).
Proof.
  induction fuel as [|fuel IH]; intros adv prev s; cbn [matches_fuel]; [constructor|].
  destruct (search_from fl r adv s prev s) as [m|] eqn:E; [|constructor].
  constructor; [|apply IH].
  apply search_from_match_here in E as (prev' & s' & E). by exists adv, s, prev', s'.
Qed.

(** X20. Every key of the retention table is an mtree path: [/data/col1/]
    followed by a name that is not empty and holds no white space. *)
Theorem X20_retention_keys_are_mtree_paths (content : text) :
  map_Forall (fun path _ => is_mtree_path path) (parse_mtree_retention_locks content).
Proof.
  unfold parse_mtree_retention_locks, re_findall, matches.
  pose proof (matches_fuel_match_here DOTALL_MULTILINE retention_pattern
                (2 * length content + 2) false None content) as Hms.
  assert (Hinit : map_Forall (fun (path : text) (_ : retention_info) =>
                      is_mtree_path path) (∅ : gmap text retention_info))
    by apply map_Forall_empty.
  revert Hinit. generalize (∅ : gmap text retention_info).
  induction Hms as [|f ms (adv & start & prev & s & Hf) Hms IH]; intros m Hm; [done|].
  cbn [map fold_left]. apply IH.
  apply map_Forall_insert_2; [|done].
  exact (retention_pattern_path _ _ _ _ _ Hf).
Qed.

Lemma X20_witness : is_mtree_path (str "/data/col1/backup").
Proof.
  apply (X20_retention_keys_are_mtree_paths sample_report (str "/data/col1/backup")
           (default retention_default
              (parse_mtree_retention_locks sample_report !! str "/data/col1/backup"))).
  apply some_default. vm_compute. reflexivity.
Defined.

Lemma mtree_path_pattern_path (s : text) st :
  re_match no_flags mtree_path_pattern s = Some st ->
  is_mtree_path (group 1 (ms_caps st)).
Proof.
  unfold re_match, match_here, mtree_path_pattern. cbn [cat].
  fold mtree_path_regex.
  rewrite rmatch_cat, rmatch_bol. cbn [at_bol]. rewrite rmatch_cat. intros H.
  apply mtree_path_capture in H as (path & p' & s' & Hpath & H); [|done].
  apply rmatch_ids in H as (p2 & s2 & cs2 & Hk & (new & -> & Hnew)).
  unfold accept in Hk. cbn [andb] in Hk. injection Hk as <-.
  cbn [ms_caps]. rewrite group_past; [done|].
  eapply Forall_impl; [exact Hnew|]. intros [i t] Hnt. cbn [fst] in *.
  vm_compute in Hnt. intros ->. intuition discriminate.
Qed.

(** X21. The [Mtree] cell of a decoded row is an mtree path: [/data/col1/]
    followed by a name that is not empty and holds no white space. *)
Theorem X21_mtree_cell_is_mtree_path table_name rl ri (line : text) (r : row)
    (path : text) :
  decode_line table_name rl ri line = Some r ->
  r !! "Mtree" = Some path ->
  is_mtree_path path.
Proof.
  intros Hrow Hcell.
  apply decode_line_cases in Hrow as [Hrow|[Hrow|[Hrow|Hrow]]].
  - apply mtree_list_row_inv in Hrow as (name & size & status & ->).
    by vm_compute in Hcell.
  - unfold mtree_compression_row in Hrow.
    destruct (35 <? length (strip (remove_stars line))); [|done].
    destruct (re_match no_flags mtree_path_pattern (strip (remove_stars line)))
      as [match_data|] eqn:Em; [|done].
    destruct (10 <=? length _); [|done].
    destruct (split_total_reduction (dash_na (item _ 4))) as [t1 p1].
    destruct (split_total_reduction (dash_na (item _ 9))) as [t2 p2].
    injection Hrow as <-.
    apply lookup_insert_Some in Hcell as [[_ <-]|[Hne _]]; [|done].
    by eapply mtree_path_pattern_path.
  - apply usage_row_inv in Hrow as (resource & values & _ & _ & _ & ->).
    by vm_compute in Hcell.
  - apply compression_row_inv in Hrow as (metric & values & _ & _ & ->).
    by vm_compute in Hcell.
Qed.

Lemma X21_witness :
  is_mtree_path (default [] (volume_row !! "Mtree")).
Proof.
  apply (X21_mtree_cell_is_mtree_path "Mtree Active Tier Compression" ∅ ∅ volume_line
           volume_row).
  - apply some_default. vm_compute. reflexivity.
  - apply some_default. vm_compute. reflexivity.
Defined.

(** * The rows of a located section *)

(** ** Which lines give a row *)

Lemma contains_prefix (a b s : text) :
  contains (a ++ b) s = true -> contains a s = true.
Proof.
  assert (Hs : forall s, startswith (a ++ b) s = true -> startswith a s = true).
  { intros s0 H. rewrite startswith_cat in H. by apply andb_true_iff in H as [H _]. }
  induction s as [|c s IH].
  - change (contains (a ++ b) []) with (startswith (a ++ b) [] || false).
    change (contains a []) with (startswith a [] || false).
    rewrite !orb_false_r. apply Hs.
  - change (contains (a ++ b) (c :: s))
      with (startswith (a ++ b) (c :: s) || contains (a ++ b) s).
    change (contains a (c :: s)) with (startswith a (c :: s) || contains a s).
    intros H. apply orb_true_iff in H as [H|H].
    + by rewrite (Hs _ H).
    + rewrite (IH H). apply orb_true_r.
Qed.

Lemma separator_test (line : text) :
  contains (str "----") line || contains (str "-----------") line
  = contains (str "----") line.
Proof.
  destruct (contains (str "----") line) eqn:E; [done|].
  destruct (contains (str "-----------") line) eqn:E'; [|done].
  change (str "-----------") with (str "----" ++ str "-------") in E'.
  apply contains_prefix in E'. congruence.
Qed.

Ltac eval_named :=
  repeat match goal with
  | |- context [named ?tn ?l] =>
      let b := eval vm_compute in (named tn l) in change (named tn l) with b
  | |- context [String.eqb ?a ?b] =>
      let v := eval vm_compute in (String.eqb a b) in change (String.eqb a b) with v
  end;
  cbv iota.

Lemma compression_row_gives (line : text) :
  match compression_row line with Some _ => true | None => false end
  = (contains (str ":") (strip (remove_stars line))
     || any_in ["Currently Used"; "Last 7 days"; "Last 24 hrs"; "Active Tier";
                "Cloud Tier"; "Total"; "Written"] (strip (remove_stars line)))
    && meets_minimum CompressionRow line.
Proof.
  unfold compression_row, meets_minimum. cbv zeta.
  destruct (contains (str ":") _ || _); [|done].
  destruct (2 <=? length (split_ws _)); [|done].
  destruct (compression_metric _) as [metric values]. cbn [snd andb].
  by destruct (2 <=? length values).
Qed.

Lemma compression_guard_gives (line : text) :
  match (if nonempty (strip line) && negb (startswith (str "(") (strip line))
            && negb (startswith (str "Key:") (strip line))
         then compression_row line else None)
  with Some _ => true | None => false end
  = match (if compression_line line then Some CompressionRow else None) with
    | Some l => meets_minimum l line
    | None => false
    end.
Proof.
  unfold compression_line.
  destruct (nonempty (strip line) && negb (startswith (str "(") (strip line))
            && negb (startswith (str "Key:") (strip line))); cbn [andb]; [|done].
  rewrite compression_row_gives.
  by destruct (contains (str ":") _ || _).
Qed.

Lemma mtree_compression_row_gives (line : text) :
  match mtree_compression_row line with Some _ => true | None => false end
  = meets_minimum VolumeCompressionRow line.
Proof.
  unfold mtree_compression_row, meets_minimum, compression_values. cbv zeta.
  destruct (35 <? _); [|done].
  destruct (re_match _ _ _); [|done].
  destruct (10 <=? _); [|done].
  by repeat destruct (split_total_reduction _).
Qed.

(** A line gives a row exactly when it is not passed over, it has a decoder
    and it meets the minimum of that decoder. *)
Lemma decode_line_gives_row tn rl ri (line : text) :
  In tn all_tables ->
  match decode_line tn rl ri line with Some _ => true | None => false end
  = negb (skipped line)
    && match decoder_of tn line with
       | Some l => meets_minimum l line
       | None => false
       end.
Proof.
  intros Hin. unfold all_tables in Hin.
  apply in_app_or in Hin as [Hin|Hin];
    [|apply in_app_or in Hin as [Hin|Hin];
      [|apply in_app_or in Hin as [Hin|Hin]]].
  - rewrite (decode_line_usage _ _ _ _ Hin).
    unfold skipped. rewrite (separator_test line).
    set (guard := contains (str "----") line || negb (nonempty (strip line))).
    unfold usage_tables in Hin. simpl in Hin.
    destruct Hin as [<-|[<-|[<-|[]]]]; unfold decoder_of; eval_named;
      (destruct guard; [done|]; destruct (any_in _ line); [done|];
       cbn [orb negb andb];
       destruct (startswith (str "/") (strip line)); [|done];
       unfold usage_row, meets_minimum; cbv zeta;
       destruct (18 <? _); [|done]; by destruct (1 <=? _)).
  - rewrite (decode_line_compression _ _ _ _ Hin).
    unfold skipped. rewrite (separator_test line).
    set (guard := contains (str "----") line || negb (nonempty (strip line))).
    unfold compression_tables in Hin. simpl in Hin.
    destruct Hin as [<-|[<-|[<-|[]]]]; unfold decoder_of; eval_named;
      (destruct guard; [done|]; destruct (any_in _ line); [done|];
       cbn [orb negb andb]; apply compression_guard_gives).
  - rewrite (decode_line_mtree_compression _ _ _ _ Hin).
    unfold skipped. rewrite (separator_test line).
    set (guard := contains (str "----") line || negb (nonempty (strip line))).
    unfold mtree_compression_tables in Hin. simpl in Hin.
    destruct Hin as [<-|[<-|[]]]; unfold decoder_of; eval_named;
      (destruct guard eqn:Eskip; [done|];
       destruct (any_in _ line); [done|];
       cbn [orb negb andb];
       assert (nonempty (strip line) = true) as Hne
         by (unfold guard in Eskip; apply orb_false_iff in Eskip as [_ Eskip];
             by destruct (nonempty (strip line)));
       rewrite Hne; cbn [andb];
       destruct (startswith (str "/data/col1/") (strip line));
       [apply mtree_compression_row_gives
       |rewrite <- compression_guard_gives; by rewrite Hne]).
  - destruct Hin as [<-|[]].
    rewrite decode_line_mtree_list.
    unfold skipped. rewrite (separator_test line).
    set (guard := contains (str "----") line || negb (nonempty (strip line))).
    unfold decoder_of; eval_named.
    destruct guard eqn:Eskip; [done|].
    destruct (any_in _ line); [done|].
    cbn [orb negb andb].
    assert (nonempty (strip line) = true) as ->
      by (unfold guard in Eskip; apply orb_false_iff in Eskip as [_ Eskip];
          by destruct (nonempty (strip line))).
    cbn [andb].
    destruct (startswith (str "/data/col1/") (strip line)); [|done].
    unfold mtree_list_row, meets_minimum. cbv zeta.
    by destruct (3 <=? _).
Qed.

Lemma table_patterns_names (table_name : string) (pattern : regex) :
  In (table_name, pattern) table_patterns -> In table_name all_tables.
Proof.
  unfold table_patterns, storage_usage_patterns, compression_patterns, mtree_patterns.
  cbn [app In]. intros H.
  repeat (destruct H as [[= <- _]|H]; [vm_compute; tauto|]). done.
Qed.




(** The cells of the row of [c9_report]: the placeholders of the report are
    kept. *)
Example c9_row_cells :
  map (fun key => c9_row !! key) usage_keys
  = [Some (str "/data: pre-comp"); Some (str "-"); Some (str "9000.0");
     Some (str "-"); Some (str "-"); Some (str "-")].
Proof. vm_compute. reflexivity. Qed.

(** The section that the volume list of [c9_doc] is located as: the row
    with three columns and the row with two. *)
Example c9_doc_lines (pattern : regex) :
  In ("Mtree List", pattern) table_patterns ->
  located_lines c9_doc pattern = Some [c9_header_word_line; c9_short_line].
Proof.
  unfold table_patterns, storage_usage_patterns, compression_patterns, mtree_patterns.
  cbn [app In]. intros H.
  repeat (destruct H as [H|H]; [try discriminate H|]); [|done].
  injection H as <-. vm_compute. reflexivity.
Qed.


(** ** Where the cells of a stored row come from *)

Lemma split_char_Forall (P : ascii -> Prop) (c : ascii) (s : text) :
  Forall P s -> Forall (Forall P) (split_char c s).
Proof.
  induction 1 as [|x s Hx Hs IH]; cbn [split_char]; [by repeat constructor|].
  destruct (ascii_eqb x c); [by constructor|].
  destruct (split_char c s) as [|l ls]; [by repeat constructor|].
  apply Forall_cons in IH as [Hl Hls]. constructor; [by constructor|done].
Qed.

Lemma remove_stars_Forall (P : ascii -> Prop) (s : text) :
  Forall P s -> Forall P (remove_stars s).
Proof.
  unfold remove_stars. intros H. rewrite List.Forall_forall in *.
  intros x Hx. apply H. apply list_elem_of_In. apply list_elem_of_In in Hx.
  by apply list_elem_of_filter in Hx as [_ Hx].
Qed.

Lemma group_ids_lit_text (w : text) : group_ids (lit_text w) = [].
Proof.
  induction w as [|c w IH]; [done|].
  destruct w as [|c' w]; [done|]. cbn [lit_text group_ids app] in *. exact IH.
Qed.

Lemma adds_groups_nil (cs cs' : caps) : adds_groups [] cs cs' -> cs' = cs.
Proof.
  intros (new & -> & Hnew). destruct new as [|nt new]; [done|].
  apply Forall_cons in Hnew as [[] _].
Qed.

(** A pattern without groups, in front of another, leaves the captures of
    the other as they are. *)
Lemma rmatch_cat_plain (fl : flags) (r1 r2 : regex) prev (s : text) cs (k : kont) st :
  group_ids r1 = [] ->
  rmatch fl (Cat r1 r2) prev s cs k = Some st ->
  exists p' s', rmatch fl r2 p' s' cs k = Some st.
Proof.
  intros Hids H. rewrite rmatch_cat in H.
  apply rmatch_ids in H as (p' & s' & cs' & H & Hc).
  rewrite Hids in Hc. apply adds_groups_nil in Hc as ->. by exists p', s'.
Qed.

(** The section of a volume-compression table holds no dash. *)
Lemma mtree_compression_section_no_dash (tier stop : string) adv start prev
    (s : text) st :
  match_here DOTALL_MULTILINE (mtree_compression_pattern tier stop) adv start prev s
  = Some st ->
  Forall (fun c => c <> "-"%char) (group 1 (ms_caps st)).
Proof.
  unfold match_here, mtree_compression_pattern. cbn [cat]. intros H.
  apply rmatch_cat_plain in H as (p1 & s1 & H); [|apply group_ids_lit_text].
  apply rmatch_cat_plain in H as (p2 & s2 & H); [|done].
  apply rmatch_cat_plain in H as (p3 & s3 & H); [|done].
  apply rmatch_cat_plain in H as (p4 & s4 & H); [|apply group_ids_lit_text].
  apply rmatch_cat_plain in H as (p5 & s5 & H); [|done].
  apply rmatch_cat_plain in H as (p6 & s6 & H); [|done].
  rewrite rmatch_cat, rmatch_group in H. unfold lazy_star in H.
  rewrite rmatch_rep in H.
  apply (rep_loop_chars _ (test_char DOTALL_MULTILINE (NotChar "-"))) in H
    as (w & p' & s' & Hw & Hall & _ & Hk); [|done].
  apply rmatch_ids in Hk as (p7 & s7 & cs7 & Hk & Hc).
  assert (group_ids (Alt (dashes 10) (lit stop)) = []) as Hids
    by (cbn [group_ids dashes app]; apply group_ids_lit_text).
  rewrite Hids in Hc. apply adds_groups_nil in Hc as ->.
  unfold accept in Hk. destruct (adv && _); [done|]. injection Hk as <-.
  cbn [ms_caps group]. rewrite Nat.eqb_refl.
  subst s6.
  replace (length (w ++ s') - length s') with (length w)
    by (rewrite length_app; lia).
  rewrite take_app_length.
  eapply Forall_impl; [exact Hall|]. intros c Hc. cbn [test_char] in Hc.
  intros ->. by rewrite ascii_eqb_refl in Hc.
Qed.

Lemma located_no_dash (content : text) (table_name : string) (pattern : regex)
    (lines : list text) :
  In table_name mtree_compression_tables ->
  In (table_name, pattern) table_patterns ->
  located_lines content pattern = Some lines ->
  Forall (Forall (fun c => c <> "-"%char)) lines.
Proof.
  intros Hname Hin Hl. unfold located_lines, re_search in Hl.
  destruct (search_from DOTALL_MULTILINE pattern false content None content)
    as [m|] eqn:Em; [|done].
  injection Hl as <-.
  apply search_from_match_here in Em as (prev' & s' & Em).
  apply split_char_Forall.
  eapply part_of_Forall; [apply part_of_strip|].
  change (f_caps m) with (ms_caps (MState (f_prev m) (f_rest m) (f_caps m))).
  unfold table_patterns, storage_usage_patterns, compression_patterns,
    mtree_patterns in Hin.
  unfold mtree_compression_tables in Hname.
  cbn [app In] in Hin, Hname.
  destruct Hname as [<-|[<-|[]]];
    repeat (destruct Hin as [Hin|Hin]; [try discriminate Hin|]); try done;
    injection Hin as <-;
    eapply mtree_compression_section_no_dash; exact Em.
Qed.

Lemma token_not_dash (v line : text) :
  Forall (fun c => c <> "-"%char) line ->
  part_of v (remove_stars line) -> v <> str "-".
Proof.
  intros Hline Hv ->.
  apply remove_stars_Forall in Hline.
  apply (part_of_Forall _ _ _ Hv) in Hline.
  by apply Forall_cons in Hline as [Hc _].
Qed.

(** A line gives the row of its decoder, unless it is passed over. *)
Lemma decode_line_layout tn rl ri (line : text) :
  In tn all_tables ->
  decode_line tn rl ri line
  = if skipped line then None
    else match decoder_of tn line with
         | Some l => row_of l rl ri line
         | None => None
         end.
Proof.
  assert (Hc : (if nonempty (strip line) && negb (startswith (str "(") (strip line))
                   && negb (startswith (str "Key:") (strip line))
                then compression_row line else None)
               = match (if compression_line line then Some CompressionRow else None)
                 with
                 | Some l => row_of l rl ri line
                 | None => None
                 end).
  { unfold compression_line.
    destruct (nonempty (strip line) && negb (startswith (str "(") (strip line))
              && negb (startswith (str "Key:") (strip line))); cbn [andb]; [|done].
    destruct (contains (str ":") _ || _) eqn:E; [done|].
    unfold compression_row. cbv zeta. by rewrite E. }
  intros Hin. unfold all_tables in Hin.
  apply in_app_or in Hin as [Hin|Hin];
    [|apply in_app_or in Hin as [Hin|Hin];
      [|apply in_app_or in Hin as [Hin|Hin]]].
  - rewrite (decode_line_usage _ _ _ _ Hin).
    unfold skipped. rewrite (separator_test line).
    set (guard := contains (str "----") line || negb (nonempty (strip line))).
    unfold usage_tables in Hin. simpl in Hin.
    destruct Hin as [<-|[<-|[<-|[]]]]; unfold decoder_of; eval_named;
      (destruct guard; [done|]; destruct (any_in _ line); [done|];
       cbn [orb]; by destruct (startswith (str "/") (strip line))).
  - rewrite (decode_line_compression _ _ _ _ Hin).
    unfold skipped. rewrite (separator_test line).
    set (guard := contains (str "----") line || negb (nonempty (strip line))).
    unfold compression_tables in Hin. simpl in Hin.
    destruct Hin as [<-|[<-|[<-|[]]]]; unfold decoder_of; eval_named;
      (destruct guard; [done|]; destruct (any_in _ line); [done|];
       cbn [orb]; exact Hc).
  - rewrite (decode_line_mtree_compression _ _ _ _ Hin).
    unfold skipped. rewrite (separator_test line).
    set (guard := contains (str "----") line || negb (nonempty (strip line))).
    unfold mtree_compression_tables in Hin. simpl in Hin.
    destruct Hin as [<-|[<-|[]]]; unfold decoder_of; eval_named;
      (destruct guard eqn:Eskip; [done|];
       destruct (any_in _ line); [done|];
       cbn [orb];
       assert (nonempty (strip line) = true) as Hne
         by (unfold guard in Eskip; apply orb_false_iff in Eskip as [_ Eskip];
             by destruct (nonempty (strip line)));
       destruct (startswith (str "/data/col1/") (strip line));
       [by rewrite Hne|rewrite andb_false_r; exact Hc]).
  - destruct Hin as [<-|[]].
    rewrite decode_line_mtree_list.
    unfold skipped. rewrite (separator_test line).
    set (guard := contains (str "----") line || negb (nonempty (strip line))).
    unfold decoder_of; eval_named.
    destruct guard eqn:Eskip; [done|].
    destruct (any_in _ line); [done|].
    cbn [orb].
    assert (nonempty (strip line) = true) as ->
      by (unfold guard in Eskip; apply orb_false_iff in Eskip as [_ Eskip];
          by destruct (nonempty (strip line))).
    cbn [andb].
    by destruct (startswith (str "/data/col1/") (strip line)).
Qed.

Lemma decoder_of_volume_compression (tn : string) (line : text) :
  decoder_of tn line = Some VolumeCompressionRow ->
  In tn mtree_compression_tables.
Proof.
  unfold decoder_of, named.
  destruct (existsb (String.eqb tn) usage_tables);
    [by destruct (startswith _ _)|].
  destruct (String.eqb tn "Mtree List"); [by destruct (startswith _ _)|].
  destruct (existsb (String.eqb tn) mtree_compression_tables) eqn:E.
  - intros _. apply existsb_exists in E as (x & Hx & E).
    apply String.eqb_eq in E. by subst.
  - destruct (existsb (String.eqb tn) compression_tables); [|done].
    by destruct (compression_line line).
Qed.

Lemma part_of_contains (t s : text) : part_of t s -> contains t s = true.
Proof.
  intros (pre & post & ->). apply contains_app_r.
  destruct (t ++ post) as [|c u] eqn:E; cbn [contains]; rewrite <- E;
    by rewrite startswith_app.
Qed.

Lemma item_map_strip (parts : list text) (i : nat) :
  item (map strip parts) i = strip (item parts i).
Proof. unfold item. change (@nil ascii) with (strip []) at 1. apply map_nth. Qed.

Lemma item_dash_in_range (values : list text) (i : nat) :
  item values i = str "-" -> i < length values.
Proof.
  intros H. destruct (Nat.lt_ge_cases i (length values)) as [|Hge]; [done|].
  unfold item in H. by rewrite nth_overflow in H.
Qed.

Lemma cells_keep_dash (columns : list (string * nat)) (values : list text) (r : row) :
  Forall (fun '(key, i) =>
            r !! key = Some (if i <? length values then item values i
                             else str "N/A")) columns ->
  forall key i, In (key, i) columns -> item values i = str "-" ->
                r !! key = Some (str "-").
Proof.
  intros H key i Hin Hdash. rewrite List.Forall_forall in H.
  specialize (H _ Hin). cbn beta iota in H.
  apply item_dash_in_range in Hdash as Hlt. apply Nat.ltb_lt in Hlt.
  by rewrite Hlt, Hdash in H.
Qed.

Lemma usage_row_cells (line : text) (r : row) :
  usage_row line = Some r ->
  Forall (fun v => part_of v (remove_stars line)) (value_tokens UsageRow line)
  /\ Forall (fun '(key, i) =>
               r !! key = Some (if i <? length (value_tokens UsageRow line)
                                then item (value_tokens UsageRow line) i
                                else str "N/A")) usage_columns
  /\ r !! "Resource" = Some (strip (firstn 18 (strip (remove_stars line))))
  /\ part_of (strip (firstn 18 (strip (remove_stars line)))) (remove_stars line).
Proof.
  unfold usage_row, value_tokens. cbv zeta. intros H.
  destruct (18 <? length (strip (remove_stars line))); [|done].
  destruct (1 <=? _); [|done]. injection H as <-.
  split; [|split; [|split]].
  - eapply Forall_impl; [apply split_ws_parts|]. intros t Ht. cbn beta in Ht.
    eapply part_of_trans; [exact Ht|].
    eapply part_of_trans; [apply part_of_strip|].
    eapply part_of_trans; [apply part_of_skipn|apply part_of_strip].
  - unfold usage_columns. repeat constructor; done.
  - done.
  - eapply part_of_trans; [apply part_of_strip|].
    eapply part_of_trans; [apply part_of_firstn|apply part_of_strip].
Qed.

Lemma compression_row_cells (line : text) (r : row) :
  compression_row line = Some r ->
  Forall (fun v => part_of v (remove_stars line)) (value_tokens CompressionRow line)
  /\ Forall (fun '(key, i) =>
               r !! key = Some (if i <? length (value_tokens CompressionRow line)
                                then item (value_tokens CompressionRow line) i
                                else str "N/A")) compression_columns.
Proof.
  unfold compression_row, value_tokens. cbv zeta. intros H.
  destruct (contains (str ":") _ || _); [|done].
  destruct (2 <=? length (split_ws _)); [|done].
  destruct (compression_metric_values (split_ws (strip (remove_stars line))))
    as [k Hk].
  destruct (compression_metric (split_ws (strip (remove_stars line))))
    as [metric values].
  cbn [snd] in *.
  destruct (2 <=? length values); [|done]. injection H as <-. split.
  - rewrite Hk. apply Forall_drop.
    eapply Forall_impl; [apply split_ws_parts|]. intros t Ht. cbn beta in Ht.
    eapply part_of_trans; [exact Ht|apply part_of_strip].
  - unfold compression_columns. repeat constructor; done.
Qed.

Lemma mtree_list_row_cells rl ri (line : text) (r : row) :
  mtree_list_row rl ri line = Some r ->
  Forall (fun v => part_of v (remove_stars line)) (value_tokens VolumeListRow line)
  /\ Forall (fun '(key, i) =>
               r !! key = Some (if i <? length (value_tokens VolumeListRow line)
                                then item (value_tokens VolumeListRow line) i
                                else str "N/A")) mtree_list_columns.
Proof.
  unfold mtree_list_row, value_tokens. cbv zeta. intros H.
  set (parts := re_split no_flags two_spaces (strip (remove_stars line))) in *.
  destruct (3 <=? length parts) eqn:El; [|done]. apply Nat.leb_le in El.
  injection H as <-. split.
  - apply Forall_map.
    eapply Forall_impl; [apply (re_split_parts no_flags two_spaces)|].
    intros t Ht. cbn beta in Ht.
    eapply part_of_trans; [apply part_of_strip|].
    eapply part_of_trans; [exact Ht|apply part_of_strip].
  - unfold mtree_list_columns.
    repeat constructor; cbn beta iota; rewrite length_map, item_map_strip;
      rewrite (proj2 (Nat.ltb_lt _ _)) by lia; done.
Qed.

Lemma mtree_compression_row_cells (line : text) (r : row) :
  Forall (fun c => c <> "-"%char) line ->
  mtree_compression_row line = Some r ->
  let values := value_tokens VolumeCompressionRow line in
  Forall (fun v => part_of v (remove_stars line)) values
  /\ Forall (fun '(key, i) =>
               r !! key = Some (if i <? length values then item values i
                                else str "N/A")) plain_columns
  /\ Forall (fun v => v <> str "-") values
  /\ (exists path, compression_path line = Some path
                   /\ part_of path (remove_stars line)
                   /\ r !! "Mtree" = Some path)
  /\ r !! "Total_24hrs" = Some (split_total_reduction (item values 4)).1
  /\ r !! "Reduction_24hrs_Percent" = Some (split_total_reduction (item values 4)).2
  /\ r !! "Total_7days" = Some (split_total_reduction (item values 9)).1
  /\ r !! "Reduction_7days_Percent" = Some (split_total_reduction (item values 9)).2.
Proof.
  intros Hline H values.
  assert (Hparts : Forall (fun v => part_of v (remove_stars line)) values
                   /\ 10 <= length values).
  { unfold values, value_tokens, compression_values. cbv zeta.
    unfold mtree_compression_row in H.
    destruct (35 <? _); [|done].
    destruct (re_match no_flags mtree_path_pattern (strip (remove_stars line)))
      as [match_data|] eqn:Em; [|done].
    cbn [default from_option]. unfold id.
    destruct (10 <=? _) eqn:El; [|done]. apply Nat.leb_le in El. split; [|done].
    eapply Forall_impl; [apply split_ws_parts|]. intros t Ht. cbn beta in Ht.
    eapply part_of_trans; [exact Ht|].
    eapply part_of_trans; [apply part_of_strip|].
    eapply part_of_trans; [|apply part_of_strip]. by eapply re_match_part_of. }
  destruct Hparts as [Hparts Hlen].
  assert (Hnd : Forall (fun v => v <> str "-") values).
  { eapply Forall_impl; [exact Hparts|]. intros v Hv. cbn beta in Hv.
    by eapply token_not_dash. }
  assert (Hkeep : forall i, i < 10 -> dash_na (item values i) = item values i).
  { intros i Hi. apply dash_na_other.
    rewrite List.Forall_forall in Hnd. apply Hnd. unfold item. apply nth_In. lia. }
  assert (Hlt : forall i, i < 10 -> (i <? length values) = true)
    by (intros i Hi; apply Nat.ltb_lt; lia).
  unfold mtree_compression_row, compression_path in *.
  unfold values, value_tokens, compression_values in *. cbv zeta in *.
  destruct (35 <? _); [|done].
  destruct (re_match no_flags mtree_path_pattern (strip (remove_stars line)))
    as [match_data|] eqn:Em; [|done].
  cbn [default from_option] in *. unfold id in *.
  set (vals := split_ws (strip (group 2 (ms_caps match_data)))) in *.
  destruct (10 <=? length vals); [|done].
  rewrite !Hkeep in H by lia.
  destruct (split_total_reduction (item vals 4)) as [t1 p1].
  destruct (split_total_reduction (item vals 9)) as [t2 p2].
  injection H as <-.
  split; [done|]. split; [|split; [done|split; [|done]]].
  - unfold plain_columns.
    repeat constructor; cbn beta iota; rewrite Hlt by lia; done.
  - eexists. split; [done|]. split; [|done].
    eapply part_of_trans; [|apply part_of_strip]. by eapply re_match_part_of.
Qed.

(** C4, amended. The claim fails where it takes the cells for substrings of
    the source line: the decoders read a line with its asterisks removed,
    and a column for which the line has no token holds the sentinel. What
    holds: every row stored for a table is decoded from a line of the
    section located for that table, a line that is not passed over and that
    meets the minimum of its decoder; the tokens that the decoder reads by
    position are parts of that line with its asterisks removed, and every
    cell read by position holds its token as it stands, with no numeric
    parsing or unit conversion, or the sentinel when the line has no such
    token; so a token that is a lone dash is stored as a lone dash. The
    resource of a usage row is the trimmed first 18 characters. In a
    volume-compression row no token is a lone dash, for the section of such
    a table is located by a pattern that admits no dash, so the replacement
    of a dash by the sentinel in that decoder never shows in a stored row;
    its path is the path that starts the line; and its two total cells are
    split at the parenthesis into a total and a percentage, a cell without
    the pair of parentheses being the total while the percentage is the
    sentinel. *)
Theorem C4_cells_as_presented
    (content : text) (table_name : string) (pattern : regex)
    (rows : list row) (r : row) :
  In (table_name, pattern) table_patterns ->
  parse_storage_tables content !! table_name = Some (TRows rows) ->
  In r rows ->
  (exists lines line l,
     located_lines content pattern = Some lines /\ In line lines
     /\ skipped line = false
     /\ decoder_of table_name line = Some l
     /\ meets_minimum l line = true
     /\ Forall (fun v => part_of v (remove_stars line)) (value_tokens l line)
     /\ Forall (fun '(key, i) =>
                  r !! key = Some (if i <? length (value_tokens l line)
                                   then item (value_tokens l line) i
                                   else str "N/A")) (columns_of l)
     /\ (forall key i, In (key, i) (columns_of l) ->
           item (value_tokens l line) i = str "-" -> r !! key = Some (str "-"))
     /\ match l with
        | UsageRow =>
            r !! "Resource" = Some (strip (firstn 18 (strip (remove_stars line))))
            /\ part_of (strip (firstn 18 (strip (remove_stars line))))
                 (remove_stars line)
        | VolumeCompressionRow =>
            Forall (fun v => v <> str "-") (value_tokens l line)
            /\ (exists path, compression_path line = Some path
                             /\ part_of path (remove_stars line)
                             /\ r !! "Mtree" = Some path)
            /\ r !! "Total_24hrs"
               = Some (split_total_reduction (item (value_tokens l line) 4)).1
            /\ r !! "Reduction_24hrs_Percent"
               = Some (split_total_reduction (item (value_tokens l line) 4)).2
            /\ r !! "Total_7days"
               = Some (split_total_reduction (item (value_tokens l line) 9)).1
            /\ r !! "Reduction_7days_Percent"
               = Some (split_total_reduction (item (value_tokens l line) 9)).2
        | CompressionRow | VolumeListRow => True
        end)
  /\ (forall v, contains (str "(") v && contains (str ")") v = false ->
        split_total_reduction v = (v, str "N/A"))
  /\ (forall a b,
        Forall (fun x => x <> "("%char) a ->
        Forall (fun x => x <> "("%char) b ->
        Forall (fun x => x <> ")"%char) b ->
        split_total_reduction (a ++ str "(" ++ b ++ str ")") = (a, b)).
Proof.
  intros Hin Hrows Hr.
  split; [|split; [apply split_total_reduction_plain|apply split_total_reduction_pair]].
  pose proof (table_patterns_names _ _ Hin) as Hname.
  rewrite (parse_storage_tables_lookup _ _ _ Hin) in Hrows.
  destruct (located_lines content pattern) as [lines|] eqn:Hlines.
  2:{ unfold located, located_lines in *.
      by destruct (re_search DOTALL_MULTILINE pattern content). }
  assert (rows = omap (decode_line table_name (parse_mtree_retention_locks content)
                         (parse_mtree_replication_info content)) lines) as ->.
  { unfold located, located_lines, decode_section in *.
    destruct (re_search DOTALL_MULTILINE pattern content); [|done].
    injection Hlines as <-. by injection Hrows as <-. }
  apply list_elem_of_In, list_elem_of_omap in Hr as (line & Hline & Hdec).
  apply list_elem_of_In in Hline.
  pose proof (decode_line_gives_row table_name (parse_mtree_retention_locks content)
                (parse_mtree_replication_info content) line Hname) as Hg.
  rewrite Hdec in Hg.
  rewrite decode_line_layout in Hdec by done.
  destruct (skipped line) eqn:Eskip; [done|].
  destruct (decoder_of table_name line) as [l|] eqn:El; [|done].
  cbn [negb andb] in Hg. symmetry in Hg.
  exists lines, line, l.
  do 5 (split; [done|]).
  assert (Hcells :
    Forall (fun v => part_of v (remove_stars line)) (value_tokens l line)
    /\ Forall (fun '(key, i) =>
                 r !! key = Some (if i <? length (value_tokens l line)
                                  then item (value_tokens l line) i
                                  else str "N/A")) (columns_of l)
    /\ match l with
       | UsageRow =>
           r !! "Resource" = Some (strip (firstn 18 (strip (remove_stars line))))
           /\ part_of (strip (firstn 18 (strip (remove_stars line))))
                (remove_stars line)
       | VolumeCompressionRow =>
           Forall (fun v => v <> str "-") (value_tokens l line)
           /\ (exists path, compression_path line = Some path
                            /\ part_of path (remove_stars line)
                            /\ r !! "Mtree" = Some path)
           /\ r !! "Total_24hrs"
              = Some (split_total_reduction (item (value_tokens l line) 4)).1
           /\ r !! "Reduction_24hrs_Percent"
              = Some (split_total_reduction (item (value_tokens l line) 4)).2
           /\ r !! "Total_7days"
              = Some (split_total_reduction (item (value_tokens l line) 9)).1
           /\ r !! "Reduction_7days_Percent"
              = Some (split_total_reduction (item (value_tokens l line) 9)).2
       | CompressionRow | VolumeListRow => True
       end).
  { destruct l; cbn [row_of columns_of] in *.
    - apply usage_row_cells in Hdec as (H1 & H2 & H3 & H4). done.
    - apply compression_row_cells in Hdec as (H1 & H2). done.
    - apply mtree_list_row_cells in Hdec as (H1 & H2). done.
    - apply decoder_of_volume_compression in El as Hfam.
      pose proof (located_no_dash _ _ _ _ Hfam Hin Hlines) as Hnd.
      rewrite List.Forall_forall in Hnd. specialize (Hnd _ Hline).
      apply (mtree_compression_row_cells _ _ Hnd) in Hdec
        as (H1 & H2 & H3 & H4 & H5 & H6 & H7 & H8).
      done. }
  destruct Hcells as (H1 & H2 & H3).
  split; [done|]. split; [done|]. split; [|done].
  by apply cells_keep_dash.
Qed.

Lemma c4_volume_line_decoded : mtree_compression_row c4_volume_line = Some c4_volume_row.
Proof. apply some_default. vm_compute. reflexivity. Qed.

Lemma c4_report_rows :
  parse_storage_tables c4_report !! "Mtree Active Tier Compression"
  = Some (TRows [c4_volume_row]).
Proof. vm_compute. reflexivity. Qed.

Lemma C4_witness :
  parse_storage_tables c4_report !! "Mtree Active Tier Compression"
  = Some (TRows [c4_volume_row])
  /\ exists line,
       located_lines c4_report (mtree_compression_pattern "Active Tier:" "Cloud Tier:")
       = Some [line]
       /\ skipped line = false
       /\ Forall (fun v => v <> str "-") (value_tokens VolumeCompressionRow line)
       /\ c4_volume_row !! "Total_24hrs"
          = Some (split_total_reduction
                    (item (value_tokens VolumeCompressionRow line) 4)).1
       /\ c4_volume_row !! "Reduction_24hrs_Percent"
          = Some (split_total_reduction
                    (item (value_tokens VolumeCompressionRow line) 4)).2.
Proof.
  split; [exact c4_report_rows|].
  destruct (C4_cells_as_presented c4_report "Mtree Active Tier Compression"
              (mtree_compression_pattern "Active Tier:" "Cloud Tier:")
              [c4_volume_row] c4_volume_row) as [H _].
  - vm_compute. tauto.
  - exact c4_report_rows.
  - by left.
  - destruct H as (lines & line & l & Hlines & Hline & Hskip & Hl & _ & _ & _ & _ & H).
    assert (located_lines c4_report
              (mtree_compression_pattern "Active Tier:" "Cloud Tier:")
            = Some [c4_volume_line]) as E by (vm_compute; reflexivity).
    rewrite E in Hlines. injection Hlines as <-.
    destruct Hline as [<-|[]].
    assert (decoder_of "Mtree Active Tier Compression" c4_volume_line
            = Some VolumeCompressionRow) as E' by (vm_compute; reflexivity).
    rewrite E' in Hl. injection Hl as <-.
    destruct H as (H1 & _ & H2 & H3 & _).
    exists c4_volume_line.
    split; [exact E|]. split; [exact Hskip|]. split; [exact H1|].
    split; [exact H2|exact H3].
Defined.

(** The cells of the volume-compression row of [c4_report]: the first total
    is split at its parenthesis, the second has none. *)
Example c4_volume_row_cells :
  map (fun key => c4_volume_row !! key) mtree_compression_keys
  = [Some (str "/data/col1/backup"); Some (str "10.0"); Some (str "12.5");
     Some (str "1.0x"); Some (str "2.0x"); Some (str "2.0x"); Some (str "50.0%");
     Some (str "700.0"); Some (str "70.0"); Some (str "5.0x"); Some (str "2.0x");
     Some (str "10.0x"); Some (str "N/A")].
Proof. vm_compute. reflexivity. Qed.

(** The total usage of the record of [c4_report]: the placeholders of its
    row are kept as they stand. *)
Example c4_report_dashes_kept :
  table_cells (parse_autosupport_file (one_file c4_path c4_report) None c4_path)
    "Total Usage" usage_keys
  = Some [[Some (str "/data: pre-comp"); Some (str "-"); Some (str "9000.0");
           Some (str "-"); Some (str "-"); Some (str "-")]].
Proof. vm_compute. reflexivity. Qed.

(** The total usage of the record of [c4_starred_report]. *)
Example c4_starred_cells :
  table_cells
    (parse_autosupport_file (one_file c4_path c4_starred_report) None c4_path)
    "Total Usage" usage_keys
  = Some [[Some (str "/data: post-comp"); Some (str "100.0"); Some (str "50.0");
           Some (str "50.0"); Some (str "50%"); Some (str "0.0")]].
Proof. vm_compute. reflexivity. Qed.

(** C4, counterexample: the first value of the row of [c4_starred_report]
    is written with an asterisk inside; the record holds it without the
    asterisk, a text that occurs nowhere in the report, let alone in the
    source line. *)
Lemma C4_asterisk_counterexample :
  ~ (forall rows r key v,
       get_table
         (parse_autosupport_file (one_file c4_path c4_starred_report) None c4_path)
         "Total Usage" = Some rows ->
       In r rows -> r !! key = Some v -> part_of v c4_starred_report).
Proof.
  intros H.
  assert (Hrows : get_table
            (parse_autosupport_file (one_file c4_path c4_starred_report) None c4_path)
            "Total Usage" = Some [c4_starred_row]) by (vm_compute; reflexivity).
  assert (Hcell : c4_starred_row !! "Size_GiB" = Some (str "100.0"))
    by (vm_compute; reflexivity).
  specialize (H [c4_starred_row] c4_starred_row "Size_GiB" (str "100.0") Hrows
                (or_introl eq_refl) Hcell).
  apply part_of_contains in H. vm_compute in H. discriminate H.
Qed.
